(** * Configuration subsystem of the transformer inference simulator

    A shallow embedding of [src/utils/config.py]: the five configuration
    dataclasses and their aggregate, the dictionary codec
    ([to_dict]/[from_dict]), the default factory, the file codec
    ([load_config]/[save_config]), the validator ([validate_config]) and the
    override merge ([merge_configs]).

    Python values are dynamically typed and the dataclasses check nothing at
    construction time, so every leaf field holds a [pyval].  Exceptions are
    explicit results, and the file operations run in a state monad over a
    small filesystem.

    The last part of the definitions embeds what [src/utils/visualization.py]
    computes itself: the performance report, the plotting of a whole run,
    and the bars, colours and widths handed to the drawing libraries. *)

From stdpp Require Import base option list strings gmap fin_maps fin_sets.
From Stdlib Require Import ZArith Lia Ascii.

#[local] Set Warnings "-register-all".
Local Open Scope Z_scope.

(** ** Python values *)

(** A float is NaN, an infinity, or the dyadic rational [(-1)^neg * m * 2^e];
    every IEEE double is one of these, and only comparisons are performed on
    them here. *)
Inductive pyfloat :=
| F_nan
| F_inf (neg : bool)
| F_fin (neg : bool) (m : N) (e : Z).

(** The values a configuration tree can hold: what the YAML and JSON loaders
    produce.  A [dict] is a finite map with string keys. *)
Inductive pyval :=
| PNone
| PBool (b : bool)
| PInt (n : Z)
| PFloat (f : pyfloat)
| PStr (s : string)
| PList (l : list pyval)
| PDict (d : gmap string pyval).

(** Exception classes.  [KeyboardInterrupt] derives from [BaseException]
    only, so [except Exception] lets it through.  [OutsideFragment] is not a
    Python exception: it marks an operation this embedding does not model
    (ordering two strings or two lists), and no handler absorbs it, so a
    theorem that states a result also states that the operation was never
    reached. *)
Inductive exn :=
| KeyError (key : pyval)
| TypeError
| AttributeError
| ValueError
| FileNotFoundError
| FileExistsError
| IsADirectoryError
| NotADirectoryError
| YAMLError
| JSONDecodeError
| KeyboardInterrupt
| OutsideFragment.

(** [isinstance(e, Exception)] *)
Definition is_Exception (e : exn) : bool :=
  match e with
  | KeyboardInterrupt | OutsideFragment => false
  | _ => true
  end.

Inductive result (A : Type) :=
| Ok (a : A)
| Raise (e : exn).
Arguments Ok {A} a.
Arguments Raise {A} e.

#[global] Instance result_ret : MRet result := λ A, Ok.
#[global] Instance result_bind : MBind result :=
  λ A B f m, match m with Ok a => f a | Raise e => Raise e end.

#[global] Instance result_fmap : FMap result :=
  λ A B f m, match m with Ok a => Ok (f a) | Raise e => Raise e end.

(** [try: m  except Exception: return v] *)
Definition try_except_Exception {A} (m : result A) (v : A) : result A :=
  match m with
  | Ok a => Ok a
  | Raise e => if is_Exception e then Ok v else Raise e
  end.

(** ** Numbers and their ordering *)

(** The numeric tower seen by the comparison operators: [bool] is a subclass
    of [int], and an [int] is compared with a [float] exactly. *)
Inductive xnum :=
| XNan
| XInf (neg : bool)
| XDy (m e : Z).

Definition float_x (f : pyfloat) : xnum :=
  match f with
  | F_nan => XNan
  | F_inf s => XInf s
  | F_fin s m e => XDy (if s then - Z.of_N m else Z.of_N m) e
  end.

Definition as_number (v : pyval) : option xnum :=
  match v with
  | PBool b => Some (XDy (Z.b2z b) 0)
  | PInt n => Some (XDy n 0)
  | PFloat f => Some (float_x f)
  | _ => None
  end.

(** Compares [m1 * 2^e1] with [m2 * 2^e2]. *)
Definition dy_compare (m1 e1 m2 e2 : Z) : comparison :=
  let e := Z.min e1 e2 in
  (m1 * 2 ^ (e1 - e)) ?= (m2 * 2 ^ (e2 - e)).

(** [None] when one side is NaN: every ordered comparison is then false. *)
Definition num_compare (a b : xnum) : option comparison :=
  match a, b with
  | XNan, _ | _, XNan => None
  | XInf s1, XInf s2 =>
      Some (if s1 then (if s2 then Eq else Lt) else (if s2 then Gt else Eq))
  | XInf s, XDy _ _ => Some (if s then Lt else Gt)
  | XDy _ _, XInf s => Some (if s then Gt else Lt)
  | XDy m1 e1, XDy m2 e2 => Some (dy_compare m1 e1 m2 e2)
  end.

Definition num_le (a b : xnum) : bool :=
  match num_compare a b with
  | Some Lt | Some Eq => true
  | _ => false
  end.

Definition num_gt (a b : xnum) : bool :=
  match num_compare a b with
  | Some Gt => true
  | _ => false
  end.

(** Both operands of an ordering are orderable with each other when both are
    numbers; a string against a string, or a list against a list, is ordered
    by Python but not here; every other pairing raises [TypeError]. *)
Definition py_order (op : xnum → xnum → bool) (x y : pyval) : result bool :=
  match as_number x, as_number y with
  | Some a, Some b => Ok (op a b)
  | _, _ =>
      match x, y with
      | PStr _, PStr _ | PList _, PList _ => Raise OutsideFragment
      | _, _ => Raise TypeError
      end
  end.

(** [x <= y] *)
Definition py_le : pyval → pyval → result bool := py_order num_le.
(** [x > y] *)
Definition py_gt : pyval → pyval → result bool := py_order num_gt.

(** [a or b] on two conditions: [b] is not evaluated when [a] is true. *)
Definition py_or (a b : result bool) : result bool :=
  t ← a; if t : bool then Ok true else b.

(** [lo <= x <= hi]: the second comparison runs only if the first holds. *)
Definition py_between (lo x hi : pyval) : result bool :=
  t ← py_le lo x; if t : bool then py_le x hi else Ok false.

(** [not c] *)
Definition py_not (c : result bool) : result bool := negb <$> c.

(** ** Truth value, iteration, subscripting *)

(** [bool(v)] *)
Definition py_truthy (v : pyval) : bool :=
  match v with
  | PNone => false
  | PBool b => b
  | PInt n => negb (n =? 0)
  | PFloat (F_fin _ m _) => negb (m =? 0)%N
  | PFloat _ => true
  | PStr s => negb (String.length s =? 0)%nat
  | PList l => negb (length l =? 0)%nat
  | PDict d => negb (size d =? 0)%nat
  end.

Fixpoint chars (s : string) : list pyval :=
  match s with
  | EmptyString => []
  | String a r => PStr (String a EmptyString) :: chars r
  end.

(** [iter(v)], run to the end: a list yields its elements, a string its
    characters, a dict its keys; nothing else is iterable. *)
Definition py_iter (v : pyval) : result (list pyval) :=
  match v with
  | PList l => Ok l
  | PStr s => Ok (chars s)
  | PDict d => Ok (PStr <$> (map_to_list d).*1)
  | _ => Raise TypeError
  end.

(** [any(f(x) for x in l)]: stops at the first true element. *)
Fixpoint py_any (f : pyval → result bool) (l : list pyval) : result bool :=
  match l with
  | [] => Ok false
  | x :: r => t ← f x; if t : bool then Ok true else py_any f r
  end.

(** [v[k]] for a string key [k] *)
Definition py_getitem (v : pyval) (k : string) : result pyval :=
  match v with
  | PDict d =>
      match d !! k with
      | Some x => Ok x
      | None => Raise (KeyError (PStr k))
      end
  | _ => Raise TypeError
  end.

(** ** Keyword-argument calls of the dataclass constructors *)

(** A call that unpacks [v] as keyword arguments: [v] must be a mapping, and
    each of its keys must name a parameter. *)
Definition kwargs (params : list string) (v : pyval)
  : result (gmap string pyval) :=
  match v with
  | PDict d =>
      if decide (dom d ⊆ list_to_set params) then Ok d else Raise TypeError
  | _ => Raise TypeError
  end.

(** A parameter without a default must be supplied. *)
Definition required (d : gmap string pyval) (k : string) : result pyval :=
  match d !! k with
  | Some x => Ok x
  | None => Raise TypeError
  end.

Definition optional (d : gmap string pyval) (k : string) (dflt : pyval)
  : pyval := default dflt (d !! k).

(** ** The Enumeration Registry

    [WorkloadType] is declared in the environment package, outside this
    module; the code uses its member [SMALL], the [name] of a member and the
    lookup [WorkloadType[name]].  For every [Enum], looking up the name of a
    member returns that member. *)
Class EnumRegistry (E : Type) := {
  SMALL : E;
  member_name : E → string;
  member_lookup : string → option E;
  lookup_member_name : ∀ m, member_lookup (member_name m) = Some m
}.

(** [E[v]]: a lookup in the member map, which hashes [v] first. *)
Definition enum_getitem `{EnumRegistry E} (v : pyval) : result E :=
  match v with
  | PStr s =>
      match member_lookup s with
      | Some m => Ok m
      | None => Raise (KeyError v)
      end
  | PList _ | PDict _ => Raise TypeError
  | _ => Raise (KeyError v)
  end.

(** ** The configuration schema *)

Module NetworkConfig.
Record t := mk {
  topology_type : pyval;
  num_devices : pyval;
  min_bandwidth : pyval;
  max_bandwidth : pyval;
  edge_probability : pyval;
  seed : pyval
}.
End NetworkConfig.

Module ResourceConfig.
Record t := mk {
  memory_mu : pyval;
  memory_sigma : pyval;
  memory_min : pyval;
  memory_max : pyval;
  compute_mu : pyval;
  compute_sigma : pyval;
  compute_min : pyval;
  compute_max : pyval;
  seed : pyval
}.
End ResourceConfig.

Module WorkloadConfig.
Record t (E : Type) := mk {
  model_type : E;
  initial_sequence_lengths : pyval;
  generation_steps : pyval;
  precision_bytes : pyval;
  seed : pyval
}.
Arguments mk {E}.
Arguments model_type {E}.
Arguments initial_sequence_lengths {E}.
Arguments generation_steps {E}.
Arguments precision_bytes {E}.
Arguments seed {E}.
End WorkloadConfig.

Module AlgorithmConfig.
Record t := mk {
  migration_threshold : pyval;
  backtrack_limit : pyval;
  cache_placement_strategy : pyval;
  enable_dynamic_adjustment : pyval
}.
End AlgorithmConfig.

Module ExperimentConfig.
Record t := mk {
  name : pyval;
  description : pyval;
  num_runs : pyval;
  checkpoint_interval : pyval;
  time_limit : pyval;
  metrics_output_dir : pyval;
  save_intermediate : pyval
}.
End ExperimentConfig.

Record SimulationConfig (E : Type) := mkSimulationConfig {
  network : NetworkConfig.t;
  resources : ResourceConfig.t;
  workload : WorkloadConfig.t E;
  algorithm : AlgorithmConfig.t;
  experiment : ExperimentConfig.t
}.
Arguments mkSimulationConfig {E}.
Arguments network {E}.
Arguments resources {E}.
Arguments workload {E}.
Arguments algorithm {E}.
Arguments experiment {E}.

(** Float literals of the source. *)
Definition float_of_Z (n : Z) : pyval :=
  PFloat (F_fin (n <? 0) (Z.to_N (Z.abs n)) 0).
Definition f0_5 : pyval := PFloat (F_fin false 1 (-1)).
Definition f0_3 : pyval := PFloat (F_fin false 5404319552844595 (-54)).
Definition f0_9 : pyval := PFloat (F_fin false 8106479329266893 (-53)).
Definition float_inf : pyval := PFloat (F_inf false).
Definition float_nan : pyval := PFloat F_nan.

(** ** The dictionary codec *)

Section Codec.
Context {E : Type} `{!EnumRegistry E}.

(** [v.items()], as the mapping it enumerates *)
Definition py_items (v : pyval) : result (gmap string pyval) :=
  match v with
  | PDict d => Ok d
  | _ => Raise AttributeError
  end.

(** [NetworkConfig] called with [v] unpacked as keyword arguments; absent
    parameters take the defaults of the dataclass. *)
Definition NetworkConfig_init (v : pyval) : result NetworkConfig.t :=
  d ← kwargs ["topology_type"; "num_devices"; "min_bandwidth";
              "max_bandwidth"; "edge_probability"; "seed"] v;
  topology_type ← required d "topology_type";
  num_devices ← required d "num_devices";
  min_bandwidth ← required d "min_bandwidth";
  max_bandwidth ← required d "max_bandwidth";
  Ok (NetworkConfig.mk topology_type num_devices min_bandwidth max_bandwidth
        (optional d "edge_probability" f0_3) (optional d "seed" PNone)).

Definition ResourceConfig_init (v : pyval) : result ResourceConfig.t :=
  d ← kwargs ["memory_mu"; "memory_sigma"; "memory_min"; "memory_max";
              "compute_mu"; "compute_sigma"; "compute_min"; "compute_max";
              "seed"] v;
  memory_mu ← required d "memory_mu";
  memory_sigma ← required d "memory_sigma";
  memory_min ← required d "memory_min";
  memory_max ← required d "memory_max";
  compute_mu ← required d "compute_mu";
  compute_sigma ← required d "compute_sigma";
  compute_min ← required d "compute_min";
  compute_max ← required d "compute_max";
  Ok (ResourceConfig.mk memory_mu memory_sigma memory_min memory_max
        compute_mu compute_sigma compute_min compute_max
        (optional d "seed" PNone)).

(** [WorkloadConfig] called with [model_type=m] and [v] unpacked *)
Definition WorkloadConfig_init (m : E) (v : pyval)
  : result (WorkloadConfig.t E) :=
  d ← kwargs ["initial_sequence_lengths"; "generation_steps";
              "precision_bytes"; "seed"] v;
  initial_sequence_lengths ← required d "initial_sequence_lengths";
  generation_steps ← required d "generation_steps";
  Ok (WorkloadConfig.mk m initial_sequence_lengths generation_steps
        (optional d "precision_bytes" (PInt 4)) (optional d "seed" PNone)).

Definition AlgorithmConfig_init (v : pyval) : result AlgorithmConfig.t :=
  d ← kwargs ["migration_threshold"; "backtrack_limit";
              "cache_placement_strategy"; "enable_dynamic_adjustment"] v;
  Ok (AlgorithmConfig.mk
        (optional d "migration_threshold" f0_9)
        (optional d "backtrack_limit" (PInt 100))
        (optional d "cache_placement_strategy" (PStr "colocated"))
        (optional d "enable_dynamic_adjustment" (PBool true))).

Definition ExperimentConfig_init (v : pyval) : result ExperimentConfig.t :=
  d ← kwargs ["name"; "description"; "num_runs"; "checkpoint_interval";
              "time_limit"; "metrics_output_dir"; "save_intermediate"] v;
  name ← required d "name";
  description ← required d "description";
  Ok (ExperimentConfig.mk name description
        (optional d "num_runs" (PInt 1))
        (optional d "checkpoint_interval" (PInt 10))
        (optional d "time_limit" float_inf)
        (optional d "metrics_output_dir" (PStr "results"))
        (optional d "save_intermediate" (PBool false))).

(** [SimulationConfig.from_dict]: the five keyword arguments are evaluated
    from left to right, and the first exception ends the call. *)
Definition from_dict (config_dict : pyval) : result (SimulationConfig E) :=
  network ← py_getitem config_dict "network" ≫= NetworkConfig_init;
  resources ← py_getitem config_dict "resources" ≫= ResourceConfig_init;
  workload ←
    (w ← py_getitem config_dict "workload";
     name ← py_getitem w "model_type";
     model_type ← enum_getitem name;
     w' ← py_getitem config_dict "workload";
     rest ← py_items w';
     WorkloadConfig_init model_type (PDict (delete "model_type" rest)));
  algorithm ← py_getitem config_dict "algorithm" ≫= AlgorithmConfig_init;
  experiment ← py_getitem config_dict "experiment" ≫= ExperimentConfig_init;
  Ok (mkSimulationConfig network resources workload algorithm experiment).

(** [SimulationConfig.to_dict] *)
Definition to_dict (self : SimulationConfig E) : gmap string pyval :=
  list_to_map [
    ("network", PDict (list_to_map [
       ("topology_type", NetworkConfig.topology_type (network self));
       ("num_devices", NetworkConfig.num_devices (network self));
       ("min_bandwidth", NetworkConfig.min_bandwidth (network self));
       ("max_bandwidth", NetworkConfig.max_bandwidth (network self));
       ("edge_probability", NetworkConfig.edge_probability (network self));
       ("seed", NetworkConfig.seed (network self))]));
    ("resources", PDict (list_to_map [
       ("memory_mu", ResourceConfig.memory_mu (resources self));
       ("memory_sigma", ResourceConfig.memory_sigma (resources self));
       ("memory_min", ResourceConfig.memory_min (resources self));
       ("memory_max", ResourceConfig.memory_max (resources self));
       ("compute_mu", ResourceConfig.compute_mu (resources self));
       ("compute_sigma", ResourceConfig.compute_sigma (resources self));
       ("compute_min", ResourceConfig.compute_min (resources self));
       ("compute_max", ResourceConfig.compute_max (resources self));
       ("seed", ResourceConfig.seed (resources self))]));
    ("workload", PDict (list_to_map [
       ("model_type",
        PStr (member_name (WorkloadConfig.model_type (workload self))));
       ("initial_sequence_lengths",
        WorkloadConfig.initial_sequence_lengths (workload self));
       ("generation_steps", WorkloadConfig.generation_steps (workload self));
       ("precision_bytes", WorkloadConfig.precision_bytes (workload self));
       ("seed", WorkloadConfig.seed (workload self))]));
    ("algorithm", PDict (list_to_map [
       ("migration_threshold",
        AlgorithmConfig.migration_threshold (algorithm self));
       ("backtrack_limit", AlgorithmConfig.backtrack_limit (algorithm self));
       ("cache_placement_strategy",
        AlgorithmConfig.cache_placement_strategy (algorithm self));
       ("enable_dynamic_adjustment",
        AlgorithmConfig.enable_dynamic_adjustment (algorithm self))]));
    ("experiment", PDict (list_to_map [
       ("name", ExperimentConfig.name (experiment self));
       ("description", ExperimentConfig.description (experiment self));
       ("num_runs", ExperimentConfig.num_runs (experiment self));
       ("checkpoint_interval",
        ExperimentConfig.checkpoint_interval (experiment self));
       ("time_limit", ExperimentConfig.time_limit (experiment self));
       ("metrics_output_dir",
        ExperimentConfig.metrics_output_dir (experiment self));
       ("save_intermediate",
        ExperimentConfig.save_intermediate (experiment self))]))].

Definition create_default_config : SimulationConfig E :=
  mkSimulationConfig
    (NetworkConfig.mk (PStr "edge_cluster") (PInt 8)
       (float_of_Z 1) (float_of_Z 10) f0_3 PNone)
    (ResourceConfig.mk (float_of_Z 2) f0_5 (float_of_Z 1) (float_of_Z 16)
       (float_of_Z 5) f0_5 (float_of_Z 1) (float_of_Z 32) PNone)
    (WorkloadConfig.mk SMALL
       (PList [PInt 128; PInt 256; PInt 512])
       (PList [PInt 32; PInt 64; PInt 128])
       (PInt 4) PNone)
    (AlgorithmConfig.mk f0_9 (PInt 100) (PStr "colocated") (PBool true))
    (ExperimentConfig.mk (PStr "default_experiment")
       (PStr "Default experiment configuration")
       (PInt 1) (PInt 10) float_inf (PStr "results") (PBool false)).

End Codec.

(** ** The validator *)

(** [if t: return False], then the rest of the function *)
Notation "'reject_if' t ; k" :=
  (t ≫= (λ b : bool, if b then Ok false else k))
  (at level 20, t at level 100, k at level 200, only parsing).

(** [x <= 0] *)
Definition le_zero (x : pyval) : result bool := py_le x (PInt 0).

(** [0 <= x <= 1] *)
Definition in_unit (x : pyval) : result bool :=
  py_between (PInt 0) x (PInt 1).

(** [any(x <= 0 for x in v)]: the iterator is taken first. *)
Definition any_le_zero (v : pyval) : result bool :=
  py_iter v ≫= py_any le_zero.

Section Validator.
Context {E : Type}.

(** The body of the [try] block of [validate_config]. *)
Definition validate_body (config : SimulationConfig E) : result bool :=
  (* Validate network configuration *)
  reject_if le_zero (NetworkConfig.num_devices (network config));
  reject_if py_or (le_zero (NetworkConfig.min_bandwidth (network config)))
                  (le_zero (NetworkConfig.max_bandwidth (network config)));
  reject_if py_gt (NetworkConfig.min_bandwidth (network config))
                  (NetworkConfig.max_bandwidth (network config));
  reject_if py_not (in_unit (NetworkConfig.edge_probability (network config)));
  (* Validate resource configuration *)
  reject_if py_any le_zero [
      ResourceConfig.memory_min (resources config);
      ResourceConfig.memory_max (resources config);
      ResourceConfig.compute_min (resources config);
      ResourceConfig.compute_max (resources config)];
  reject_if py_gt (ResourceConfig.memory_min (resources config))
                  (ResourceConfig.memory_max (resources config));
  reject_if py_gt (ResourceConfig.compute_min (resources config))
                  (ResourceConfig.compute_max (resources config));
  (* Validate workload configuration *)
  reject_if Ok (negb (py_truthy
                  (WorkloadConfig.initial_sequence_lengths (workload config))));
  reject_if Ok (negb (py_truthy
                  (WorkloadConfig.generation_steps (workload config))));
  reject_if any_le_zero
              (WorkloadConfig.initial_sequence_lengths (workload config));
  reject_if any_le_zero (WorkloadConfig.generation_steps (workload config));
  reject_if le_zero (WorkloadConfig.precision_bytes (workload config));
  (* Validate algorithm configuration *)
  reject_if py_not
              (in_unit (AlgorithmConfig.migration_threshold (algorithm config)));
  reject_if le_zero (AlgorithmConfig.backtrack_limit (algorithm config));
  (* Validate experiment configuration *)
  reject_if le_zero (ExperimentConfig.num_runs (experiment config));
  reject_if le_zero (ExperimentConfig.checkpoint_interval (experiment config));
  reject_if le_zero (ExperimentConfig.time_limit (experiment config));
  Ok true.

(** [validate_config]: the body under [except Exception: return False]. *)
Definition validate_config (config : SimulationConfig E) : result bool :=
  try_except_Exception (validate_body config) false.

(** The seventeen [if] statements of the body, in source order, each with the
    section its comment names.  A test answers [true] when it rejects. *)
Inductive section_id := Network | Resources | Workload | Algorithm | Experiment.

Definition checks : list (section_id * (SimulationConfig E → result bool)) := [
  (Network, λ c, le_zero (NetworkConfig.num_devices (network c)));
  (Network, λ c, py_or (le_zero (NetworkConfig.min_bandwidth (network c)))
                       (le_zero (NetworkConfig.max_bandwidth (network c))));
  (Network, λ c, py_gt (NetworkConfig.min_bandwidth (network c))
                       (NetworkConfig.max_bandwidth (network c)));
  (Network, λ c, py_not (in_unit (NetworkConfig.edge_probability (network c))));
  (Resources, λ c, py_any le_zero [
      ResourceConfig.memory_min (resources c);
      ResourceConfig.memory_max (resources c);
      ResourceConfig.compute_min (resources c);
      ResourceConfig.compute_max (resources c)]);
  (Resources, λ c, py_gt (ResourceConfig.memory_min (resources c))
                         (ResourceConfig.memory_max (resources c)));
  (Resources, λ c, py_gt (ResourceConfig.compute_min (resources c))
                         (ResourceConfig.compute_max (resources c)));
  (Workload, λ c, Ok (negb (py_truthy
                    (WorkloadConfig.initial_sequence_lengths (workload c)))));
  (Workload, λ c, Ok (negb (py_truthy
                    (WorkloadConfig.generation_steps (workload c)))));
  (Workload, λ c, any_le_zero
                    (WorkloadConfig.initial_sequence_lengths (workload c)));
  (Workload, λ c, any_le_zero (WorkloadConfig.generation_steps (workload c)));
  (Workload, λ c, le_zero (WorkloadConfig.precision_bytes (workload c)));
  (Algorithm, λ c, py_not
                    (in_unit (AlgorithmConfig.migration_threshold (algorithm c))));
  (Algorithm, λ c, le_zero (AlgorithmConfig.backtrack_limit (algorithm c)));
  (Experiment, λ c, le_zero (ExperimentConfig.num_runs (experiment c)));
  (Experiment, λ c, le_zero (ExperimentConfig.checkpoint_interval (experiment c)));
  (Experiment, λ c, le_zero (ExperimentConfig.time_limit (experiment c)))].

(** Runs the tests in order and stops at the first that does not answer
    [false]. *)
Fixpoint first_reject (ts : list (section_id * (SimulationConfig E → result bool)))
  (c : SimulationConfig E) : result bool :=
  match ts with
  | [] => Ok true
  | (_, t) :: r => reject_if t c; first_reject r c
  end.

End Validator.

(** ** The merge engine *)

(** One assignment of the loop of [update_dict]: the value stored under a key
    whose old value is [old] and whose override is [v].  Two mappings are
    merged key by key, anything else is replaced by the override. *)
Fixpoint merge_value (old : option pyval) (v : pyval) {struct v} : pyval :=
  match old, v with
  | Some (PDict d1), PDict d2 =>
      PDict (map_fold (λ k v' d, <[k := merge_value (d !! k) v']> d) d1 d2)
  | _, _ => v
  end.

(** [update_dict(d1, d2)]: the loop over [d2.items()]. *)
Definition update_dict (d1 d2 : gmap string pyval) : gmap string pyval :=
  map_fold (λ k v d, <[k := merge_value (d !! k) v]> d) d1 d2.

Definition merge_configs `{EnumRegistry E} (base_config : SimulationConfig E)
  (override_config : gmap string pyval) : result (SimulationConfig E) :=
  let base_dict := to_dict base_config in
  let merged_dict := update_dict base_dict override_config in
  from_dict (PDict merged_dict).

(** ** Paths and the filesystem *)

(** A path is the list of its components, as [pathlib] keeps them; the empty
    list is the directory the path is relative to. *)
Abbreviation Path := (list string).

(** [p.name] *)
Definition path_name (p : Path) : string := default "" (last p).

(** [p.parent] *)
Definition parent (p : Path) : Path := removelast p.

(** [s.rfind(c)], counting from index [i] at the head of [s] *)
Fixpoint rfind_from (i : Z) (c : Ascii.ascii) (s : string) : Z :=
  match s with
  | EmptyString => -1
  | String a r =>
      let j := rfind_from (i + 1) c r in
      if 0 <=? j then j else if Ascii.eqb a c then i else -1
  end.

Definition rfind (s : string) (c : Ascii.ascii) : Z := rfind_from 0 c s.

(** [p.suffix]: the name from its last dot on, unless that dot is the first or
    the last character. *)
Definition suffix (p : Path) : string :=
  let name := path_name p in
  let i := rfind name "."%char in
  if (0 <? i) && (i <? Z.of_nat (String.length name) - 1)
  then String.substring (Z.to_nat i) (String.length name - Z.to_nat i) name
  else "".

(** The YAML and JSON libraries, with the content of a file as they read and
    write it.  They are not part of this repository. *)
Class Serializers (text : Type) := {
  empty_text : text;
  yaml_safe_dump : pyval → text;
  yaml_safe_load : text → result pyval;
  json_dump : pyval → text;
  json_load : text → result pyval
}.

Record FS (text : Type) := mkFS {
  fs_files : gmap Path text;
  fs_dirs : gset Path
}.
Arguments mkFS {text}.
Arguments fs_files {text}.
Arguments fs_dirs {text}.

(** File operations read and change the filesystem and may raise. *)
Definition io (text A : Type) : Type := FS text → result A * FS text.

#[global] Instance io_ret {text} : MRet (io text) := λ A a fs, (Ok a, fs).
#[global] Instance io_bind {text} : MBind (io text) :=
  λ A B f m fs,
    match m fs with
    | (Ok a, fs') => f a fs'
    | (Raise e, fs') => (Raise e, fs')
    end.

Definition raise {text A} (e : exn) : io text A := λ fs, (Raise e, fs).

Definition lift {text A} (r : result A) : io text A := λ fs, (r, fs).

Section Files.
Context {text : Type} `{!Serializers text}.

Definition is_file (fs : FS text) (p : Path) : bool :=
  bool_decide (is_Some (fs_files fs !! p)).

Definition is_dir (fs : FS text) (p : Path) : bool :=
  bool_decide (p = [] ∨ p ∈ fs_dirs fs).

(** [p.exists()] *)
Definition path_exists (p : Path) : io text bool :=
  λ fs, (Ok (is_file fs p || is_dir fs p), fs).

(** [open(p, 'r')] followed by reading the whole file *)
Definition open_read (p : Path) : io text text :=
  λ fs,
    match fs_files fs !! p with
    | Some t => (Ok t, fs)
    | None =>
        (Raise (if is_dir fs p then IsADirectoryError else FileNotFoundError),
         fs)
    end.

(** The non-empty prefixes of a path, shortest first. *)
Definition prefixes (p : Path) : list Path :=
  (λ n, take n p) <$> seq 1 (length p).

(** [p.mkdir(parents=True, exist_ok=True)]: every missing ancestor and [p]
    itself become directories, unless a regular file is in the way. *)
Definition mkdir_parents (p : Path) : io text unit :=
  λ fs,
    match find (is_file fs) (prefixes p) with
    | Some q =>
        (Raise (if decide (q = p) then FileExistsError
                else NotADirectoryError), fs)
    | None =>
        (Ok (), mkFS (fs_files fs) (fs_dirs fs ∪ list_to_set (prefixes p)))
    end.

(** [open(p, 'w')]: creates the file or truncates it. *)
Definition open_write (p : Path) : io text unit :=
  λ fs,
    if is_dir fs p then (Raise IsADirectoryError, fs)
    else if negb (is_dir fs (parent p))
    then (Raise (if is_file fs (parent p) then NotADirectoryError
                 else FileNotFoundError), fs)
    else (Ok (), mkFS (<[p := empty_text]> (fs_files fs)) (fs_dirs fs)).

(** Writing [t] to the file just opened at [p]. *)
Definition write (p : Path) (t : text) : io text unit :=
  λ fs, (Ok (), mkFS (<[p := t]> (fs_files fs)) (fs_dirs fs)).

(** Nothing stands in the way of writing at [p]: no prefix of its parent is
    a regular file, and [p] itself is not a directory. *)
Definition writable (fs : FS text) (p : Path) : Prop :=
  find (is_file fs) (prefixes (parent p)) = None ∧ is_dir fs p = false.

(** The filesystem after the parents of [p] were created and [p] was opened
    for writing and received [t]. *)
Definition written (fs : FS text) (p : Path) (t : text) : FS text :=
  mkFS (<[p := t]> (fs_files fs))
       (fs_dirs fs ∪ list_to_set (prefixes (parent p))).

Context {E : Type} `{!EnumRegistry E}.

Definition load_config (config_path : Path) : io text (SimulationConfig E) :=
  ex ← path_exists config_path;
  if negb ex then raise FileNotFoundError
  else
    f ← open_read config_path;
    config_dict ←
      (if String.eqb (suffix config_path) ".yaml" then lift (yaml_safe_load f)
       else if String.eqb (suffix config_path) ".json" then lift (json_load f)
       else raise ValueError);
    lift (from_dict config_dict).

Definition save_config (config : SimulationConfig E) (config_path : Path)
  : io text unit :=
  let config_dict := to_dict config in
  mkdir_parents (parent config_path);;
  open_write config_path;;
  if String.eqb (suffix config_path) ".yaml"
  then write config_path (yaml_safe_dump (PDict config_dict))
  else if String.eqb (suffix config_path) ".json"
  then write config_path (json_dump (PDict config_dict))
  else raise ValueError.

End Files.

(** ** The schema as a table

    For each section, the parameters of its constructor and those among them
    without a default, read off the dataclass declarations. *)
Definition schema : list (string * (list string * list string)) := [
  ("network",
   (["topology_type"; "num_devices"; "min_bandwidth"; "max_bandwidth";
     "edge_probability"; "seed"],
    ["topology_type"; "num_devices"; "min_bandwidth"; "max_bandwidth"]));
  ("resources",
   (["memory_mu"; "memory_sigma"; "memory_min"; "memory_max"; "compute_mu";
     "compute_sigma"; "compute_min"; "compute_max"; "seed"],
    ["memory_mu"; "memory_sigma"; "memory_min"; "memory_max"; "compute_mu";
     "compute_sigma"; "compute_min"; "compute_max"]));
  ("workload",
   (["model_type"; "initial_sequence_lengths"; "generation_steps";
     "precision_bytes"; "seed"],
    ["model_type"; "initial_sequence_lengths"; "generation_steps"]));
  ("algorithm",
   (["migration_threshold"; "backtrack_limit"; "cache_placement_strategy";
     "enable_dynamic_adjustment"], []));
  ("experiment",
   (["name"; "description"; "num_runs"; "checkpoint_interval"; "time_limit";
     "metrics_output_dir"; "save_intermediate"],
    ["name"; "description"]))].

(** The shape a section must have for its constructor to accept it: a
    mapping whose keys are parameters and include the required ones. *)
Definition section_shape (all req : list string) (v : pyval) : Prop :=
  ∃ d, v = PDict d ∧ dom d ⊆ list_to_set all
       ∧ ∀ f, f ∈ req → is_Some (d !! f).

(** A tree is well structured when it is a mapping whose five sections have
    the shape their constructors accept and whose workload-model name is a
    member of the registry. *)
Definition well_structured `{EnumRegistry E} (t : pyval) : Prop :=
  ∃ d, t = PDict d
  ∧ Forall (λ '(s, (all, req)),
      ∃ v, d !! s = Some v ∧ section_shape all req v) schema
  ∧ ∃ w name (m : E), d !! "workload" = Some (PDict w)
      ∧ w !! "model_type" = Some (PStr name) ∧ member_lookup name = Some m.

(** The leaf at field [f] of section [s] of a tree. *)
Definition tree_get (t : gmap string pyval) (s f : string) : option pyval :=
  match t !! s with
  | Some (PDict d) => d !! f
  | _ => None
  end.

Definition is_dict (v : pyval) : bool :=
  match v with
  | PDict _ => true
  | _ => false
  end.

(** ** The invariants of the data model, as the specification words them *)

Definition zero : xnum := XDy 0 0.
Definition one : xnum := XDy 1 0.

(** "strictly > 0" *)
Definition spec_positive (v : pyval) : bool :=
  match as_number v with
  | Some a => num_gt a zero
  | None => false
  end.

(** a range pair with "min ≤ max" *)
Definition spec_range (lo hi : pyval) : bool :=
  match as_number lo, as_number hi with
  | Some a, Some b => num_le a b
  | _, _ => false
  end.

(** "in the closed unit interval" *)
Definition spec_unit_interval (v : pyval) : bool :=
  match as_number v with
  | Some a => num_le zero a && num_le a one
  | None => false
  end.

(** "a non-empty ordered sequence ... (all > 0)" *)
Definition spec_positive_sequence (v : pyval) : bool :=
  match v with
  | PList l => negb (length l =? 0)%nat && forallb spec_positive l
  | _ => false
  end.

Definition spec_valid {E} (c : SimulationConfig E) : bool :=
  (* all range pairs satisfy min ≤ max *)
  spec_range (NetworkConfig.min_bandwidth (network c))
             (NetworkConfig.max_bandwidth (network c))
  && spec_range (ResourceConfig.memory_min (resources c))
                (ResourceConfig.memory_max (resources c))
  && spec_range (ResourceConfig.compute_min (resources c))
                (ResourceConfig.compute_max (resources c))
  (* all declared positive quantities are strictly > 0 *)
  && spec_positive (NetworkConfig.num_devices (network c))
  && spec_positive (NetworkConfig.min_bandwidth (network c))
  && spec_positive (NetworkConfig.max_bandwidth (network c))
  && spec_positive (ResourceConfig.memory_min (resources c))
  && spec_positive (ResourceConfig.compute_min (resources c))
  && spec_positive (WorkloadConfig.precision_bytes (workload c))
  && spec_positive (AlgorithmConfig.backtrack_limit (algorithm c))
  && spec_positive (ExperimentConfig.num_runs (experiment c))
  && spec_positive (ExperimentConfig.checkpoint_interval (experiment c))
  && spec_positive (ExperimentConfig.time_limit (experiment c))
  (* all declared probabilities and thresholds lie in [0, 1] *)
  && spec_unit_interval (NetworkConfig.edge_probability (network c))
  && spec_unit_interval (AlgorithmConfig.migration_threshold (algorithm c))
  (* the two workload sequences are non-empty and positive *)
  && spec_positive_sequence
       (WorkloadConfig.initial_sequence_lengths (workload c))
  && spec_positive_sequence (WorkloadConfig.generation_steps (workload c)).

(** Neither [v] nor, when [v] is a list, any of its elements is NaN. *)
Definition is_nan (v : pyval) : bool :=
  match v with
  | PFloat F_nan => true
  | _ => false
  end.

Definition nan_free (v : pyval) : bool :=
  match v with
  | PList l => forallb (λ x, negb (is_nan x)) l
  | _ => negb (is_nan v)
  end.

(** No field that the validator orders holds a NaN. *)
Definition no_nan {E} (c : SimulationConfig E) : bool :=
  nan_free (NetworkConfig.num_devices (network c))
  && nan_free (NetworkConfig.min_bandwidth (network c))
  && nan_free (NetworkConfig.max_bandwidth (network c))
  && nan_free (ResourceConfig.memory_min (resources c))
  && nan_free (ResourceConfig.memory_max (resources c))
  && nan_free (ResourceConfig.compute_min (resources c))
  && nan_free (ResourceConfig.compute_max (resources c))
  && nan_free (WorkloadConfig.initial_sequence_lengths (workload c))
  && nan_free (WorkloadConfig.generation_steps (workload c))
  && nan_free (WorkloadConfig.precision_bytes (workload c))
  && nan_free (AlgorithmConfig.backtrack_limit (algorithm c))
  && nan_free (ExperimentConfig.num_runs (experiment c))
  && nan_free (ExperimentConfig.checkpoint_interval (experiment c))
  && nan_free (ExperimentConfig.time_limit (experiment c)).

(** ** What each test of the validator lets through *)

(** [x <= 0] is evaluated and false. *)
Definition passes_pos (v : pyval) : bool :=
  match as_number v with
  | Some a => negb (num_le a zero)
  | None => false
  end.

(** [lo > hi] is evaluated on two numbers and false. *)
Definition passes_range (lo hi : pyval) : bool :=
  match as_number lo, as_number hi with
  | Some a, Some b => negb (num_gt a b)
  | _, _ => false
  end.

(** [any(x <= 0 for x in v)] is evaluated and false. *)
Definition passes_each (v : pyval) : bool :=
  match py_iter v with
  | Ok l => forallb passes_pos l
  | Raise _ => false
  end.

Definition accepts {E} (c : SimulationConfig E) : bool :=
  passes_pos (NetworkConfig.num_devices (network c))
  && ((passes_pos (NetworkConfig.min_bandwidth (network c))
       && passes_pos (NetworkConfig.max_bandwidth (network c)))
  && (passes_range (NetworkConfig.min_bandwidth (network c))
                   (NetworkConfig.max_bandwidth (network c))
  && (spec_unit_interval (NetworkConfig.edge_probability (network c))
  && (forallb passes_pos [
        ResourceConfig.memory_min (resources c);
        ResourceConfig.memory_max (resources c);
        ResourceConfig.compute_min (resources c);
        ResourceConfig.compute_max (resources c)]
  && (passes_range (ResourceConfig.memory_min (resources c))
                   (ResourceConfig.memory_max (resources c))
  && (passes_range (ResourceConfig.compute_min (resources c))
                   (ResourceConfig.compute_max (resources c))
  && (py_truthy (WorkloadConfig.initial_sequence_lengths (workload c))
  && (py_truthy (WorkloadConfig.generation_steps (workload c))
  && (passes_each (WorkloadConfig.initial_sequence_lengths (workload c))
  && (passes_each (WorkloadConfig.generation_steps (workload c))
  && (passes_pos (WorkloadConfig.precision_bytes (workload c))
  && (spec_unit_interval (AlgorithmConfig.migration_threshold (algorithm c))
  && (passes_pos (AlgorithmConfig.backtrack_limit (algorithm c))
  && (passes_pos (ExperimentConfig.num_runs (experiment c))
  && (passes_pos (ExperimentConfig.checkpoint_interval (experiment c))
  && (passes_pos (ExperimentConfig.time_limit (experiment c))
  && true)))))))))))))))).

(** A test behaves as the boolean [p] predicts: it answers [false] when [p]
    holds, and otherwise answers [true] or raises what [except Exception]
    catches. *)
Definition behaves (t : result bool) (p : bool) : Prop :=
  if p then t = Ok false
  else t = Ok true ∨ ∃ e, t = Raise e ∧ is_Exception e = true.

(** ** Field updates used to state the frame properties *)

Definition set_num_devices {E} (v : pyval) (c : SimulationConfig E)
  : SimulationConfig E :=
  mkSimulationConfig
    (NetworkConfig.mk
       (NetworkConfig.topology_type (network c)) v
       (NetworkConfig.min_bandwidth (network c))
       (NetworkConfig.max_bandwidth (network c))
       (NetworkConfig.edge_probability (network c))
       (NetworkConfig.seed (network c)))
    (resources c) (workload c) (algorithm c) (experiment c).

Definition set_max_bandwidth {E} (v : pyval) (c : SimulationConfig E)
  : SimulationConfig E :=
  mkSimulationConfig
    (NetworkConfig.mk
       (NetworkConfig.topology_type (network c))
       (NetworkConfig.num_devices (network c))
       (NetworkConfig.min_bandwidth (network c)) v
       (NetworkConfig.edge_probability (network c))
       (NetworkConfig.seed (network c)))
    (resources c) (workload c) (algorithm c) (experiment c).

Definition set_initial_sequence_lengths {E} (v : pyval)
  (c : SimulationConfig E) : SimulationConfig E :=
  mkSimulationConfig (network c) (resources c)
    (WorkloadConfig.mk
       (WorkloadConfig.model_type (workload c)) v
       (WorkloadConfig.generation_steps (workload c))
       (WorkloadConfig.precision_bytes (workload c))
       (WorkloadConfig.seed (workload c)))
    (algorithm c) (experiment c).

Definition set_time_limit {E} (v : pyval) (c : SimulationConfig E)
  : SimulationConfig E :=
  mkSimulationConfig (network c) (resources c) (workload c) (algorithm c)
    (ExperimentConfig.mk
       (ExperimentConfig.name (experiment c))
       (ExperimentConfig.description (experiment c))
       (ExperimentConfig.num_runs (experiment c))
       (ExperimentConfig.checkpoint_interval (experiment c)) v
       (ExperimentConfig.metrics_output_dir (experiment c))
       (ExperimentConfig.save_intermediate (experiment c))).

(** The fields the validator never reads that the data model describes as
    identifiers, free text or distribution parameters. *)
Record uninspected := mkUninspected {
  u_topology_type : pyval;
  u_cache_placement_strategy : pyval;
  u_name : pyval;
  u_description : pyval;
  u_metrics_output_dir : pyval;
  u_memory_mu : pyval;
  u_memory_sigma : pyval;
  u_compute_mu : pyval;
  u_compute_sigma : pyval
}.

Definition set_uninspected {E} (u : uninspected) (c : SimulationConfig E)
  : SimulationConfig E :=
  mkSimulationConfig
    (NetworkConfig.mk (u_topology_type u)
       (NetworkConfig.num_devices (network c))
       (NetworkConfig.min_bandwidth (network c))
       (NetworkConfig.max_bandwidth (network c))
       (NetworkConfig.edge_probability (network c))
       (NetworkConfig.seed (network c)))
    (ResourceConfig.mk (u_memory_mu u) (u_memory_sigma u)
       (ResourceConfig.memory_min (resources c))
       (ResourceConfig.memory_max (resources c))
       (u_compute_mu u) (u_compute_sigma u)
       (ResourceConfig.compute_min (resources c))
       (ResourceConfig.compute_max (resources c))
       (ResourceConfig.seed (resources c)))
    (workload c)
    (AlgorithmConfig.mk
       (AlgorithmConfig.migration_threshold (algorithm c))
       (AlgorithmConfig.backtrack_limit (algorithm c))
       (u_cache_placement_strategy u)
       (AlgorithmConfig.enable_dynamic_adjustment (algorithm c)))
    (ExperimentConfig.mk (u_name u) (u_description u)
       (ExperimentConfig.num_runs (experiment c))
       (ExperimentConfig.checkpoint_interval (experiment c))
       (ExperimentConfig.time_limit (experiment c))
       (u_metrics_output_dir u)
       (ExperimentConfig.save_intermediate (experiment c))).

(** ** A registry and a pair of serializers to run the definitions on

    Three members stand for the registry of the environment package, and the
    content of a file is the tree written to it: both libraries then read
    back what they wrote.  An empty file loads as [None] from YAML and is
    malformed JSON. *)
Module Sample.

Inductive WorkloadType := Small | Medium | Large.

Definition name_of (m : WorkloadType) : string :=
  match m with
  | Small => "SMALL"
  | Medium => "MEDIUM"
  | Large => "LARGE"
  end.

Definition lookup (s : string) : option WorkloadType :=
  if String.eqb s "SMALL" then Some Small
  else if String.eqb s "MEDIUM" then Some Medium
  else if String.eqb s "LARGE" then Some Large
  else None.

#[global] Instance registry : EnumRegistry WorkloadType := {|
  SMALL := Small;
  member_name := name_of;
  member_lookup := lookup;
  lookup_member_name := λ m,
    match m with Small => eq_refl | Medium => eq_refl | Large => eq_refl end
|}.

Definition read_back (kind : exn) (t : option pyval) : result pyval :=
  match t with
  | Some v => Ok v
  | None => Raise kind
  end.

#[global] Instance serializers : Serializers (option pyval) := {|
  empty_text := None;
  yaml_safe_dump := Some;
  yaml_safe_load := λ t, Ok (default PNone t);
  json_dump := Some;
  json_load := read_back JSONDecodeError
|}.

Definition default_config : SimulationConfig WorkloadType :=
  create_default_config.

Definition empty_fs : FS (option pyval) := mkFS ∅ ∅.

(** The default configuration with a NaN time limit. *)
Definition nan_time_limit : SimulationConfig WorkloadType :=
  set_time_limit float_nan default_config.

(** The default configuration with a string where an integer is declared. *)
Definition mistyped : SimulationConfig WorkloadType :=
  set_num_devices (PStr "eight") default_config.

(** The default configuration with no device count at all. *)
Definition absent_num_devices : SimulationConfig WorkloadType :=
  set_num_devices PNone default_config.

(** Values of every kind for the fields the validator does not read. *)
Definition odd_values : uninspected :=
  mkUninspected (PStr "ring_of_moons") (PStr "anywhere") (PStr "") (PInt 7)
    PNone (PStr "two") float_nan (PList []) (PDict ∅).

(** The encoded default configuration with a workload model that is no
    member of the registry. *)
Definition unknown_member_tree : gmap string pyval :=
  <["workload" := PDict (list_to_map [
      ("model_type", PStr "NONEXISTENT");
      ("initial_sequence_lengths", PList [PInt 128]);
      ("generation_steps", PList [PInt 32])])]>
    (to_dict default_config).

(** The same unknown member under a network section without
    [num_devices]. *)
Definition two_defects_tree : gmap string pyval :=
  <["network" := PDict (list_to_map [
      ("topology_type", PStr "edge_cluster");
      ("min_bandwidth", float_of_Z 1);
      ("max_bandwidth", float_of_Z 10)])]>
    unknown_member_tree.

(** A filesystem holding the default configuration under a [.yml] name, and
    one holding a text file. *)
Definition yml_fs : FS (option pyval) :=
  mkFS {[ ["config.yml"] := Some (PDict (to_dict default_config)) ]} ∅.

Definition txt_fs : FS (option pyval) :=
  mkFS {[ ["notes.txt"] := Some (PStr "remember the milk") ]} ∅.

(** A filesystem with a directory [results]. *)
Definition results_fs : FS (option pyval) := mkFS ∅ {[ ["results"] ]}.

End Sample.

(** ** Further definitions for the decoder and the merge *)

(** The keys that [from_dict] subscripts the tree with. *)
Definition section_names : list string :=
  ["network"; "resources"; "workload"; "algorithm"; "experiment"].

(** The defaults that the dataclass declarations give, as a tree. *)
Definition defaults_tree : gmap string pyval :=
  list_to_map [
    ("network", PDict (list_to_map [
       ("edge_probability", f0_3); ("seed", PNone)]));
    ("resources", PDict (list_to_map [("seed", PNone)]));
    ("workload", PDict (list_to_map [
       ("precision_bytes", PInt 4); ("seed", PNone)]));
    ("algorithm", PDict (list_to_map [
       ("migration_threshold", f0_9);
       ("backtrack_limit", PInt 100);
       ("cache_placement_strategy", PStr "colocated");
       ("enable_dynamic_adjustment", PBool true)]));
    ("experiment", PDict (list_to_map [
       ("num_runs", PInt 1);
       ("checkpoint_interval", PInt 10);
       ("time_limit", float_inf);
       ("metrics_output_dir", PStr "results");
       ("save_intermediate", PBool false)]))].

Definition set_model_type {E} (m : E) (c : SimulationConfig E)
  : SimulationConfig E :=
  mkSimulationConfig (network c) (resources c)
    (WorkloadConfig.mk m
       (WorkloadConfig.initial_sequence_lengths (workload c))
       (WorkloadConfig.generation_steps (workload c))
       (WorkloadConfig.precision_bytes (workload c))
       (WorkloadConfig.seed (workload c)))
    (algorithm c) (experiment c).

(** What an override may hold for the merge to succeed: under each section
    name nothing, or a mapping whose keys are parameters of the section; and
    for the workload model, if it is supplied, the name of a member. *)
Definition override_accepted `{EnumRegistry E} (o : gmap string pyval)
  : Prop :=
  Forall (λ '(s, (all, _)),
    match o !! s with
    | None => True
    | Some (PDict d) => dom d ⊆ list_to_set all
    | Some _ => False
    end) schema
  ∧ match tree_get o "workload" "model_type" with
    | None => True
    | Some v => ∃ name (m : E), v = PStr name ∧ member_lookup name = Some m
    end.

(** The number of constructors of a value, for inductions that descend into
    the values of a mapping. *)
Fixpoint pyval_size (v : pyval) : nat :=
  match v with
  | PList l => S (foldr (λ x n, pyval_size x + n)%nat 0%nat l)
  | PDict d => S (map_fold (λ _ x n, pyval_size x + n)%nat 0%nat d)
  | _ => 1%nat
  end.

(** [isinstance(v, (bool, int, float))] *)
Definition is_number (v : pyval) : bool :=
  match as_number v with
  | Some _ => true
  | None => false
  end.

(** ** The performance report of the visualization module

    [create_performance_report] of [src/utils/visualization.py] works on a
    [pandas.DataFrame].  A frame is an index of [df_len] rows and a mapping
    from column names to columns; in a well-formed frame every column is as
    long as the index. *)
Record DataFrame := mkDataFrame {
  df_len : nat;
  df_columns : gmap string (list pyval)
}.

Definition df_wf (df : DataFrame) : Prop :=
  map_Forall (λ _ col, length col = df_len df) (df_columns df).

(** [df.empty]: one of the two axes has length zero. *)
Definition df_empty (df : DataFrame) : bool :=
  (df_len df =? 0)%nat || (size (df_columns df) =? 0)%nat.

(** [col in df.columns] *)
Definition has_column (df : DataFrame) (col : string) : bool :=
  bool_decide (is_Some (df_columns df !! col)).

(** [df[col]] *)
Definition df_getitem (df : DataFrame) (col : string)
  : result (list pyval) :=
  match df_columns df !! col with
  | Some column => Ok column
  | None => Raise (KeyError (PStr col))
  end.

(** [x == s] for a string [s] *)
Definition is_str (s : string) (x : pyval) : bool :=
  match x with
  | PStr a => String.eqb a s
  | _ => false
  end.

(** [series == s], element by element *)
Definition series_eq (column : list pyval) (s : string) : list bool :=
  is_str s <$> column.

(** The entries of [l] at which the mask is true. *)
Fixpoint keep {A} (mask : list bool) (l : list A) : list A :=
  match mask, l with
  | b :: mask', x :: l' => if b then x :: keep mask' l' else keep mask' l'
  | _, _ => []
  end.

(** [df[mask]]: the rows at which the mask is true. *)
Definition df_mask (df : DataFrame) (mask : list bool) : DataFrame :=
  mkDataFrame (length (filter (λ b, b = true) mask))
              (keep mask <$> df_columns df).

(** [pd.DataFrame()] *)
Definition df_new : DataFrame := mkDataFrame 0 ∅.

(** The statistics of pandas, each already converted with [float], the
    per-device means as the dictionary [to_dict] gives, and the clock.  They
    are library code; a statistic may raise, for instance on a column that
    holds no numbers. *)
Class Statistics := {
  series_max : list pyval → result pyfloat;
  series_mean : list pyval → result pyfloat;
  series_sum : list pyval → result pyfloat;
  series_std : list pyval → result pyfloat;
  groupby_mean : list pyval → list pyval → result pyval;
  now_isoformat : string
}.

Definition float_zero : pyval := PFloat (F_fin false 0 0).

Section Report.
Context `{!Statistics}.

(** The three helpers [safe_max], [safe_mean] and [safe_sum] differ in the
    statistic only. *)
Definition safe_stat (stat : list pyval → result pyfloat)
  (df : DataFrame) (col : string) : result pyval :=
  if has_column df col && negb (df_empty df)
  then PFloat <$> (df_getitem df col ≫= stat)
  else Ok float_zero.

Definition safe_max := safe_stat series_max.
Definition safe_mean := safe_stat series_mean.
Definition safe_sum := safe_stat series_sum.

Definition safe_filter (df : DataFrame) (condition : list bool)
  : DataFrame :=
  if negb (df_empty df) && has_column df "event_type"
  then df_mask df condition
  else df_new.

(** The report dictionary. *)
Definition report_dict (total_runtime average_latency latency_std
  peak_mem_util peak_comp_util total_data_transferred avg_transfer_time
  : pyval) (total_migrations : nat) (average_migration_cost : pyval)
  (mem_group comp_group : pyval) : gmap string pyval :=
  list_to_map [
    ("timestamp", PStr now_isoformat);
    ("summary_statistics", PDict (list_to_map [
       ("total_runtime", total_runtime);
       ("average_latency", average_latency);
       ("latency_std", latency_std);
       ("peak_memory_utilization", peak_mem_util);
       ("peak_compute_utilization", peak_comp_util)]));
    ("resource_utilization", PDict (list_to_map [
       ("average_memory_utilization", mem_group);
       ("average_compute_utilization", comp_group)]));
    ("communication_statistics", PDict (list_to_map [
       ("total_data_transferred", total_data_transferred);
       ("average_transfer_time", avg_transfer_time)]));
    ("migration_statistics", PDict (list_to_map [
       ("total_migrations", PInt (Z.of_nat total_migrations));
       ("average_migration_cost", average_migration_cost)]))].

(** [metrics_data.groupby("device_id")[col].mean()] when the column is
    there, and an empty series otherwise *)
Definition device_means (metrics_data : DataFrame) (col : string)
  : result pyval :=
  if has_column metrics_data col
  then keys ← df_getitem metrics_data "device_id";
       values ← df_getitem metrics_data col;
       groupby_mean keys values
  else Ok (PDict ∅).

(** [create_performance_report] up to the point where the file is opened:
    the statements in their order, each of which may raise. *)
Definition performance_report (metrics_data : DataFrame)
  : result (gmap string pyval) :=
  total_runtime ← safe_max metrics_data "step";
  average_latency ← safe_mean metrics_data "latency";
  latency_std ←
    (if has_column metrics_data "latency" && negb (df_empty metrics_data)
     then PFloat <$> (df_getitem metrics_data "latency" ≫= series_std)
     else Ok float_zero);
  peak_mem_util ← safe_max metrics_data "memory_utilization";
  peak_comp_util ← safe_max metrics_data "compute_utilization";
  total_data_transferred ← safe_sum metrics_data "data_transferred";
  avg_transfer_time ← safe_mean metrics_data "transfer_time";
  event_type ← df_getitem metrics_data "event_type";
  let migration_df :=
    safe_filter metrics_data (series_eq event_type "migration") in
  let total_migrations := df_len migration_df in
  average_migration_cost ← safe_mean migration_df "migration_cost";
  if has_column metrics_data "device_id"
  then
    mem_group ← device_means metrics_data "memory_utilization";
    comp_group ← device_means metrics_data "compute_utilization";
    Ok (report_dict total_runtime average_latency latency_std
          peak_mem_util peak_comp_util total_data_transferred
          avg_transfer_time total_migrations average_migration_cost
          mem_group comp_group)
  else
    Ok (report_dict total_runtime average_latency latency_std
          peak_mem_util peak_comp_util total_data_transferred
          avg_transfer_time total_migrations average_migration_cost
          (PDict ∅) (PDict ∅)).

Context {text : Type} `{!Serializers text}.

(** [VisualizationManager.create_performance_report]: the report is built,
    then the file is opened and the report dumped as JSON. *)
Definition create_performance_report (metrics_data : DataFrame)
  (output_file : Path) : io text unit :=
  report ← lift (performance_report metrics_data);
  open_write output_file;;
  write output_file (json_dump (PDict report)).

End Report.

(** The entries of the report that are a statistic of one column: the
    column, then the section and the key of the report that hold it. *)
Definition report_entries : list (string * (string * string)) :=
  [("step", ("summary_statistics", "total_runtime"));
   ("latency", ("summary_statistics", "average_latency"));
   ("latency", ("summary_statistics", "latency_std"));
   ("memory_utilization", ("summary_statistics", "peak_memory_utilization"));
   ("compute_utilization",
      ("summary_statistics", "peak_compute_utilization"));
   ("data_transferred",
      ("communication_statistics", "total_data_transferred"));
   ("transfer_time", ("communication_statistics", "average_transfer_time"));
   ("migration_cost", ("migration_statistics", "average_migration_cost"))].

(** ** Plotting a whole run

    [plot_all_metrics] takes its two directories as [Union[str, Path]]: a
    string that spells a path, or a [Path] object.  [Path(x)] is the path
    either way; the two differ in the operators they have. *)
Inductive path_like :=
| AsStr (p : Path)
| AsPath (p : Path).

(** [Path(x)] *)
Definition to_path (x : path_like) : Path :=
  match x with
  | AsStr p => p
  | AsPath p => p
  end.

(** [x / name] for a single component [name]: a [Path] has the operator, a
    [str] has not. *)
Definition path_div (x : path_like) (name : string) : result Path :=
  match x with
  | AsPath p => Ok (p ++ [name])
  | AsStr _ => Raise TypeError
  end.

(** What the plotting of a run calls in matplotlib, seaborn and pandas.
    [fig] is a figure.  The plot methods of [VisualizationManager] that are
    used for a run hand the frame to these libraries and return the figure;
    here they return a figure or raise.  Reading the metrics leaves the
    filesystem as it is; saving a figure may change it. *)
Class Plotting (text fig : Type) := {
  style_use : string → result unit;
  read_json_lines : Path → FS text → result DataFrame;
  series_unique : list pyval → list pyval;
  plot_resource_utilization : DataFrame → list pyval → result fig;
  plot_communication_patterns : DataFrame → result fig;
  plot_migration_analysis : DataFrame → result fig;
  savefig : fig → Path → io text unit
}.

Record VisualizationManager := mkVisualizationManager {
  output_dir : Path
}.

Section Plots.
Context {text fig : Type}.
Context `{!Serializers text} `{!Statistics} `{!Plotting text fig}.

(** [VisualizationManager.__init__]: the directory is made, then the style
    is applied. *)
Definition VisualizationManager_init (dir : path_like) (style : string)
  : io text VisualizationManager :=
  let self := mkVisualizationManager (to_path dir) in
  mkdir_parents (output_dir self);;
  lift (style_use style);;
  mret self.

(** [VisualizationManager.save_plot]: one file for each format, in order. *)
Definition save_plot (self : VisualizationManager) (f : fig) (name : string)
  (formats : list string) : io text unit :=
  foldr (λ fmt rest,
           savefig f (output_dir self ++ [name +:+ "." +:+ fmt]);; rest)
        (mret ()) formats.

(** [pd.read_json(path, lines=True)] *)
Definition pd_read_json (p : Path) : io text DataFrame :=
  λ fs, (read_json_lines p fs, fs).

(** [plot_all_metrics] up to the report: the three plots are drawn and
    saved, each as [png] and [pdf]. *)
Definition plot_all (metrics_dir dir : path_like) : io text DataFrame :=
  viz ← VisualizationManager_init dir "seaborn-whitegrid";
  metrics_data ← pd_read_json (to_path metrics_dir ++ ["metrics.jsonl"]);
  device_ids ← lift (series_unique <$> df_getitem metrics_data "device_id");
  f ← lift (plot_resource_utilization metrics_data device_ids);
  save_plot viz f "resource_utilization" ["png"; "pdf"];;
  event_type ← lift (df_getitem metrics_data "event_type");
  f ← lift (plot_communication_patterns
              (df_mask metrics_data (series_eq event_type "communication")));
  save_plot viz f "communication_patterns" ["png"; "pdf"];;
  event_type ← lift (df_getitem metrics_data "event_type");
  f ← lift (plot_migration_analysis
              (df_mask metrics_data (series_eq event_type "migration")));
  save_plot viz f "migration_analysis" ["png"; "pdf"];;
  mret metrics_data.

(** [plot_all_metrics]: the report goes to [output_dir / name], computed
    from the argument as it was passed. *)
Definition plot_all_metrics (metrics_dir dir : path_like) : io text unit :=
  metrics_data ← plot_all metrics_dir dir;
  output_file ← lift (path_div dir "performance_report.json");
  create_performance_report metrics_data output_file.

End Plots.

(** ** What two of the plots hand to matplotlib and networkx

    [plot_latency_comparison] and [plot_network_topology] compute, from
    their arguments, the bars and the colours and widths that they hand to
    the drawing libraries.  The calls of the libraries are taken to return;
    the exceptions are those of the subscripts and of the division. *)
Inductive plot_exn :=
| ZeroDivisionError
| IndexError
| Exn (e : exn).

(** [[latencies[algo][j] for j in js]]: the mapping and then the list are
    subscripted once for each [j]. *)
Fixpoint bar_heights (latencies : gmap string (list pyval)) (algo : string)
  (js : list nat) : plot_exn + list pyval :=
  match js with
  | [] => inr []
  | j :: js' =>
      match latencies !! algo with
      | None => inl (Exn (KeyError (PStr algo)))
      | Some l =>
          match l !! j with
          | None => inl IndexError
          | Some v =>
              match bar_heights latencies algo js' with
              | inl e => inl e
              | inr vs => inr (v :: vs)
              end
          end
      end
  end.

(** The loop over [algorithms]: one call of [ax.bar] for each, with the
    heights and the label. *)
Fixpoint bars (latencies : gmap string (list pyval)) (n : nat)
  (algorithms : list string) : plot_exn + list (string * list pyval) :=
  match algorithms with
  | [] => inr []
  | algo :: rest =>
      match bar_heights latencies algo (seq 0 n) with
      | inl e => inl e
      | inr heights =>
          match bars latencies n rest with
          | inl e => inl e
          | inr drawn => inr ((algo, heights) :: drawn)
          end
      end
  end.

(** [plot_latency_comparison]: the width of a bar is [0.8 / len(algorithms)],
    computed before the loop. *)
Definition plot_latency_comparison (algorithms : list string)
  (latencies : gmap string (list pyval)) (workload_types : list string)
  : plot_exn + list (string * list pyval) :=
  if decide (length algorithms = 0%nat) then inl ZeroDivisionError
  else bars latencies (length workload_types) algorithms.

(** A graph as [graph.nodes()] and [graph.edges()] give it. *)
Record Graph := mkGraph {
  nodes : list string;
  edges : list (string * string)
}.

(** [[node_colors[node] for node in graph.nodes()]] *)
Fixpoint node_color (node_colors : gmap string string) (ns : list string)
  : result (list string) :=
  match ns with
  | [] => Ok []
  | node :: rest =>
      match node_colors !! node with
      | None => Raise (KeyError (PStr node))
      | Some colour => cons colour <$> node_color node_colors rest
      end
  end.

(** [[edge_weights.get((u, v), 1.0) for u, v in edges]] *)
Definition edge_widths (edge_weights : gmap (string * string) pyval)
  (es : list (string * string)) : list pyval :=
  (λ e, default (float_of_Z 1) (edge_weights !! e)) <$> es.

(** [plot_network_topology]: the colours of the nodes, then the widths of
    the edges. *)
Definition plot_network_topology (graph : Graph)
  (node_colors : gmap string string)
  (edge_weights : gmap (string * string) pyval)
  : result (list string * list pyval) :=
  colours ← node_color node_colors (nodes graph);
  Ok (colours, edge_widths edge_weights (edges graph)).

(** ** Equality of values and of configurations

    [==] between two values that share no object, as a configuration and
    the one read back from a file do.  Numbers are compared by value across
    [bool], [int] and [float], and NaN equals nothing, itself included;
    lists and mappings are compared element by element. *)
Definition num_eq (a b : xnum) : bool :=
  match num_compare a b with
  | Some Eq => true
  | _ => false
  end.

Definition all2 {A} (f : A → A → bool) : list A → list A → bool :=
  fix go l l' :=
    match l, l' with
    | [], [] => true
    | x :: l, y :: l' => f x y && go l l'
    | _, _ => false
    end.

Fixpoint py_eq (v w : pyval) {struct v} : bool :=
  match v, w with
  | PNone, PNone => true
  | PStr a, PStr b => String.eqb a b
  | PList l, PList l' => all2 py_eq l l'
  | PDict d, PDict d' =>
      bool_decide (dom d = dom d')
      && map_fold (λ k x acc,
           acc && match d' !! k with
                  | Some y => py_eq x y
                  | None => false
                  end) true d
  | _, _ =>
      match as_number v, as_number w with
      | Some a, Some b => num_eq a b
      | _, _ => false
      end
  end.

(** The [__eq__] that [@dataclass] generates compares the tuples of the
    fields; the members of an [Enum] are equal when they are the same
    member, which their names tell. *)
Definition NetworkConfig_eq (a b : NetworkConfig.t) : bool :=
  all2 py_eq
    [NetworkConfig.topology_type a; NetworkConfig.num_devices a;
     NetworkConfig.min_bandwidth a; NetworkConfig.max_bandwidth a;
     NetworkConfig.edge_probability a; NetworkConfig.seed a]
    [NetworkConfig.topology_type b; NetworkConfig.num_devices b;
     NetworkConfig.min_bandwidth b; NetworkConfig.max_bandwidth b;
     NetworkConfig.edge_probability b; NetworkConfig.seed b].

Definition ResourceConfig_eq (a b : ResourceConfig.t) : bool :=
  all2 py_eq
    [ResourceConfig.memory_mu a; ResourceConfig.memory_sigma a;
     ResourceConfig.memory_min a; ResourceConfig.memory_max a;
     ResourceConfig.compute_mu a; ResourceConfig.compute_sigma a;
     ResourceConfig.compute_min a; ResourceConfig.compute_max a;
     ResourceConfig.seed a]
    [ResourceConfig.memory_mu b; ResourceConfig.memory_sigma b;
     ResourceConfig.memory_min b; ResourceConfig.memory_max b;
     ResourceConfig.compute_mu b; ResourceConfig.compute_sigma b;
     ResourceConfig.compute_min b; ResourceConfig.compute_max b;
     ResourceConfig.seed b].

Definition WorkloadConfig_eq `{EnumRegistry E} (a b : WorkloadConfig.t E)
  : bool :=
  String.eqb (member_name (WorkloadConfig.model_type a))
             (member_name (WorkloadConfig.model_type b))
  && all2 py_eq
       [WorkloadConfig.initial_sequence_lengths a;
        WorkloadConfig.generation_steps a;
        WorkloadConfig.precision_bytes a; WorkloadConfig.seed a]
       [WorkloadConfig.initial_sequence_lengths b;
        WorkloadConfig.generation_steps b;
        WorkloadConfig.precision_bytes b; WorkloadConfig.seed b].

Definition AlgorithmConfig_eq (a b : AlgorithmConfig.t) : bool :=
  all2 py_eq
    [AlgorithmConfig.migration_threshold a; AlgorithmConfig.backtrack_limit a;
     AlgorithmConfig.cache_placement_strategy a;
     AlgorithmConfig.enable_dynamic_adjustment a]
    [AlgorithmConfig.migration_threshold b; AlgorithmConfig.backtrack_limit b;
     AlgorithmConfig.cache_placement_strategy b;
     AlgorithmConfig.enable_dynamic_adjustment b].

Definition ExperimentConfig_eq (a b : ExperimentConfig.t) : bool :=
  all2 py_eq
    [ExperimentConfig.name a; ExperimentConfig.description a;
     ExperimentConfig.num_runs a; ExperimentConfig.checkpoint_interval a;
     ExperimentConfig.time_limit a; ExperimentConfig.metrics_output_dir a;
     ExperimentConfig.save_intermediate a]
    [ExperimentConfig.name b; ExperimentConfig.description b;
     ExperimentConfig.num_runs b; ExperimentConfig.checkpoint_interval b;
     ExperimentConfig.time_limit b; ExperimentConfig.metrics_output_dir b;
     ExperimentConfig.save_intermediate b].

Definition SimulationConfig_eq `{EnumRegistry E} (a b : SimulationConfig E)
  : bool :=
  NetworkConfig_eq (network a) (network b)
  && ResourceConfig_eq (resources a) (resources b)
  && WorkloadConfig_eq (workload a) (workload b)
  && AlgorithmConfig_eq (algorithm a) (algorithm b)
  && ExperimentConfig_eq (experiment a) (experiment b).

(** A NaN somewhere inside a value. *)
Fixpoint holds_nan (v : pyval) : bool :=
  match v with
  | PFloat F_nan => true
  | PList l => existsb holds_nan l
  | PDict d => map_fold (λ _ x acc, holds_nan x || acc) false d
  | _ => false
  end.

(** The values of all the fields of a configuration that are Python
    values. *)
Definition field_values {E} (c : SimulationConfig E) : list pyval :=
  [NetworkConfig.topology_type (network c);
   NetworkConfig.num_devices (network c);
   NetworkConfig.min_bandwidth (network c);
   NetworkConfig.max_bandwidth (network c);
   NetworkConfig.edge_probability (network c);
   NetworkConfig.seed (network c);
   ResourceConfig.memory_mu (resources c);
   ResourceConfig.memory_sigma (resources c);
   ResourceConfig.memory_min (resources c);
   ResourceConfig.memory_max (resources c);
   ResourceConfig.compute_mu (resources c);
   ResourceConfig.compute_sigma (resources c);
   ResourceConfig.compute_min (resources c);
   ResourceConfig.compute_max (resources c);
   ResourceConfig.seed (resources c);
   WorkloadConfig.initial_sequence_lengths (workload c);
   WorkloadConfig.generation_steps (workload c);
   WorkloadConfig.precision_bytes (workload c);
   WorkloadConfig.seed (workload c);
   AlgorithmConfig.migration_threshold (algorithm c);
   AlgorithmConfig.backtrack_limit (algorithm c);
   AlgorithmConfig.cache_placement_strategy (algorithm c);
   AlgorithmConfig.enable_dynamic_adjustment (algorithm c);
   ExperimentConfig.name (experiment c);
   ExperimentConfig.description (experiment c);
   ExperimentConfig.num_runs (experiment c);
   ExperimentConfig.checkpoint_interval (experiment c);
   ExperimentConfig.time_limit (experiment c);
   ExperimentConfig.metrics_output_dir (experiment c);
   ExperimentConfig.save_intermediate (experiment c)].

Definition set_memory_mu {E} (v : pyval) (c : SimulationConfig E)
  : SimulationConfig E :=
  mkSimulationConfig (network c)
    (ResourceConfig.mk v
       (ResourceConfig.memory_sigma (resources c))
       (ResourceConfig.memory_min (resources c))
       (ResourceConfig.memory_max (resources c))
       (ResourceConfig.compute_mu (resources c))
       (ResourceConfig.compute_sigma (resources c))
       (ResourceConfig.compute_min (resources c))
       (ResourceConfig.compute_max (resources c))
       (ResourceConfig.seed (resources c)))
    (workload c) (algorithm c) (experiment c).

(** A section's sub-mapping that its constructor refuses: it lacks a
    required field, or holds a field that is no parameter. *)
Definition defective (all req : list string) (d : gmap string pyval)
  : Prop :=
  (∃ f, f ∈ req ∧ d !! f = None) ∨ (∃ f, is_Some (d !! f) ∧ f ∉ all).

(** The section [s] of the tree [t] is in order: it has the shape that its
    constructor accepts, and the model name of the workload section is a
    member of the registry. *)
Definition section_in_order `{EnumRegistry E} (t : gmap string pyval)
  (s : string) (all req : list string) : Prop :=
  (∃ v, t !! s = Some v ∧ section_shape all req v)
  ∧ (s = "workload" →
     ∃ w name (m : E), t !! s = Some (PDict w)
       ∧ w !! "model_type" = Some (PStr name)
       ∧ member_lookup name = Some m).

(** ** A sample run *)

Module SampleRun.

(** A stand-in for pandas on columns of integers: the maximum and the sum
    are exact, the mean is given where it is whole, and the rest is outside
    of what the stand-in computes. *)
Fixpoint ints (column : list pyval) : result (list Z) :=
  match column with
  | [] => Ok []
  | PInt n :: rest => cons n <$> ints rest
  | _ => Raise TypeError
  end.

Definition whole (n : Z) : pyfloat := F_fin (n <? 0) (Z.abs_N n) 0.

Definition int_max (column : list pyval) : result pyfloat :=
  l ← ints column;
  match l with
  | [] => Ok F_nan
  | n :: rest => Ok (whole (foldr Z.max n rest))
  end.

Definition int_sum (column : list pyval) : result pyfloat :=
  l ← ints column; Ok (whole (foldr Z.add 0 l)).

Definition int_mean (column : list pyval) : result pyfloat :=
  l ← ints column;
  match l with
  | [] => Ok F_nan
  | _ =>
      let total := foldr Z.add 0 l in
      let n := Z.of_nat (length l) in
      if total mod n =? 0 then Ok (whole (total / n))
      else Raise OutsideFragment
  end.

Definition int_std (column : list pyval) : result pyfloat :=
  l ← ints column;
  if (length l <=? 1)%nat then Ok F_nan else Raise OutsideFragment.

Definition statistics : Statistics := {|
  series_max := int_max;
  series_mean := int_mean;
  series_sum := int_sum;
  series_std := int_std;
  groupby_mean := λ _ _, Raise OutsideFragment;
  now_isoformat := "2024-05-01T12:00:00"
|}.

(** Three events of one device, two of them migrations. *)
Definition run_frame : DataFrame :=
  mkDataFrame 3 (list_to_map [
    ("step", [PInt 1; PInt 2; PInt 3]);
    ("device_id", [PStr "device_0"; PStr "device_0"; PStr "device_0"]);
    ("event_type",
       [PStr "migration"; PStr "communication"; PStr "migration"]);
    ("migration_cost", [PInt 4; PInt 7; PInt 6])]).

(** A frame with the event column and no row. *)
Definition idle_frame : DataFrame :=
  mkDataFrame 0 (list_to_map [("event_type", [])]).

(** The report of [run_frame]. *)
Definition run_report : gmap string pyval :=
  @report_dict statistics (PFloat (whole 3)) float_zero float_zero float_zero
    float_zero float_zero float_zero 2 (PFloat (whole 5))
    (PDict ∅) (PDict ∅).

(** Drawing libraries that return the name of the plot as the figure and
    save it as a file that holds that name; every metrics file reads as
    [run_frame], which has one device. *)
Definition read_run (p : Path) (fs : FS (option pyval)) : result DataFrame :=
  match fs_files fs !! p with
  | Some _ => Ok run_frame
  | None => Raise FileNotFoundError
  end.

Definition plotting : Plotting (option pyval) string := {|
  style_use := λ _, Ok ();
  read_json_lines := read_run;
  series_unique := take 1;
  plot_resource_utilization := λ _ _, Ok "resource_utilization";
  plot_communication_patterns := λ _, Ok "communication_patterns";
  plot_migration_analysis := λ _, Ok "migration_analysis";
  savefig := λ f p, open_write p;; write p (Some (PStr f))
|}.

(** A filesystem with the metrics of a run. *)
Definition metrics_fs : FS (option pyval) :=
  mkFS {[ ["metrics"; "metrics.jsonl"] := Some (PStr "{}") ]}
       {[ ["metrics"] ]}.

(** A filesystem with an empty YAML file. *)
Definition empty_yaml_fs : FS (option pyval) :=
  mkFS {[ ["empty.yaml"] := None ]} ∅.

(** A tree that holds the required fields only. *)
Definition minimal_tree : gmap string pyval :=
  list_to_map [
    ("network", PDict (list_to_map [
       ("topology_type", PStr "edge_cluster");
       ("num_devices", PInt 8);
       ("min_bandwidth", float_of_Z 1);
       ("max_bandwidth", float_of_Z 10)]));
    ("resources", PDict (list_to_map [
       ("memory_mu", float_of_Z 2); ("memory_sigma", f0_5);
       ("memory_min", float_of_Z 1); ("memory_max", float_of_Z 16);
       ("compute_mu", float_of_Z 5); ("compute_sigma", f0_5);
       ("compute_min", float_of_Z 1); ("compute_max", float_of_Z 32)]));
    ("workload", PDict (list_to_map [
       ("model_type", PStr "MEDIUM");
       ("initial_sequence_lengths", PList [PInt 128]);
       ("generation_steps", PList [PInt 32])]));
    ("algorithm", PDict ∅);
    ("experiment", PDict (list_to_map [
       ("name", PStr "minimal");
       ("description", PStr "required fields only")]))].

(** The encoded default configuration with a comment beside the sections. *)
Definition commented_tree : gmap string pyval :=
  <["comment" := PStr "tuned by hand"]> (to_dict Sample.default_config).

(** The default configuration with a NaN where no invariant looks: the
    mean of the memory distribution. *)
Definition nan_memory_mu : SimulationConfig Sample.WorkloadType :=
  set_memory_mu float_nan Sample.default_config.

(** The default configuration with a NaN edge probability, and with a NaN
    migration threshold. *)
Definition nan_edge_probability : SimulationConfig Sample.WorkloadType :=
  mkSimulationConfig
    (NetworkConfig.mk (PStr "edge_cluster") (PInt 8) (float_of_Z 1)
       (float_of_Z 10) float_nan PNone)
    (resources Sample.default_config) (workload Sample.default_config)
    (algorithm Sample.default_config) (experiment Sample.default_config).

Definition nan_migration_threshold : SimulationConfig Sample.WorkloadType :=
  mkSimulationConfig
    (network Sample.default_config) (resources Sample.default_config)
    (workload Sample.default_config)
    (AlgorithmConfig.mk float_nan (PInt 100) (PStr "colocated") (PBool true))
    (experiment Sample.default_config).

(** The default configuration with no device at all. *)
Definition no_devices : SimulationConfig Sample.WorkloadType :=
  set_num_devices (PInt 0) Sample.default_config.

(** The encoded default configuration with a resources section that holds
    one field only, and with an algorithm section that holds a field that
    is no parameter. *)
Definition short_resources_tree : gmap string pyval :=
  <["resources" := PDict {["memory_mu" := float_of_Z 2]}]>
    (to_dict Sample.default_config).

Definition odd_algorithm_tree : gmap string pyval :=
  <["algorithm" := PDict {["learning_rate" := f0_5]}]>
    (to_dict Sample.default_config).

(** An override with a misspelt section name, and one for the device
    count. *)
Definition misspelt_override : gmap string pyval :=
  {["netwrok" := PDict {["num_devices" := PInt 4]}]}.

Definition devices_override : gmap string pyval :=
  {["network" := PDict {["num_devices" := PInt 4]}]}.

(** A triangle whose weights are stored under one orientation. *)
Definition triangle : Graph :=
  mkGraph ["a"; "b"; "c"] [("a", "b"); ("b", "c"); ("a", "c")].

Definition triangle_weights : gmap (string * string) pyval :=
  list_to_map [(("a", "b"), float_of_Z 10); (("c", "b"), float_of_Z 5)].

Definition triangle_colors : gmap string string :=
  list_to_map [("a", "red"); ("b", "blue"); ("c", "green"); ("d", "grey")].

End SampleRun.

(** * Properties *)

(** ** Ordering of numbers *)

Lemma num_le_gt a b c :
  num_compare a b = Some c → num_le a b = negb (num_gt a b).
Proof. unfold num_le, num_gt. intros ->. by destruct c. Qed.

Lemma num_compare_not_nan a b :
  a ≠ XNan → b ≠ XNan → is_Some (num_compare a b).
Proof. destruct a, b; naive_solver. Qed.

Lemma dy_compare_zero_r m e : dy_compare m e 0 0 = (m ?= 0).
Proof.
  unfold dy_compare.
  assert (0 < 2 ^ (e - Z.min e 0)) by (apply Z.pow_pos_nonneg; lia).
  rewrite Z.mul_0_l.
  destruct (Z.compare_spec m 0) as [->| |];
    [by rewrite Z.mul_0_l | apply Z.compare_lt_iff | apply Z.compare_gt_iff];
    nia.
Qed.

(** A number above zero that is at most [b] leaves [b] above zero. *)
Lemma num_gt_zero_le a b :
  num_gt a zero = true → num_le a b = true → num_gt b zero = true.
Proof.
  unfold num_gt, num_le, zero.
  destruct a as [|[]|m1 e1], b as [|[]|m2 e2]; simpl; try done.
  rewrite !dy_compare_zero_r. unfold dy_compare.
  assert (0 < 2 ^ (e1 - Z.min e1 e2)) by (apply Z.pow_pos_nonneg; lia).
  assert (0 < 2 ^ (e2 - Z.min e1 e2)) by (apply Z.pow_pos_nonneg; lia).
  destruct (Z.compare_spec m1 0); try done.
  destruct (Z.compare_spec (m1 * 2 ^ (e1 - Z.min e1 e2))
              (m2 * 2 ^ (e2 - Z.min e1 e2))); try done;
    intros _ _; destruct (Z.compare_spec m2 0); try done; nia.
Qed.

(** ** How the tests of the validator behave *)

Lemma as_number_not_str_list v a :
  as_number v = Some a →
  match v with PStr _ | PList _ => False | _ => True end.
Proof. by destruct v. Qed.

Lemma py_order_numbers op x y a b :
  as_number x = Some a → as_number y = Some b →
  py_order op x y = Ok (op a b).
Proof. unfold py_order. by intros -> ->. Qed.

Lemma py_order_not_number_l op x n :
  as_number x = None → py_order op x (PInt n) = Raise TypeError.
Proof. unfold py_order. intros ->. by destruct x. Qed.

Lemma py_order_not_number_r op n x :
  as_number x = None → py_order op (PInt n) x = Raise TypeError.
Proof. unfold py_order. intros ->. simpl. by destruct x. Qed.

Lemma le_zero_behaves v : behaves (le_zero v) (passes_pos v).
Proof.
  unfold behaves, le_zero, py_le, passes_pos.
  destruct (as_number v) as [a|] eqn:Hv.
  - rewrite (py_order_numbers _ _ _ a zero) by done.
    destruct (num_le a zero); simpl; eauto.
  - rewrite py_order_not_number_l by done. right. by exists TypeError.
Qed.

Lemma py_or_behaves a b p q :
  behaves a p → behaves b q → behaves (py_or a b) (p && q).
Proof.
  unfold behaves, py_or.
  destruct p; simpl.
  - intros ->. by destruct q.
  - intros [->|(e & -> & He)] _; simpl; eauto.
Qed.

Lemma passes_pos_number v :
  passes_pos v = true → ∃ a, as_number v = Some a.
Proof. unfold passes_pos. destruct (as_number v); naive_solver. Qed.

Lemma py_gt_behaves lo hi :
  passes_pos lo = true → passes_pos hi = true →
  behaves (py_gt lo hi) (passes_range lo hi).
Proof.
  intros [a Ha]%passes_pos_number [b Hb]%passes_pos_number.
  unfold behaves, py_gt, passes_range.
  rewrite (py_order_numbers _ _ _ a b), Ha, Hb by done.
  destruct (num_gt a b); simpl; eauto.
Qed.

Lemma in_unit_behaves v :
  behaves (py_not (in_unit v)) (spec_unit_interval v).
Proof.
  unfold behaves, py_not, in_unit, py_between, py_le, spec_unit_interval.
  destruct (as_number v) as [a|] eqn:Hv.
  - rewrite (py_order_numbers num_le (PInt 0) v zero a) by done.
    rewrite (py_order_numbers num_le v (PInt 1) a one) by done. simpl.
    destruct (num_le zero a); simpl; [|eauto].
    destruct (num_le a one); simpl; eauto.
  - rewrite py_order_not_number_r by done. right. by exists TypeError.
Qed.

Lemma py_any_behaves l :
  behaves (py_any le_zero l) (forallb passes_pos l).
Proof.
  induction l as [|x l IH]; [done|]. simpl.
  pose proof (le_zero_behaves x) as Hx. unfold behaves in *.
  destruct (passes_pos x); simpl.
  - by rewrite Hx.
  - destruct Hx as [->|(e & -> & He)]; simpl; eauto.
Qed.

Lemma any_le_zero_behaves v :
  behaves (any_le_zero v) (passes_each v).
Proof.
  unfold any_le_zero, passes_each.
  destruct (py_iter v) as [l|e] eqn:Hv; simpl.
  - apply py_any_behaves.
  - right. exists e. split; [done|]. destruct v; naive_solver.
Qed.

Lemma truthy_behaves v : behaves (Ok (negb (py_truthy v))) (py_truthy v).
Proof. unfold behaves. destruct (py_truthy v); simpl; eauto. Qed.

(** One [if ...: return False] under the handler. *)
Lemma reject_if_step (t k : result bool) (p q : bool) :
  behaves t p →
  (p = true → try_except_Exception k false = Ok q) →
  try_except_Exception (reject_if t; k) false = Ok (p && q).
Proof.
  unfold behaves. destruct p; simpl.
  - intros -> Hk. by apply Hk.
  - intros [->|(e & -> & He)] _; simpl; [done|]. by rewrite He.
Qed.

Section ValidatorFacts.
Context {E : Type}.
Implicit Types c : SimulationConfig E.

(** The validator returns exactly what the seventeen tests let through. *)
Lemma validate_config_accepts c : validate_config c = Ok (accepts c).
Proof.
  unfold validate_config, validate_body, accepts.
  apply reject_if_step; [apply le_zero_behaves|intros _].
  apply reject_if_step;
    [apply py_or_behaves; apply le_zero_behaves|intros [??]%andb_prop].
  apply reject_if_step; [by apply py_gt_behaves|intros _].
  apply reject_if_step; [apply in_unit_behaves|intros _].
  apply reject_if_step; [apply py_any_behaves|].
  intros (?&(?&(?&(?&_)%andb_prop)%andb_prop)%andb_prop)%andb_prop.
  apply reject_if_step; [by apply py_gt_behaves|intros _].
  apply reject_if_step; [by apply py_gt_behaves|intros _].
  apply reject_if_step; [apply truthy_behaves|intros _].
  apply reject_if_step; [apply truthy_behaves|intros _].
  apply reject_if_step; [apply any_le_zero_behaves|intros _].
  apply reject_if_step; [apply any_le_zero_behaves|intros _].
  apply reject_if_step; [apply le_zero_behaves|intros _].
  apply reject_if_step; [apply in_unit_behaves|intros _].
  apply reject_if_step; [apply le_zero_behaves|intros _].
  apply reject_if_step; [apply le_zero_behaves|intros _].
  apply reject_if_step; [apply le_zero_behaves|intros _].
  apply reject_if_step; [apply le_zero_behaves|intros _].
  done.
Qed.

End ValidatorFacts.

(** ** The tests against the invariants of the data model *)

Lemma as_number_nan v : as_number v = Some XNan → is_nan v = true.
Proof. destruct v as [| | |[]| | |]; naive_solver. Qed.

Lemma num_le_negb_gt a b :
  a ≠ XNan → b ≠ XNan → num_le a b = negb (num_gt a b).
Proof.
  intros Ha Hb. destruct (num_compare_not_nan a b Ha Hb) as [c Hc].
  by apply num_le_gt with c.
Qed.

Lemma passes_pos_positive v :
  is_nan v = false → passes_pos v = spec_positive v.
Proof.
  unfold passes_pos, spec_positive. intros Hv.
  destruct (as_number v) as [a|] eqn:Ha; [|done].
  rewrite num_le_negb_gt, negb_involutive; [done| |done].
  intros ->. apply as_number_nan in Ha. congruence.
Qed.

Lemma spec_positive_not_nan v : spec_positive v = true → is_nan v = false.
Proof. by destruct v as [| | |[]| | |]. Qed.

Lemma spec_positive_passes v : spec_positive v = true → passes_pos v = true.
Proof.
  intros H. by rewrite passes_pos_positive by by apply spec_positive_not_nan.
Qed.

Lemma passes_pos_not_list v : passes_pos v = true → nan_free v = negb (is_nan v).
Proof. by destruct v. Qed.

Lemma passes_pos_spec v :
  nan_free v = true → passes_pos v = true → spec_positive v = true.
Proof.
  intros Hn Hp. rewrite (passes_pos_not_list _ Hp) in Hn.
  rewrite <-passes_pos_positive; [done|]. by destruct (is_nan v).
Qed.

Lemma spec_range_passes lo hi :
  spec_range lo hi = true → passes_range lo hi = true.
Proof.
  unfold spec_range, passes_range.
  destruct (as_number lo) as [a|]; [|done].
  destruct (as_number hi) as [b|]; [|done].
  unfold num_le, num_gt. by destruct (num_compare a b) as [[]|].
Qed.

Lemma passes_range_spec lo hi :
  is_nan lo = false → is_nan hi = false →
  passes_range lo hi = true → spec_range lo hi = true.
Proof.
  unfold spec_range, passes_range. intros Hlo Hhi.
  destruct (as_number lo) as [a|] eqn:Ha; [|done].
  destruct (as_number hi) as [b|] eqn:Hb; [|done].
  rewrite num_le_negb_gt; [done| |].
  - intros ->. apply as_number_nan in Ha. congruence.
  - intros ->. apply as_number_nan in Hb. congruence.
Qed.

Lemma passes_range_nan_free lo hi :
  nan_free lo = true → nan_free hi = true →
  passes_pos lo = true → passes_pos hi = true →
  passes_range lo hi = true → spec_range lo hi = true.
Proof.
  intros Hlo Hhi Hl Hh. apply passes_range_spec.
  - rewrite (passes_pos_not_list _ Hl) in Hlo. by destruct (is_nan lo).
  - rewrite (passes_pos_not_list _ Hh) in Hhi. by destruct (is_nan hi).
Qed.

(** A positive lower bound of a range makes the upper bound pass too. *)
Lemma spec_range_upper_passes lo hi :
  spec_positive lo = true → spec_range lo hi = true → passes_pos hi = true.
Proof.
  intros Hlo Hr. apply spec_positive_passes. revert Hlo Hr.
  unfold spec_positive, spec_range.
  destruct (as_number lo) as [a|]; [|done].
  destruct (as_number hi) as [b|]; [|done].
  apply num_gt_zero_le.
Qed.

Lemma forallb_spec_positive_passes l :
  forallb spec_positive l = true → forallb passes_pos l = true.
Proof.
  rewrite !forallb_forall. intros H x Hx. by apply spec_positive_passes, H.
Qed.

Lemma forallb_passes_spec_positive l :
  forallb (λ x, negb (is_nan x)) l = true →
  forallb passes_pos l = true → forallb spec_positive l = true.
Proof.
  rewrite !forallb_forall. intros Hn Hp x Hx.
  rewrite <-passes_pos_positive; [by apply Hp|].
  specialize (Hn x Hx). by destruct (is_nan x).
Qed.

Lemma spec_sequence_passes v :
  spec_positive_sequence v = true →
  py_truthy v = true ∧ passes_each v = true.
Proof.
  destruct v; try done. simpl. intros [? ?]%andb_prop.
  split; [done|]. by apply forallb_spec_positive_passes.
Qed.

Lemma chars_nonempty s :
  String.length s ≠ 0%nat → ∃ a r, chars s = PStr a :: r.
Proof. destruct s; [done|]. simpl. eauto. Qed.

Lemma passes_sequence_spec v :
  nan_free v = true → py_truthy v = true → passes_each v = true →
  spec_positive_sequence v = true.
Proof.
  destruct v as [| | | |s|l|d]; try done; simpl; unfold passes_each; simpl.
  - intros _ Hs%negb_true_iff%Nat.eqb_neq.
    by destruct (chars_nonempty s Hs) as (a & r & ->).
  - intros Hn -> Hp. simpl. by apply forallb_passes_spec_positive.
  - intros _ Hd%negb_true_iff%Nat.eqb_neq.
    rewrite <-length_map_to_list in Hd.
    by destruct (map_to_list d) as [|[k x] r].
Qed.

Section Invariants.
Context {E : Type}.
Implicit Types c : SimulationConfig E.

(** A configuration that satisfies the invariants passes every test. *)
Lemma spec_valid_accepts c : spec_valid c = true → accepts c = true.
Proof.
  unfold spec_valid, accepts. intros H.
  repeat (apply andb_prop in H as [H ?]).
  destruct (spec_sequence_passes
              (WorkloadConfig.initial_sequence_lengths (workload c)))
    as [-> ->]; [done|].
  destruct (spec_sequence_passes
              (WorkloadConfig.generation_steps (workload c)))
    as [-> ->]; [done|].
  simpl.
  repeat match goal with
  | Hp : spec_positive ?lo = true, Hr : spec_range ?lo ?hi = true |- _ =>
      lazymatch goal with
      | _ : passes_pos hi = true |- _ => fail
      | _ => pose proof (spec_range_upper_passes lo hi Hp Hr)
      end
  end.
  repeat match goal with
  | H : spec_positive _ = true |- _ => apply spec_positive_passes in H
  | H : spec_range _ _ = true |- _ => apply spec_range_passes in H
  end.
  by repeat match goal with H : _ = true |- _ => rewrite H; clear H end.
Qed.

(** Without NaN, a configuration that passes every test satisfies the
    invariants. *)
Lemma accepts_spec_valid c :
  no_nan c = true → accepts c = true → spec_valid c = true.
Proof.
  unfold no_nan, accepts, spec_valid. cbn [forallb]. intros Hn H.
  repeat (apply andb_prop in Hn as [Hn ?]).
  repeat match goal with
  | H : _ && _ = true |- _ => apply andb_prop in H as [? ?]
  end.
  repeat match goal with
  | H : passes_range ?a ?b = true |- _ =>
      apply (passes_range_nan_free a b) in H; [|done..]
  end.
  repeat match goal with
  | H : passes_pos ?v = true |- _ => apply passes_pos_spec in H; [|done]
  end.
  rewrite !passes_sequence_spec by done.
  by repeat match goal with H : _ = true |- _ => rewrite H; clear H end.
Qed.

End Invariants.

(** ** The validator: claims *)

Section ValidatorClaims.
Context {E : Type}.
Implicit Types c : SimulationConfig E.

Lemma validate_body_checks c : validate_body c = first_reject checks c.
Proof. reflexivity. Qed.

(** A run of tests does not end in [True] exactly when some test, reached
    after every earlier one answered [false], answers something else. *)
Lemma first_reject_stops
  (ts : list (section_id * (SimulationConfig E → result bool))) c :
  first_reject ts c ≠ Ok true ↔
  ∃ k s t, ts !! k = Some (s, t) ∧ t c ≠ Ok false ∧
    ∀ j s' t', (j < k)%nat → ts !! j = Some (s', t') → t' c = Ok false.
Proof.
  induction ts as [|[s0 t0] ts IH]; simpl.
  - split; [done|]. by intros (k & s & t & Hk & _).
  - destruct (t0 c) as [[]|e] eqn:H0; simpl.
    + split; [intros _|done].
      exists 0%nat, s0, t0. split_and!; [done|congruence|lia].
    + rewrite IH. split.
      * intros (k & s & t & Hk & Ht & Hlt).
        exists (S k), s, t. split_and!; [done..|].
        intros [|j] s' t' Hj Hl; simplify_eq/=; [done|].
        eapply Hlt; [|done]. lia.
      * intros ([|k] & s & t & Hk & Ht & Hlt); simplify_eq/=.
        exists k, s, t. split_and!; [done..|].
        intros j s' t' Hj Hl. apply (Hlt (S j) s' t'); [lia|done].
    + split; [intros _|done].
      exists 0%nat, s0, t0. split_and!; [done|congruence|lia].
Qed.

Lemma validate_config_false_body c :
  validate_config c = Ok false ↔ validate_body c ≠ Ok true.
Proof.
  pose proof (validate_config_accepts c) as Ha. revert Ha.
  unfold validate_config.
  destruct (validate_body c) as [[]|e]; simpl; [naive_solver..|].
  destruct (is_Exception e), (accepts c); naive_solver.
Qed.

(** The answer of [validate_config], for values of the kinds that [pyval]
    has: it is [False] exactly when one of the seventeen tests of the
    source, in their order, is the first not to answer [false] (it answers
    [true] or faults); whenever it is [False] an invariant of the data model
    is violated; and for a configuration none of whose ordered fields is NaN
    it is [False] if and only if an invariant is violated. *)
Lemma validate_false_iff_invariant_violated c :
  (validate_config c = Ok false ↔
   ∃ k s t, checks !! k = Some (s, t) ∧ t c ≠ Ok false ∧
     ∀ j s' t', (j < k)%nat → checks !! j = Some (s', t') → t' c = Ok false)
  ∧ (@checks E).*1 =
      [Network; Network; Network; Network;
       Resources; Resources; Resources;
       Workload; Workload; Workload; Workload; Workload;
       Algorithm; Algorithm;
       Experiment; Experiment; Experiment]
  ∧ (validate_config c = Ok false → spec_valid c = false)
  ∧ (no_nan c = true →
     (validate_config c = Ok false ↔ spec_valid c = false)).
Proof.
  split_and!.
  - by rewrite validate_config_false_body, validate_body_checks,
      first_reject_stops.
  - reflexivity.
  - rewrite validate_config_accepts. intros [= Ha].
    destruct (spec_valid c) eqn:Hs; [|done].
    by rewrite (spec_valid_accepts c Hs) in Ha.
  - intros Hn. rewrite validate_config_accepts. split.
    + intros [= Ha]. destruct (spec_valid c) eqn:Hs; [|done].
      by rewrite (spec_valid_accepts c Hs) in Ha.
    + intros Hs. f_equal. destruct (accepts c) eqn:Ha; [|done].
      by rewrite (accepts_spec_valid c Hn Ha) in Hs.
Qed.

(** C7: [validate_config] returns a boolean for every configuration, whatever
    its fields hold: the answer of the body when the body returns, and
    [False] when the body raises.  Being a function of the configuration
    alone, it is deterministic and has no effect. *)
Theorem validate_never_raises c :
  ∃ b : bool,
    validate_config c = Ok b ∧
    b = match validate_body c with Ok b' => b' | Raise _ => false end.
Proof.
  exists (accepts c). split; [apply validate_config_accepts|].
  pose proof (validate_config_accepts c) as Ha. revert Ha.
  unfold validate_config.
  destruct (validate_body c) as [b|e]; simpl; [congruence|].
  destruct (is_Exception e); congruence.
Qed.

(** C10: [validate_config] reads none of [topology_type],
    [cache_placement_strategy], the experiment [name] and [description],
    [metrics_output_dir], and the four [mu]/[sigma] parameters: replacing
    them by any values leaves its answer unchanged, so a configuration that
    satisfies the numeric and sequence invariants is accepted whatever they
    hold. *)
Theorem validate_ignores_uninspected c (u : uninspected) :
  validate_config (set_uninspected u c) = validate_config c
  ∧ (spec_valid c = true → validate_config (set_uninspected u c) = Ok true).
Proof.
  split; [reflexivity|].
  intros Hs. change (validate_config c = Ok true).
  by rewrite validate_config_accepts, spec_valid_accepts.
Qed.

End ValidatorClaims.

(** C8: the default configuration has [num_devices = 8],
    [min_bandwidth = 1.0] and [max_bandwidth = 10.0] and is accepted by
    [validate_config]; with [max_bandwidth] changed to [0.5] it is
    rejected. *)
Theorem default_config_validates `{EnumRegistry E} :
  let c : SimulationConfig E := create_default_config in
  NetworkConfig.num_devices (network c) = PInt 8
  ∧ NetworkConfig.min_bandwidth (network c) = PFloat (F_fin false 1 0)
  ∧ NetworkConfig.max_bandwidth (network c) = PFloat (F_fin false 10 0)
  ∧ validate_config c = Ok true
  ∧ validate_config (set_max_bandwidth (PFloat (F_fin false 1 (-1))) c)
    = Ok false.
Proof.
  split_and!; try reflexivity.
Qed.

(** ** The dictionary codec and the merge *)

Lemma bind_Ok {A B} (m : result A) (f : A → result B) b :
  m ≫= f = Ok b → ∃ a, m = Ok a ∧ f a = Ok b.
Proof. destruct m as [a|e]; [eauto|done]. Qed.

Lemma kwargs_Ok params v d :
  kwargs params v = Ok d → v = PDict d ∧ dom d ⊆ list_to_set params.
Proof.
  unfold kwargs. destruct v; try done. case_decide; naive_solver.
Qed.

Lemma kwargs_Raise params v e : kwargs params v = Raise e → e = TypeError.
Proof. unfold kwargs. destruct v; try case_decide; naive_solver. Qed.

Lemma required_Ok d k x : required d k = Ok x → d !! k = Some x.
Proof. unfold required. destruct (d !! k); naive_solver. Qed.

Lemma required_Raise d k e : required d k = Raise e → e = TypeError.
Proof. unfold required. destruct (d !! k); naive_solver. Qed.

Lemma merge_value_leaf old v : is_dict v = false → merge_value old v = v.
Proof. destruct v; [..|done]; by destruct old as [[]|]. Qed.

Lemma merge_value_not_dict old v :
  (∀ d, old ≠ Some (PDict d)) → merge_value old v = v.
Proof. destruct old as [[]|], v; naive_solver. Qed.

Lemma merge_value_dicts d1 d2 :
  merge_value (Some (PDict d1)) (PDict d2) = PDict (update_dict d1 d2).
Proof. reflexivity. Qed.

(** After the loop, a key of the override holds the merged value and every
    other key holds what it held. *)
Lemma update_dict_lookup d1 d2 k :
  update_dict d1 d2 !! k =
  match d2 !! k with
  | Some v => Some (merge_value (d1 !! k) v)
  | None => d1 !! k
  end.
Proof.
  unfold update_dict.
  apply (map_fold_weak_ind (λ r m, r !! k =
    match m !! k with
    | Some v => Some (merge_value (d1 !! k) v)
    | None => d1 !! k
    end)); [done|].
  intros i x m r Hi IH.
  destruct (decide (i = k)) as [->|Hne].
  - rewrite !lookup_insert_eq. by rewrite IH, Hi.
  - by rewrite !lookup_insert_ne.
Qed.

Lemma update_dict_empty d : update_dict d ∅ = d.
Proof. apply map_fold_empty. Qed.

(** Fields the override does not supply keep their value. *)
Lemma update_dict_frame d1 o s f :
  o !! s = None ∨ (∃ d, o !! s = Some (PDict d) ∧ d !! f = None) →
  tree_get (update_dict d1 o) s f = tree_get d1 s f.
Proof.
  unfold tree_get. rewrite update_dict_lookup.
  intros [->|(d & -> & Hf)]; [done|].
  destruct (d1 !! s) as [[| | | | | |b]|]; simpl; try done.
  by rewrite update_dict_lookup, Hf.
Qed.

(** A field the override supplies holds the merge of the old value and the
    supplied one: the supplied one itself unless both are mappings. *)
Lemma update_dict_supplied d1 o s d b f v :
  o !! s = Some (PDict d) → d1 !! s = Some (PDict b) → d !! f = Some v →
  tree_get (update_dict d1 o) s f = Some (merge_value (b !! f) v).
Proof.
  intros Ho H1 Hf. unfold tree_get.
  rewrite update_dict_lookup, Ho, H1, merge_value_dicts.
  by rewrite update_dict_lookup, Hf.
Qed.

Section CodecFacts.
Context {E : Type} `{!EnumRegistry E}.
Implicit Types c base : SimulationConfig E.

(** Runs the codec on a tree whose keys are known, keeping the registry
    abstract. *)
Ltac run_codec :=
  unfold merge_configs, from_dict, to_dict, enum_getitem;
  pose proof (lookup_member_name (E:=E)) as Hreg; revert Hreg;
  generalize (@member_lookup E _); generalize (@member_name E _);
  intros nm lk Hreg; vm_compute; rewrite ?Hreg; try reflexivity.

Lemma from_dict_to_dict c : from_dict (PDict (to_dict c)) = Ok c.
Proof. destruct c as [[] [] [] [] []]. run_codec. Qed.

Lemma to_dict_sections c s :
  s ∈ ["network"; "resources"; "workload"; "algorithm"; "experiment"] →
  ∃ b, to_dict c !! s = Some (PDict b).
Proof.
  intros Hs.
  repeat (apply elem_of_cons in Hs as [->|Hs]; [by eexists|]).
  by apply elem_of_nil in Hs.
Qed.

Lemma merge_configs_empty base : merge_configs base ∅ = Ok base.
Proof.
  unfold merge_configs. rewrite update_dict_empty. apply from_dict_to_dict.
Qed.

Lemma merge_configs_network_field base (v : pyval) :
  is_dict v = false →
  merge_configs base {["network" := PDict {["num_devices" := v]}]}
  = Ok (set_num_devices v base).
Proof.
  intros Hv. unfold merge_configs, update_dict. rewrite map_fold_singleton.
  replace (to_dict base !! "network") with (Some (PDict (list_to_map [
       ("topology_type", NetworkConfig.topology_type (network base));
       ("num_devices", NetworkConfig.num_devices (network base));
       ("min_bandwidth", NetworkConfig.min_bandwidth (network base));
       ("max_bandwidth", NetworkConfig.max_bandwidth (network base));
       ("edge_probability", NetworkConfig.edge_probability (network base));
       ("seed", NetworkConfig.seed (network base))])))
    by reflexivity.
  rewrite merge_value_dicts. unfold update_dict.
  rewrite map_fold_singleton, (merge_value_leaf _ v Hv).
  destruct base as [[] [] [] [] []]. unfold set_num_devices. simpl.
  generalize v. intros w. run_codec.
Qed.

Lemma merge_configs_sequence base (l : list pyval) :
  merge_configs base
    {["workload" := PDict {["initial_sequence_lengths" := PList l]}]}
  = Ok (set_initial_sequence_lengths (PList l) base).
Proof.
  unfold merge_configs, update_dict. rewrite map_fold_singleton.
  replace (to_dict base !! "workload") with (Some (PDict (list_to_map [
       ("model_type",
        PStr (member_name (WorkloadConfig.model_type (workload base))));
       ("initial_sequence_lengths",
        WorkloadConfig.initial_sequence_lengths (workload base));
       ("generation_steps", WorkloadConfig.generation_steps (workload base));
       ("precision_bytes", WorkloadConfig.precision_bytes (workload base));
       ("seed", WorkloadConfig.seed (workload base))])))
    by reflexivity.
  rewrite merge_value_dicts. unfold update_dict.
  rewrite map_fold_singleton, (merge_value_leaf _ (PList l)) by done.
  destruct base as [[] [] [] [] []]. unfold set_initial_sequence_lengths.
  simpl. generalize (PList l). intros w. run_codec.
Qed.

End CodecFacts.

(** ** What makes decoding fail *)

Lemma py_getitem_Ok t k v :
  py_getitem t k = Ok v → ∃ d, t = PDict d ∧ d !! k = Some v.
Proof.
  destruct t as [| | | | | |d]; try done. simpl.
  destruct (d !! k) eqn:Hk; naive_solver.
Qed.

Lemma py_getitem_Raise t k e :
  py_getitem t k = Raise e → e = TypeError ∨ ∃ x, e = KeyError x.
Proof.
  destruct t as [| | | | | |d]; simpl; try naive_solver.
  destruct (d !! k); naive_solver.
Qed.

Ltac inv_init H :=
  repeat (apply bind_Ok in H as (? & ? & H));
  repeat match goal with
  | H : kwargs _ _ = Ok _ |- _ => apply kwargs_Ok in H as [-> ?]
  | H : required _ _ = Ok _ |- _ => apply required_Ok in H
  end;
  eexists; split; [done|]; split; [done|];
  intros f Hf; repeat (apply elem_of_cons in Hf as [->|Hf]; [by eauto|]);
  by apply elem_of_nil in Hf.

Ltac raise_init :=
  repeat match goal with
  | |- context [kwargs ?p ?v] => destruct (kwargs p v) eqn:?; simpl
  | |- context [required ?d ?k] => destruct (required d k) eqn:?; simpl
  end;
  intros; simplify_eq; eauto using kwargs_Raise, required_Raise.

Lemma NetworkConfig_init_Ok v x :
  NetworkConfig_init v = Ok x →
  section_shape
    ["topology_type"; "num_devices"; "min_bandwidth"; "max_bandwidth";
     "edge_probability"; "seed"]
    ["topology_type"; "num_devices"; "min_bandwidth"; "max_bandwidth"] v.
Proof. unfold NetworkConfig_init. intros H. inv_init H. Qed.

Lemma NetworkConfig_init_Raise v e :
  NetworkConfig_init v = Raise e → e = TypeError.
Proof. unfold NetworkConfig_init. raise_init. Qed.

Lemma ResourceConfig_init_Ok v x :
  ResourceConfig_init v = Ok x →
  section_shape
    ["memory_mu"; "memory_sigma"; "memory_min"; "memory_max"; "compute_mu";
     "compute_sigma"; "compute_min"; "compute_max"; "seed"]
    ["memory_mu"; "memory_sigma"; "memory_min"; "memory_max"; "compute_mu";
     "compute_sigma"; "compute_min"; "compute_max"] v.
Proof. unfold ResourceConfig_init. intros H. inv_init H. Qed.

Lemma ResourceConfig_init_Raise v e :
  ResourceConfig_init v = Raise e → e = TypeError.
Proof. unfold ResourceConfig_init. raise_init. Qed.

Lemma WorkloadConfig_init_Ok {E} (m : E) v x :
  WorkloadConfig_init m v = Ok x →
  section_shape
    ["initial_sequence_lengths"; "generation_steps"; "precision_bytes"; "seed"]
    ["initial_sequence_lengths"; "generation_steps"] v.
Proof. unfold WorkloadConfig_init. intros H. inv_init H. Qed.

Lemma WorkloadConfig_init_Raise {E} (m : E) v e :
  WorkloadConfig_init m v = Raise e → e = TypeError.
Proof. unfold WorkloadConfig_init. raise_init. Qed.

Lemma AlgorithmConfig_init_Ok v x :
  AlgorithmConfig_init v = Ok x →
  section_shape
    ["migration_threshold"; "backtrack_limit"; "cache_placement_strategy";
     "enable_dynamic_adjustment"] [] v.
Proof. unfold AlgorithmConfig_init. intros H. inv_init H. Qed.

Lemma AlgorithmConfig_init_Raise v e :
  AlgorithmConfig_init v = Raise e → e = TypeError.
Proof. unfold AlgorithmConfig_init. raise_init. Qed.

Lemma ExperimentConfig_init_Ok v x :
  ExperimentConfig_init v = Ok x →
  section_shape
    ["name"; "description"; "num_runs"; "checkpoint_interval"; "time_limit";
     "metrics_output_dir"; "save_intermediate"]
    ["name"; "description"] v.
Proof. unfold ExperimentConfig_init. intros H. inv_init H. Qed.

Lemma ExperimentConfig_init_Raise v e :
  ExperimentConfig_init v = Raise e → e = TypeError.
Proof. unfold ExperimentConfig_init. raise_init. Qed.

Lemma enum_getitem_Ok `{EnumRegistry E} v (m : E) :
  enum_getitem v = Ok m → ∃ s, v = PStr s ∧ member_lookup s = Some m.
Proof.
  destruct v; try done. simpl. destruct (member_lookup s) eqn:?; naive_solver.
Qed.

Lemma enum_getitem_Raise `{EnumRegistry E} v e :
  enum_getitem (E:=E) v = Raise e → e = TypeError ∨ ∃ x, e = KeyError x.
Proof.
  destruct v; simpl; try naive_solver. destruct (member_lookup s); naive_solver.
Qed.

Section DecodeFacts.
Context {E : Type} `{!EnumRegistry E}.
Implicit Types c : SimulationConfig E.

(** A tree that decodes has five well-shaped sections and a workload-model
    name that the registry knows. *)
Lemma from_dict_Ok_inv t c : from_dict t = Ok c → well_structured (E:=E) t.
Proof.
  unfold from_dict, well_structured. intros H.
  repeat (apply bind_Ok in H as (? & ? & H)).
  repeat match goal with
  | H : _ ≫= _ = Ok _ |- _ => apply bind_Ok in H as (? & ? & H)
  end.
  repeat match goal with
  | H : py_getitem _ _ = Ok _ |- _ =>
      apply py_getitem_Ok in H as (? & ? & H); simplify_eq
  end.
  match goal with
  | H : enum_getitem _ = Ok _ |- _ => apply enum_getitem_Ok in H as (? & -> & ?)
  end.
  match goal with
  | H : py_items _ = Ok _ |- _ => injection H as <-
  end.
  eexists. split; [done|]. split.
  - repeat apply Forall_cons_2; [..|apply Forall_nil_2];
      try by (eexists; split; [done|];
              eauto using NetworkConfig_init_Ok, ResourceConfig_init_Ok,
                AlgorithmConfig_init_Ok, ExperimentConfig_init_Ok).
    eexists. split; [done|].
    match goal with
    | H : WorkloadConfig_init _ _ = Ok _ |- _ =>
        apply WorkloadConfig_init_Ok in H as (d' & [= <-] & Hdom & Hreq)
    end.
    eexists. split; [done|]. split.
    + apply elem_of_subseteq. intros k Hk.
      destruct (decide (k = "model_type")) as [->|Hne]; [set_solver|].
      apply elem_of_subseteq in Hdom. specialize (Hdom k).
      rewrite dom_delete_L in Hdom. set_solver.
    + intros f Hf. apply elem_of_cons in Hf as [->|Hf]; [by eauto|].
      destruct (Hreq f Hf) as [y Hy]. apply lookup_delete_Some in Hy as [_ ?].
      by eauto.
  - by eauto 10.
Qed.

Lemma kwargs_shape params d :
  dom d ⊆ list_to_set params → kwargs params (PDict d) = Ok d.
Proof. intros Hd. unfold kwargs. by rewrite decide_True. Qed.

Local Ltac take_required Hreq :=
  repeat match goal with
  | |- context [required ?d ?k] =>
      let H := fresh in
      destruct (Hreq k) as [? H];
        [by repeat first [apply list_elem_of_here|apply list_elem_of_further]|];
      unfold required at 1; rewrite H; simpl
  end.

Local Ltac accept_shape :=
  intros (d & -> & Hdom & Hreq); rewrite kwargs_shape by done; simpl;
  take_required Hreq; eauto.

Lemma NetworkConfig_init_shape v :
  section_shape
    ["topology_type"; "num_devices"; "min_bandwidth"; "max_bandwidth";
     "edge_probability"; "seed"]
    ["topology_type"; "num_devices"; "min_bandwidth"; "max_bandwidth"] v →
  ∃ x, NetworkConfig_init v = Ok x.
Proof. unfold NetworkConfig_init. accept_shape. Qed.

Lemma ResourceConfig_init_shape v :
  section_shape
    ["memory_mu"; "memory_sigma"; "memory_min"; "memory_max"; "compute_mu";
     "compute_sigma"; "compute_min"; "compute_max"; "seed"]
    ["memory_mu"; "memory_sigma"; "memory_min"; "memory_max"; "compute_mu";
     "compute_sigma"; "compute_min"; "compute_max"] v →
  ∃ x, ResourceConfig_init v = Ok x.
Proof. unfold ResourceConfig_init. accept_shape. Qed.

Lemma WorkloadConfig_init_shape (m : E) v :
  section_shape
    ["initial_sequence_lengths"; "generation_steps"; "precision_bytes"; "seed"]
    ["initial_sequence_lengths"; "generation_steps"] v →
  ∃ x, WorkloadConfig_init m v = Ok x.
Proof. unfold WorkloadConfig_init. accept_shape. Qed.

Lemma AlgorithmConfig_init_shape v :
  section_shape
    ["migration_threshold"; "backtrack_limit"; "cache_placement_strategy";
     "enable_dynamic_adjustment"] [] v →
  ∃ x, AlgorithmConfig_init v = Ok x.
Proof. unfold AlgorithmConfig_init. accept_shape. Qed.

Lemma ExperimentConfig_init_shape v :
  section_shape
    ["name"; "description"; "num_runs"; "checkpoint_interval"; "time_limit";
     "metrics_output_dir"; "save_intermediate"]
    ["name"; "description"] v →
  ∃ x, ExperimentConfig_init v = Ok x.
Proof. unfold ExperimentConfig_init. accept_shape. Qed.

(** The workload mapping without [model_type] has the shape that the
    remaining parameters of [WorkloadConfig] ask for. *)
Lemma workload_rest_shape (w : gmap string pyval) :
  section_shape
    ["model_type"; "initial_sequence_lengths"; "generation_steps";
     "precision_bytes"; "seed"]
    ["model_type"; "initial_sequence_lengths"; "generation_steps"]
    (PDict w) →
  section_shape
    ["initial_sequence_lengths"; "generation_steps"; "precision_bytes"; "seed"]
    ["initial_sequence_lengths"; "generation_steps"]
    (PDict (delete "model_type" w)).
Proof.
  intros (d & [= <-] & Hdom & Hreq). eexists. split; [done|]. split.
  - apply elem_of_subseteq. intros k Hk.
    rewrite dom_delete_L in Hk. apply elem_of_difference in Hk as [Hk Hne].
    apply Hdom in Hk. rewrite elem_of_list_to_set in Hk |- *.
    apply elem_of_cons in Hk as [->|Hk]; [|done].
    by destruct Hne; apply elem_of_singleton.
  - intros f Hf. destruct (Hreq f) as [x Hx];
      [by apply list_elem_of_further|].
    exists x. apply lookup_delete_Some. split; [|done].
    intros <-. repeat (apply elem_of_cons in Hf as [Hf|Hf]; [done|]).
    by apply elem_of_nil in Hf.
Qed.

(** A well-structured tree decodes. *)
Lemma from_dict_Ok_intro t :
  well_structured (E:=E) t → ∃ c, from_dict (E:=E) t = Ok c.
Proof.
  intros (d & -> & Hall & w & name & m & Hw & Hname & Hm).
  repeat (apply Forall_cons_1 in Hall as [(? & ? & ?) Hall]).
  unfold from_dict. simpl.
  repeat match goal with H : d !! _ = Some _ |- _ => rewrite H; simpl end.
  destruct (NetworkConfig_init_shape _ ltac:(eassumption)) as [? ->].
  destruct (ResourceConfig_init_shape _ ltac:(eassumption)) as [? ->].
  destruct (AlgorithmConfig_init_shape _ ltac:(eassumption)) as [? ->].
  destruct (ExperimentConfig_init_shape _ ltac:(eassumption)) as [? ->].
  simpl. rewrite Hw in *. simplify_eq. rewrite Hname. simpl. rewrite Hm. simpl.
  destruct (WorkloadConfig_init_shape m (PDict (delete "model_type" w)))
    as [? ->]; [by apply workload_rest_shape|].
  simpl. eauto.
Qed.

End DecodeFacts.

Section DecodeErrors.
Context {E : Type} `{!EnumRegistry E}.
Implicit Types c : SimulationConfig E.

Local Ltac fails :=
  intros [= <-];
  first
    [ by left;
        eauto using NetworkConfig_init_Raise, ResourceConfig_init_Raise,
          WorkloadConfig_init_Raise, AlgorithmConfig_init_Raise,
          ExperimentConfig_init_Raise
    | by eauto using py_getitem_Raise, enum_getitem_Raise ].

(** Decoding raises nothing but [TypeError] and [KeyError]. *)
Lemma from_dict_Raise t e :
  from_dict (E:=E) t = Raise e → e = TypeError ∨ ∃ k, e = KeyError k.
Proof.
  unfold from_dict.
  destruct (py_getitem t "network") as [vn|] eqn:Hn; simpl;
    [|fails].
  destruct (NetworkConfig_init vn) eqn:?; simpl;
    [|fails].
  destruct (py_getitem t "resources") as [vr|] eqn:Hr; simpl;
    [|fails].
  destruct (ResourceConfig_init vr) eqn:?; simpl;
    [|fails].
  destruct (py_getitem t "workload") as [vw|] eqn:Hw; simpl;
    [|fails].
  destruct (py_getitem vw "model_type") as [vm|] eqn:Hm; simpl;
    [|fails].
  destruct (enum_getitem vm) as [m|] eqn:?; simpl;
    [|fails].
  apply py_getitem_Ok in Hm as (dw & -> & Hm). simpl.
  destruct (WorkloadConfig_init m _) eqn:?; simpl;
    [|fails].
  destruct (py_getitem t "algorithm") as [va|] eqn:Ha; simpl;
    [|fails].
  destruct (AlgorithmConfig_init va) eqn:?; simpl;
    [|fails].
  destruct (py_getitem t "experiment") as [ve|] eqn:He; simpl;
    [|fails].
  destruct (ExperimentConfig_init ve) eqn:?; simpl;
    [done|fails].
Qed.

(** A mapping under ["network"] that lacks a required key or has a key that
    is no parameter ends the decoding with [TypeError], whatever the other
    sections hold. *)
Lemma from_dict_network_defect (t d : gmap string pyval) f :
  t !! "network" = Some (PDict d) →
  (f ∈ ["topology_type"; "num_devices"; "min_bandwidth"; "max_bandwidth"]
   ∧ d !! f = None)
  ∨ (is_Some (d !! f)
     ∧ f ∉ ["topology_type"; "num_devices"; "min_bandwidth"; "max_bandwidth";
            "edge_probability"; "seed"]) →
  from_dict (E:=E) (PDict t) = Raise TypeError.
Proof.
  intros Ht Hf. unfold from_dict. simpl. rewrite Ht. simpl.
  destruct (NetworkConfig_init (PDict d)) as [x|e] eqn:Hx; simpl.
  - apply NetworkConfig_init_Ok in Hx as (d' & [= <-] & Hdom & Hreq).
    destruct Hf as [[Hf Hnone]|[Hsome Hf]].
    + apply Hreq in Hf as [? ?]. congruence.
    + apply elem_of_dom, Hdom in Hsome. set_solver.
  - by apply NetworkConfig_init_Raise in Hx as ->.
Qed.

(** With the first two sections in order, a workload-model name that the
    registry does not know ends the decoding with [KeyError] on that name. *)
Lemma from_dict_unknown_member (t w : gmap string pyval) name dn dr n r :
  t !! "network" = Some dn → NetworkConfig_init dn = Ok n →
  t !! "resources" = Some dr → ResourceConfig_init dr = Ok r →
  t !! "workload" = Some (PDict w) →
  w !! "model_type" = Some (PStr name) →
  member_lookup (E:=E) name = None →
  from_dict (E:=E) (PDict t) = Raise (KeyError (PStr name)).
Proof.
  intros Hn Hn' Hr Hr' Hw Hm Hl. unfold from_dict. simpl.
  rewrite Hn. simpl. rewrite Hn'. simpl. rewrite Hr. simpl. rewrite Hr'. simpl.
  rewrite Hw. simpl. rewrite Hm. simpl. by rewrite Hl.
Qed.

(** Without [model_type] in the workload mapping the subscript raises
    [KeyError] before the registry is asked. *)
Lemma from_dict_missing_model_type (t w : gmap string pyval) dn dr n r :
  t !! "network" = Some dn → NetworkConfig_init dn = Ok n →
  t !! "resources" = Some dr → ResourceConfig_init dr = Ok r →
  t !! "workload" = Some (PDict w) →
  w !! "model_type" = None →
  from_dict (E:=E) (PDict t) = Raise (KeyError (PStr "model_type")).
Proof.
  intros Hn Hn' Hr Hr' Hw Hm. unfold from_dict. simpl.
  rewrite Hn. simpl. rewrite Hn'. simpl. rewrite Hr. simpl. rewrite Hr'. simpl.
  rewrite Hw. simpl. by rewrite Hm.
Qed.


(** A defective mapping has not the shape of its section. *)
Lemma defective_no_shape all req (d : gmap string pyval) :
  defective all req d → ¬ section_shape all req (PDict d).
Proof.
  intros Hdef (d' & [= <-] & Hdom & Hreq).
  destruct Hdef as [(f & Hf & Hnone)|(f & Hsome & Hf)].
  - destruct (Hreq f Hf) as [x Hx]. congruence.
  - apply elem_of_dom, Hdom, elem_of_list_to_set in Hsome. done.
Qed.

Lemma NetworkConfig_init_defective (d : gmap string pyval) :
  defective
    ["topology_type"; "num_devices"; "min_bandwidth"; "max_bandwidth";
     "edge_probability"; "seed"]
    ["topology_type"; "num_devices"; "min_bandwidth"; "max_bandwidth"] d →
  NetworkConfig_init (PDict d) = Raise TypeError.
Proof.
  intros Hdef. destruct (NetworkConfig_init (PDict d)) as [x|e] eqn:Hi.
  - by apply NetworkConfig_init_Ok, defective_no_shape in Hi.
  - by apply NetworkConfig_init_Raise in Hi as ->.
Qed.

Lemma ResourceConfig_init_defective (d : gmap string pyval) :
  defective
    ["memory_mu"; "memory_sigma"; "memory_min"; "memory_max"; "compute_mu";
     "compute_sigma"; "compute_min"; "compute_max"; "seed"]
    ["memory_mu"; "memory_sigma"; "memory_min"; "memory_max"; "compute_mu";
     "compute_sigma"; "compute_min"; "compute_max"] d →
  ResourceConfig_init (PDict d) = Raise TypeError.
Proof.
  intros Hdef. destruct (ResourceConfig_init (PDict d)) as [x|e] eqn:Hi.
  - by apply ResourceConfig_init_Ok, defective_no_shape in Hi.
  - by apply ResourceConfig_init_Raise in Hi as ->.
Qed.

Lemma AlgorithmConfig_init_defective (d : gmap string pyval) :
  defective
    ["migration_threshold"; "backtrack_limit"; "cache_placement_strategy";
     "enable_dynamic_adjustment"] [] d →
  AlgorithmConfig_init (PDict d) = Raise TypeError.
Proof.
  intros Hdef. destruct (AlgorithmConfig_init (PDict d)) as [x|e] eqn:Hi.
  - by apply AlgorithmConfig_init_Ok, defective_no_shape in Hi.
  - by apply AlgorithmConfig_init_Raise in Hi as ->.
Qed.

Lemma ExperimentConfig_init_defective (d : gmap string pyval) :
  defective
    ["name"; "description"; "num_runs"; "checkpoint_interval"; "time_limit";
     "metrics_output_dir"; "save_intermediate"]
    ["name"; "description"] d →
  ExperimentConfig_init (PDict d) = Raise TypeError.
Proof.
  intros Hdef. destruct (ExperimentConfig_init (PDict d)) as [x|e] eqn:Hi.
  - by apply ExperimentConfig_init_Ok, defective_no_shape in Hi.
  - by apply ExperimentConfig_init_Raise in Hi as ->.
Qed.

(** With the model name taken out, a defective workload mapping that holds
    [model_type] is still defective for the remaining parameters. *)
Lemma WorkloadConfig_init_defective (m : E) (d : gmap string pyval) :
  is_Some (d !! "model_type") →
  defective
    ["model_type"; "initial_sequence_lengths"; "generation_steps";
     "precision_bytes"; "seed"]
    ["model_type"; "initial_sequence_lengths"; "generation_steps"] d →
  WorkloadConfig_init m (PDict (delete "model_type" d)) = Raise TypeError.
Proof.
  intros [vm Hm] Hdef.
  destruct (WorkloadConfig_init m _) as [x|e] eqn:Hi.
  - apply WorkloadConfig_init_Ok in Hi as (d' & [= <-] & Hdom & Hreq).
    exfalso. destruct Hdef as [(f & Hf & Hnone)|(f & Hsome & Hf)].
    + apply elem_of_cons in Hf as [->|Hf]; [congruence|].
      destruct (Hreq f Hf) as [x' Hx'].
      apply lookup_delete_Some in Hx' as [_ Hx']. congruence.
    + assert (f ≠ "model_type") as Hne.
      { intros ->. apply Hf, list_elem_of_here. }
      assert (f ∈ dom (delete "model_type" d)) as Hin.
      { apply elem_of_dom. destruct Hsome as [x' Hx']. exists x'.
        by apply lookup_delete_Some. }
      apply Hdom, elem_of_list_to_set in Hin.
      apply Hf. by apply list_elem_of_further.
  - by apply WorkloadConfig_init_Raise in Hi as ->.
Qed.

(** The workload section of a tree, when it is in order, is decoded. *)
Lemma workload_in_order (t : gmap string pyval) :
  section_in_order (E:=E) t "workload"
    ["model_type"; "initial_sequence_lengths"; "generation_steps";
     "precision_bytes"; "seed"]
    ["model_type"; "initial_sequence_lengths"; "generation_steps"] →
  ∃ w name m x,
    t !! "workload" = Some (PDict w)
    ∧ w !! "model_type" = Some (PStr name)
    ∧ member_lookup name = Some m
    ∧ WorkloadConfig_init m (PDict (delete "model_type" w)) = Ok x.
Proof.
  intros [(v & Hv & Hshape) Hmember].
  destruct (Hmember eq_refl) as (w & name & m & Hw & Hname & Hm).
  rewrite Hw in Hv. injection Hv as <-.
  destruct (WorkloadConfig_init_shape m (PDict (delete "model_type" w)))
    as [x Hx]; [by apply workload_rest_shape|].
  by exists w, name, m, x.
Qed.

(** The first defective section decides: with the sections before it in
    order, a section that lacks a required field or holds a field that is
    no parameter makes the decoding raise [TypeError]. *)
Lemma from_dict_first_defect (t d : gmap string pyval) i s all req :
  schema !! i = Some (s, (all, req)) →
  Forall (λ '(s', (all', req')), section_in_order (E:=E) t s' all' req')
    (take i schema) →
  t !! s = Some (PDict d) →
  defective all req d →
  (s = "workload" →
   ∃ name (m : E), d !! "model_type" = Some (PStr name)
     ∧ member_lookup name = Some m) →
  from_dict (E:=E) (PDict t) = Raise TypeError.
Proof.
  intros Hi Hbefore Ht Hdef Hmodel.
  destruct i as [|[|[|[|[|i]]]]]; simpl in Hi; [..|done];
    injection Hi as <- <- <-; cbn [take schema] in Hbefore;
    repeat match goal with
    | H : Forall _ (_ :: _) |- _ => apply Forall_cons_1 in H as [? H]
    end;
    repeat match goal with
    | H : section_in_order _ "network" _ _ |- _ =>
        destruct H as [(vn & Hvn & [xn Hxn]%NetworkConfig_init_shape) _]
    | H : section_in_order _ "resources" _ _ |- _ =>
        destruct H as [(vr & Hvr & [xr Hxr]%ResourceConfig_init_shape) _]
    | H : section_in_order _ "workload" _ _ |- _ =>
        apply workload_in_order in H
          as (w & name & m & xw & Hvw & Hname & Hm & Hxw)
    | H : section_in_order _ "algorithm" _ _ |- _ =>
        destruct H as [(va & Hva & [xa Hxa]%AlgorithmConfig_init_shape) _]
    end;
    unfold from_dict; simpl.
  - rewrite Ht. simpl. by rewrite NetworkConfig_init_defective.
  - rewrite Hvn. simpl. rewrite Hxn. simpl. rewrite Ht. simpl.
    by rewrite ResourceConfig_init_defective.
  - rewrite Hvn. simpl. rewrite Hxn. simpl. rewrite Hvr. simpl.
    rewrite Hxr. simpl. rewrite Ht. simpl.
    destruct (Hmodel eq_refl) as (name & m & Hname & Hm).
    rewrite Hname. simpl. rewrite Hm. simpl.
    rewrite WorkloadConfig_init_defective; [done|by eexists|done].
  - rewrite Hvn. simpl. rewrite Hxn. simpl. rewrite Hvr. simpl.
    rewrite Hxr. simpl. rewrite Hvw. simpl. rewrite Hname. simpl.
    rewrite Hm. simpl. rewrite Hxw. simpl. rewrite Ht. simpl.
    by rewrite AlgorithmConfig_init_defective.
  - rewrite Hvn. simpl. rewrite Hxn. simpl. rewrite Hvr. simpl.
    rewrite Hxr. simpl. rewrite Hvw. simpl. rewrite Hname. simpl.
    rewrite Hm. simpl. rewrite Hxw. simpl. rewrite Hva. simpl.
    rewrite Hxa. simpl. rewrite Ht. simpl.
    by rewrite ExperimentConfig_init_defective.
Qed.

(** C4, as amended: decoding fails whenever a section's sub-mapping lacks a
    required field or holds a field that is no parameter, and whenever the
    workload-model name is not a member of the registry.  The failure is a
    [TypeError] or a [KeyError], decided by the first defective section in
    the order network, resources, workload, algorithm, experiment: a
    defective network section gives [TypeError], and with network and
    resources in order an unknown member name gives [KeyError] on that name
    and an absent [model_type] gives [KeyError] on ["model_type"].  Nothing
    else makes it fail: a tree decodes if and only if it is well structured.
    The values of the leaves are not examined, neither their types nor their
    ranges: every encoded configuration decodes, whatever its fields hold.
    For each of the five sections, when the sections before it are in order
    and its sub-mapping lacks a required field or holds a field that is no
    parameter, the error is [TypeError]; for the workload section this is
    so once its model name is a member of the registry. *)
Theorem from_dict_fails_on_structure_only :
  (∀ (t d : gmap string pyval) s all req f,
     (s, (all, req)) ∈ schema → t !! s = Some (PDict d) →
     (f ∈ req ∧ d !! f = None) ∨ (is_Some (d !! f) ∧ f ∉ all) →
     ∃ e, from_dict (E:=E) (PDict t) = Raise e)
  ∧ (∀ (t w : gmap string pyval) name,
       t !! "workload" = Some (PDict w) →
       w !! "model_type" = Some (PStr name) →
       member_lookup (E:=E) name = None →
       ∃ e, from_dict (E:=E) (PDict t) = Raise e)
  ∧ (∀ t e, from_dict (E:=E) t = Raise e →
       e = TypeError ∨ ∃ k, e = KeyError k)
  ∧ (∀ (t d : gmap string pyval) f,
       t !! "network" = Some (PDict d) →
       (f ∈ ["topology_type"; "num_devices"; "min_bandwidth";
             "max_bandwidth"] ∧ d !! f = None)
       ∨ (is_Some (d !! f)
          ∧ f ∉ ["topology_type"; "num_devices"; "min_bandwidth";
                 "max_bandwidth"; "edge_probability"; "seed"]) →
       from_dict (E:=E) (PDict t) = Raise TypeError)
  ∧ (∀ (t w : gmap string pyval) name dn dr n r,
       t !! "network" = Some dn → NetworkConfig_init dn = Ok n →
       t !! "resources" = Some dr → ResourceConfig_init dr = Ok r →
       t !! "workload" = Some (PDict w) →
       w !! "model_type" = Some (PStr name) →
       member_lookup (E:=E) name = None →
       from_dict (E:=E) (PDict t) = Raise (KeyError (PStr name)))
  ∧ (∀ (t w : gmap string pyval) dn dr n r,
       t !! "network" = Some dn → NetworkConfig_init dn = Ok n →
       t !! "resources" = Some dr → ResourceConfig_init dr = Ok r →
       t !! "workload" = Some (PDict w) →
       w !! "model_type" = None →
       from_dict (E:=E) (PDict t) = Raise (KeyError (PStr "model_type")))
  ∧ (∀ t, (∃ c, from_dict (E:=E) t = Ok c) ↔ well_structured (E:=E) t)
  ∧ (∀ c, from_dict (PDict (to_dict c)) = Ok c)
  ∧ (∀ (t d : gmap string pyval) i s all req,
       schema !! i = Some (s, (all, req)) →
       Forall (λ '(s', (all', req')), section_in_order (E:=E) t s' all' req')
         (take i schema) →
       t !! s = Some (PDict d) →
       defective all req d →
       (s = "workload" →
        ∃ name (m : E), d !! "model_type" = Some (PStr name)
          ∧ member_lookup name = Some m) →
       from_dict (E:=E) (PDict t) = Raise TypeError).
Proof.
  split_and!.
  - intros t d s all req f Hs Ht Hf.
    destruct (from_dict (E:=E) (PDict t)) as [c|e] eqn:Hc; [|by eauto].
    apply from_dict_Ok_inv in Hc as (t' & [= <-] & Hall & _).
    rewrite Forall_forall in Hall. specialize (Hall _ Hs). simpl in Hall.
    destruct Hall as (v & Hv & d' & -> & Hdom & Hreq).
    rewrite Ht in Hv. injection Hv as <-.
    destruct Hf as [[Hf Hnone]|[Hsome Hf]].
    + apply Hreq in Hf as [? ?]. congruence.
    + apply elem_of_dom, Hdom in Hsome. set_solver.
  - intros t w name Hw Hm Hl.
    destruct (from_dict (E:=E) (PDict t)) as [c|e] eqn:Hc; [|by eauto].
    apply from_dict_Ok_inv in Hc
      as (t' & [= <-] & _ & w' & name' & m & Hw' & Hm' & Hl').
    congruence.
  - apply from_dict_Raise.
  - apply from_dict_network_defect.
  - apply from_dict_unknown_member.
  - apply from_dict_missing_model_type.
  - intros t. split; [intros [c Hc]; by eapply from_dict_Ok_inv|].
    apply from_dict_Ok_intro.
  - apply from_dict_to_dict.
  - apply from_dict_first_defect.
Qed.

(** C3: merging the empty override returns the base configuration; an
    override that supplies only [num_devices = 4] under [network] returns the
    base configuration with that one field changed; an override that
    supplies a list for [initial_sequence_lengths] returns the base
    configuration with that field holding exactly the new list; and in the
    merged tree every field that the override does not supply holds what the
    encoded base holds, and every field of a section for which it supplies
    a value that is not a mapping holds that value. *)
Theorem merge_changes_supplied_leaves_only (base : SimulationConfig E) :
  merge_configs base ∅ = Ok base
  ∧ merge_configs base {["network" := PDict {["num_devices" := PInt 4]}]}
    = Ok (set_num_devices (PInt 4) base)
  ∧ (∀ l, merge_configs base
            {["workload" := PDict {["initial_sequence_lengths" := PList l]}]}
          = Ok (set_initial_sequence_lengths (PList l) base))
  ∧ (∀ (o : gmap string pyval) s f,
       o !! s = None ∨ (∃ d, o !! s = Some (PDict d) ∧ d !! f = None) →
       tree_get (update_dict (to_dict base) o) s f
       = tree_get (to_dict base) s f)
  ∧ (∀ (o d : gmap string pyval) s f v,
       s ∈ ["network"; "resources"; "workload"; "algorithm"; "experiment"] →
       o !! s = Some (PDict d) → d !! f = Some v → is_dict v = false →
       tree_get (update_dict (to_dict base) o) s f = Some v).
Proof.
  split_and!.
  - apply merge_configs_empty.
  - by apply merge_configs_network_field.
  - apply merge_configs_sequence.
  - intros o s f. apply update_dict_frame.
  - intros o d s f v [b Hb]%(to_dict_sections base) Ho Hf Hv.
    rewrite (update_dict_supplied _ o s d b f v) by done.
    by rewrite merge_value_leaf.
Qed.

End DecodeErrors.

(** ** Paths *)

Lemma append_nil_l (t : string) : "" +:+ t = t.
Proof. reflexivity. Qed.

Lemma append_cons_l a (s t : string) : String a s +:+ t = String a (s +:+ t).
Proof. reflexivity. Qed.

Lemma rfind_from_app_dot i (stem ext : string) :
  0 ≤ i → (∀ j, rfind_from j "." ext = -1) →
  rfind_from i "." (stem +:+ String "." ext)
  = i + Z.of_nat (String.length stem).
Proof.
  intros Hi Hext. revert i Hi.
  induction stem as [|a stem IH]; intros i Hi;
    rewrite ?append_nil_l, ?append_cons_l; cbn [rfind_from String.length].
  - rewrite Hext. simpl. lia.
  - rewrite IH by lia.
    destruct (Z.leb_spec 0 (i + 1 + Z.of_nat (String.length stem))); lia.
Qed.

Lemma substring_app_r (stem t : string) n :
  String.substring (String.length stem) n (stem +:+ t) = String.substring 0 n t.
Proof.
  induction stem as [|a stem IH]; rewrite ?append_nil_l, ?append_cons_l;
    [done|apply IH].
Qed.

Lemma length_string_app (s t : string) :
  String.length (s +:+ t) = (String.length s + String.length t)%nat.
Proof.
  induction s as [|a s IH]; rewrite ?append_nil_l, ?append_cons_l; simpl;
    [done|by rewrite IH].
Qed.

(** The suffix of a name that ends in [.txt] is [.txt], or empty when the
    name is [.txt] itself. *)
Lemma suffix_txt p stem :
  path_name p = stem +:+ ".txt" → suffix p = ".txt" ∨ suffix p = "".
Proof.
  unfold suffix, rfind. intros ->.
  rewrite rfind_from_app_dot by done.
  rewrite length_string_app, Z.add_0_l, Nat2Z.id. simpl String.length.
  case_match; [|by right]. left.
  replace (String.length stem + 4 - String.length stem)%nat with 4%nat by lia.
  by rewrite substring_app_r.
Qed.

Lemma suffix_txt_unsupported p stem :
  path_name p = stem +:+ ".txt" →
  String.eqb (suffix p) ".yaml" = false ∧ String.eqb (suffix p) ".json" = false.
Proof. intros [-> | ->]%suffix_txt; done. Qed.

(** ** Files *)

Section FileFacts.
Context {text : Type} `{!Serializers text} {E : Type} `{!EnumRegistry E}.
Implicit Types (fs : FS text) (p : Path) (c : SimulationConfig E).

Lemma parent_take p : parent p = take (pred (length p)) p.
Proof. apply removelast_firstn_len. Qed.

Lemma elem_of_prefixes q p :
  q ∈ prefixes p ↔ ∃ n, (1 ≤ n ≤ length p)%nat ∧ q = take n p.
Proof.
  unfold prefixes. rewrite list_elem_of_fmap. setoid_rewrite elem_of_seq.
  split; intros (n & ? & ?); exists n; split; (done || lia).
Qed.

Lemma not_in_prefixes_parent p : p ≠ [] → p ∉ prefixes (parent p).
Proof.
  intros Hp (n & Hn & Hq)%elem_of_prefixes.
  apply (f_equal length) in Hq. rewrite length_take in Hq.
  rewrite parent_take, length_take in Hn, Hq.
  destruct p; simpl in *; [done|lia].
Qed.

Lemma parent_in_prefixes p : parent p ≠ [] → parent p ∈ prefixes (parent p).
Proof.
  intros Hp. apply elem_of_prefixes. exists (length (parent p)). split.
  - destruct (parent p); simpl; [done|lia].
  - by rewrite take_ge.
Qed.

Lemma is_dir_false fs p : is_dir fs p = false ↔ p ≠ [] ∧ p ∉ fs_dirs fs.
Proof.
  unfold is_dir. rewrite bool_decide_eq_false. tauto.
Qed.

(** What [save_config] does where nothing stands in the way: the parents are
    created and the file is opened, and only then is the suffix looked at. *)
Lemma save_config_run c p fs :
  writable fs p →
  save_config c p fs =
  if String.eqb (suffix p) ".yaml"
  then (Ok (), written fs p (yaml_safe_dump (PDict (to_dict c))))
  else if String.eqb (suffix p) ".json"
  then (Ok (), written fs p (json_dump (PDict (to_dict c))))
  else (Raise ValueError, written fs p empty_text).
Proof.
  intros [Hfind [Hnil Hdir]%is_dir_false].
  unfold save_config, mbind, io_bind, mkdir_parents. rewrite Hfind.
  unfold open_write.
  replace (is_dir _ p) with false; last first.
  { symmetry. apply is_dir_false. split; [done|]. simpl.
    rewrite elem_of_union, elem_of_list_to_set.
    intros [?|?]; [done|]. by apply (not_in_prefixes_parent p). }
  replace (is_dir _ (parent p)) with true; last first.
  { symmetry. unfold is_dir. apply bool_decide_eq_true. simpl.
    destruct (decide (parent p = [])) as [?|Hne]; [by left|right].
    rewrite elem_of_union, elem_of_list_to_set.
    right. by apply parent_in_prefixes. }
  simpl. unfold written, write, raise. simpl.
  repeat case_match; cbn [fs_files fs_dirs]; by rewrite ?insert_insert_eq.
Qed.

(** What [load_config] does on a regular file. *)
Lemma load_config_file p fs t :
  fs_files fs !! p = Some t →
  load_config (E:=E) p fs =
  ((if String.eqb (suffix p) ".yaml" then yaml_safe_load t ≫= from_dict
    else if String.eqb (suffix p) ".json" then json_load t ≫= from_dict
    else Raise ValueError), fs).
Proof.
  intros Ht.
  unfold load_config, mbind at 1, io_bind, path_exists, is_file.
  rewrite Ht, bool_decide_eq_true_2 by done. simpl.
  unfold mbind at 1, io_bind, open_read. rewrite Ht.
  unfold mbind at 1, io_bind, lift, raise.
  destruct (String.eqb (suffix p) ".yaml");
    [by destruct (yaml_safe_load t)|].
  destruct (String.eqb (suffix p) ".json"); [by destruct (json_load t)|done].
Qed.

(** The existence of the path is checked before anything else. *)
Lemma load_config_missing p fs :
  fs_files fs !! p = None → is_dir fs p = false →
  load_config (E:=E) p fs = (Raise FileNotFoundError, fs).
Proof.
  intros Ht Hd. unfold load_config, mbind, io_bind, path_exists, is_file.
  rewrite Ht, Hd, bool_decide_eq_false_2; [done|]. by intros [??].
Qed.

End FileFacts.

(** ** Equality after a round trip *)

Lemma pyval_size_lookup (d : gmap string pyval) k v :
  d !! k = Some v → (pyval_size v < pyval_size (PDict d))%nat.
Proof.
  intros Hk. simpl.
  rewrite (map_fold_delete_L _ _ k v d); [lia| |done].
  intros. lia.
Qed.

Lemma num_eq_self a : num_eq a a = match a with XNan => false | _ => true end.
Proof.
  destruct a as [|[]|m e]; try reflexivity.
  unfold num_eq, num_compare, dy_compare. by rewrite Z.compare_refl.
Qed.

Lemma fold_all_true {A} (g : string → A → bool) (m : gmap string A) :
  map_fold (λ k x acc, acc && g k x) true m = true
  ↔ ∀ k x, m !! k = Some x → g k x = true.
Proof.
  apply (map_fold_weak_ind (λ r m,
    r = true ↔ ∀ k x, m !! k = Some x → g k x = true)); clear m.
  - split; [|done]. intros _ k x. by rewrite lookup_empty.
  - intros i x m r Hi IH. rewrite andb_true_iff, IH. split.
    + intros [Hm Hx] k y. destruct (decide (k = i)) as [->|Hne].
      * rewrite lookup_insert_eq. by intros [= <-].
      * rewrite lookup_insert_ne by done. apply Hm.
    + intros Hall. split.
      * intros k y Hk. apply Hall. rewrite lookup_insert_ne; [done|].
        intros ->. congruence.
      * apply Hall. by rewrite lookup_insert_eq.
Qed.

Lemma fold_any_true {A} (h : A → bool) (m : gmap string A) :
  map_fold (λ _ x acc, h x || acc) false m = true
  ↔ ∃ k x, m !! k = Some x ∧ h x = true.
Proof.
  apply (map_fold_weak_ind (λ r m,
    r = true ↔ ∃ k x, m !! k = Some x ∧ h x = true)); clear m.
  - split; [done|]. intros (k & x & Hk & _). by rewrite lookup_empty in Hk.
  - intros i x m r Hi IH. rewrite orb_true_iff, IH. split.
    + intros [Hx|(k & y & Hk & Hy)].
      * exists i, x. by rewrite lookup_insert_eq.
      * exists k, y. rewrite lookup_insert_ne; [done|]. intros ->. congruence.
    + intros (k & y & Hk & Hy). destruct (decide (k = i)) as [->|Hne].
      * rewrite lookup_insert_eq in Hk. injection Hk as ->. by left.
      * rewrite lookup_insert_ne in Hk by done. right. by exists k, y.
Qed.

Lemma all2_self {A} (f : A → A → bool) (h : A → bool) (l : list A) :
  (∀ x, x ∈ l → f x x = negb (h x)) →
  all2 f l l = negb (existsb h l).
Proof.
  induction l as [|x l IH]; intros Hl; [done|]. simpl.
  rewrite (Hl x) by apply list_elem_of_here.
  rewrite IH; [by destruct (h x)|].
  intros y Hy. apply Hl. by apply list_elem_of_further.
Qed.

Lemma pyval_size_elem (l : list pyval) x :
  x ∈ l → (pyval_size x < pyval_size (PList l))%nat.
Proof.
  simpl. induction 1 as [x l|x y l _ IH]; simpl; lia.
Qed.

(** A value equals itself, as [==] between objects apart goes, exactly when
    no NaN is inside it. *)
Lemma py_eq_self v : py_eq v v = negb (holds_nan v).
Proof.
  remember (pyval_size v) as n eqn:Hn. revert v Hn.
  induction n as [n IH] using lt_wf_ind. intros v ->.
  destruct v as [|b|z|f|s|l|d]; try reflexivity.
  - simpl. unfold num_eq, num_compare, dy_compare.
    by rewrite Z.compare_refl.
  - simpl. unfold num_eq, num_compare, dy_compare.
    by rewrite Z.compare_refl.
  - simpl. rewrite num_eq_self. by destruct f as [|[]|].
  - simpl. apply String.eqb_refl.
  - simpl. apply all2_self. intros x Hx.
    eapply IH; [|done]. by apply pyval_size_elem.
  - cbn [py_eq holds_nan]. rewrite bool_decide_eq_true_2 by done.
    cbn [andb]. apply eq_true_iff_eq.
    rewrite fold_all_true, negb_true_iff, <- not_true_iff_false,
      fold_any_true.
    split.
    + intros Hall (k & x & Hk & Hx). specialize (Hall k x Hk).
      rewrite Hk in Hall.
      rewrite (IH _ (pyval_size_lookup _ _ _ Hk) x eq_refl) in Hall.
      by rewrite Hx in Hall.
    + intros Hnone k x Hk. rewrite Hk.
      rewrite (IH _ (pyval_size_lookup _ _ _ Hk) x eq_refl).
      apply negb_true_iff, not_true_iff_false. intros Hx.
      apply Hnone. by exists k, x.
Qed.

Lemma all2_py_eq_self (l : list pyval) :
  all2 py_eq l l = negb (existsb holds_nan l).
Proof. apply all2_self. intros x _. apply py_eq_self. Qed.

(** A configuration equals the configuration read back with the same values
    exactly when none of its fields holds a NaN. *)
Lemma SimulationConfig_eq_self `{EnumRegistry E} (c : SimulationConfig E) :
  SimulationConfig_eq c c = negb (existsb holds_nan (field_values c)).
Proof.
  unfold SimulationConfig_eq, NetworkConfig_eq, ResourceConfig_eq,
    WorkloadConfig_eq, AlgorithmConfig_eq, ExperimentConfig_eq, field_values.
  rewrite !all2_py_eq_self, String.eqb_refl.
  cbn [existsb andb].
  repeat match goal with
  | |- context [holds_nan ?v] => destruct (holds_nan v); cbn [orb andb negb]
  end; reflexivity.
Qed.

(** ** The file codec: claims *)

Section FileClaims.
Context {text : Type} `{!Serializers text} {E : Type} `{!EnumRegistry E}.
Implicit Types (fs : FS text) (p : Path) (c : SimulationConfig E).

Lemma load_config_keeps_fs p fs : (load_config (E:=E) p fs).2 = fs.
Proof.
  destruct (fs_files fs !! p) as [t|] eqn:Ht.
  - by rewrite (load_config_file p fs t).
  - unfold load_config, mbind at 1, io_bind, path_exists.
    destruct (negb _); simpl; [done|].
    unfold mbind at 1, io_bind, open_read. by rewrite Ht.
Qed.


(** C5, as amended: the suffixes accepted are [.yaml] and [.json] and no
    other.  Where nothing stands in the way of writing, [save_config] raises
    [ValueError] exactly when the suffix is neither, and otherwise writes
    the YAML or the JSON form; on a regular file [load_config] parses with
    the YAML loader for [.yaml], with the JSON loader for [.json], and raises
    [ValueError] for every other suffix.  In particular [.yml] is refused by
    both. *)
Theorem accepted_suffixes :
  (∀ c p fs, writable fs p →
     ((save_config c p fs).1 = Raise ValueError
      ↔ suffix p ≠ ".yaml" ∧ suffix p ≠ ".json")
     ∧ (suffix p = ".yaml" →
        save_config c p fs
        = (Ok (), written fs p (yaml_safe_dump (PDict (to_dict c)))))
     ∧ (suffix p = ".json" →
        save_config c p fs
        = (Ok (), written fs p (json_dump (PDict (to_dict c))))))
  ∧ (∀ p fs t, fs_files fs !! p = Some t →
       (suffix p = ".yaml" →
        load_config (E:=E) p fs = (yaml_safe_load t ≫= from_dict, fs))
       ∧ (suffix p = ".json" →
          load_config (E:=E) p fs = (json_load t ≫= from_dict, fs))
       ∧ (suffix p ≠ ".yaml" → suffix p ≠ ".json" →
          load_config (E:=E) p fs = (Raise ValueError, fs)))
  ∧ (∀ c p fs, suffix p = ".yml" → writable fs p →
       (save_config c p fs).1 = Raise ValueError)
  ∧ (∀ p fs t, suffix p = ".yml" → fs_files fs !! p = Some t →
       load_config (E:=E) p fs = (Raise ValueError, fs)).
Proof.
  split_and!.
  - intros c p fs Hw. rewrite (save_config_run c p fs Hw).
    destruct (String.eqb_spec (suffix p) ".yaml") as [Hy|Hy].
    { split_and!; [split; [done|by intros [? _]]|done|].
      intros Hj. by rewrite Hj in Hy. }
    destruct (String.eqb_spec (suffix p) ".json") as [Hj|Hj].
    { split_and!; [split; [done|by intros [_ ?]]|done..]. }
    split_and!; done.
  - intros p fs t Ht. rewrite (load_config_file p fs t Ht).
    destruct (String.eqb_spec (suffix p) ".yaml") as [Hy|Hy].
    { split_and!; [done| |done]. intros Hj. by rewrite Hj in Hy. }
    destruct (String.eqb_spec (suffix p) ".json") as [Hj|Hj];
      split_and!; done.
  - intros c p fs Hs Hw. by rewrite (save_config_run c p fs Hw), Hs.
  - intros p fs t Hs Ht. by rewrite (load_config_file p fs t Ht), Hs.
Qed.

(** C6, as amended: on a regular file whose name ends in [.txt],
    [load_config] raises [ValueError] and leaves the filesystem as it was;
    the existence of the path is checked first, so on a path that does not
    exist it raises [FileNotFoundError], whatever the suffix; and loading
    never changes the filesystem. *)
Theorem load_txt_unsupported :
  (∀ p fs stem t,
     path_name p = stem +:+ ".txt" → fs_files fs !! p = Some t →
     load_config (E:=E) p fs = (Raise ValueError, fs))
  ∧ (∀ p fs,
       fs_files fs !! p = None → is_dir fs p = false →
       load_config (E:=E) p fs = (Raise FileNotFoundError, fs))
  ∧ (∀ p fs, (load_config (E:=E) p fs).2 = fs).
Proof.
  split_and!.
  - intros p fs stem t Hn Ht. rewrite (load_config_file p fs t Ht).
    by destruct (suffix_txt_unsupported p stem Hn) as [-> ->].
  - apply load_config_missing.
  - apply load_config_keeps_fs.
Qed.

(** With a suffix that is not accepted, [ValueError] comes out only where
    the parents could be created and the path could be opened. *)
Lemma save_config_ValueError_writable c p fs :
  (save_config c p fs).1 = Raise ValueError → writable fs p.
Proof.
  unfold save_config, mbind, io_bind, mkdir_parents, writable.
  destruct (find (is_file fs) (prefixes (parent p))) as [q|] eqn:Hfind.
  { simpl. case_decide; discriminate. }
  unfold open_write.
  destruct (is_dir _ p) eqn:Hd; [discriminate|].
  intros _. split; [done|].
  apply is_dir_false in Hd as [? Hd]. apply is_dir_false. split; [done|].
  intros ?. apply Hd. simpl. by apply elem_of_union_l.
Qed.


End FileClaims.

(** ** The claims on concrete inputs *)

Example ordering_examples :
  py_le (PBool true) (PInt 0) = Ok false
  ∧ py_le (PInt (-3)) (PInt 0) = Ok true
  ∧ py_le f0_5 (PInt 1) = Ok true
  ∧ py_gt f0_9 f0_3 = Ok true
  ∧ py_gt (PInt 1) f0_9 = Ok true
  ∧ py_le float_inf (PInt 0) = Ok false
  ∧ py_le float_nan (PInt 0) = Ok false
  ∧ py_gt float_nan (PInt 0) = Ok false
  ∧ py_le (PStr "8") (PInt 0) = Raise TypeError
  ∧ py_le PNone (PInt 0) = Raise TypeError
  ∧ in_unit f0_3 = Ok true
  ∧ in_unit float_nan = Ok false
  ∧ in_unit (PInt 2) = Ok false.
Proof. repeat split. Qed.

Example sequence_examples :
  any_le_zero (PList [PInt 128; PInt 0; PStr "x"]) = Ok true
  ∧ any_le_zero (PList [PInt 128; PStr "x"; PInt 0]) = Raise TypeError
  ∧ any_le_zero (PStr "128") = Raise TypeError
  ∧ any_le_zero (PInt 128) = Raise TypeError
  ∧ any_le_zero (PList []) = Ok false
  ∧ py_truthy (PList []) = false.
Proof. repeat split. Qed.

Example string_for_sequence_rejected :
  validate_config
    (set_initial_sequence_lengths (PStr "128") Sample.default_config)
  = Ok false.
Proof. reflexivity. Qed.

Example update_dict_example :
  update_dict
    (list_to_map [("a", PInt 1);
                  ("b", PDict (list_to_map [("x", PInt 2); ("y", PInt 3)]));
                  ("c", PList [PInt 4])])
    (list_to_map [("b", PDict {["y" := PInt 30]});
                  ("c", PList [PInt 5; PInt 6]);
                  ("d", PDict {["z" := PInt 7]})])
  = list_to_map [("a", PInt 1);
                 ("b", PDict (list_to_map [("x", PInt 2); ("y", PInt 30)]));
                 ("c", PList [PInt 5; PInt 6]);
                 ("d", PDict {["z" := PInt 7]})].
Proof. vm_compute. reflexivity. Qed.

Example absent_field_faults :
  validate_body Sample.absent_num_devices = Raise TypeError
  ∧ validate_config Sample.absent_num_devices = Ok false.
Proof. split; reflexivity. Qed.

Example nan_bandwidth_accepted :
  validate_config (set_max_bandwidth float_nan Sample.default_config)
  = Ok true.
Proof. reflexivity. Qed.

Example unknown_member_fails :
  from_dict (E:=Sample.WorkloadType) (PDict Sample.unknown_member_tree)
  = Raise (KeyError (PStr "NONEXISTENT")).
Proof. vm_compute. reflexivity. Qed.

Example suffix_examples :
  suffix ["conf"; "run.yaml"] = ".yaml" ∧ suffix ["run.tar.json"] = ".json"
  ∧ suffix [".yaml"] = "" ∧ suffix ["run"] = "" ∧ suffix [] = "".
Proof. repeat split. Qed.



Example validate_rejects_no_devices :
  no_nan SampleRun.no_devices = true
  ∧ spec_valid SampleRun.no_devices = false
  ∧ validate_config SampleRun.no_devices = Ok false.
Proof.
  split_and!; [reflexivity..|].
  apply (proj2 (proj2 (proj2
           (validate_false_iff_invariant_violated SampleRun.no_devices))));
    reflexivity.
Qed.

(** C2, the failing input: the default configuration with a NaN time limit
    violates the invariant that the time limit is positive, and
    [validate_config] returns [True], where the claim says [False]: the test
    [time_limit <= 0] is false on NaN.  The tests of the two probabilities,
    written [not 0 <= p <= 1], do return [False] on NaN. *)
Theorem validate_config_accepts_nan_time_limit :
  ExperimentConfig.time_limit (experiment Sample.nan_time_limit) = float_nan
  ∧ spec_positive (ExperimentConfig.time_limit
                     (experiment Sample.nan_time_limit)) = false
  ∧ spec_valid Sample.nan_time_limit = false
  ∧ validate_config Sample.nan_time_limit = Ok true
  ∧ validate_config SampleRun.nan_edge_probability = Ok false
  ∧ validate_config SampleRun.nan_migration_threshold = Ok false.
Proof. split_and!; reflexivity. Qed.

Lemma validate_ignores_uninspected_witness :
  spec_valid Sample.default_config = true
  ∧ validate_config (set_uninspected Sample.odd_values Sample.default_config)
    = Ok true.
Proof.
  split; [reflexivity|].
  apply (proj2 (validate_ignores_uninspected
                  Sample.default_config Sample.odd_values)).
  reflexivity.
Defined.

Lemma merge_changes_supplied_leaves_only_witness :
  ({["network" := PDict {["num_devices" := PInt 4]}]} : gmap string pyval)
    !! "resources" = None
  ∧ tree_get
      (update_dict (to_dict Sample.default_config)
         {["network" := PDict {["num_devices" := PInt 4]}]})
      "resources" "memory_min"
    = tree_get (to_dict Sample.default_config) "resources" "memory_min".
Proof.
  split; [reflexivity|].
  apply (proj1 (proj2 (proj2 (proj2
           (merge_changes_supplied_leaves_only Sample.default_config))))).
  left. reflexivity.
Defined.

Lemma from_dict_fails_on_structure_only_witness :
  Sample.unknown_member_tree !! "workload"
  = Some (PDict (list_to_map [
      ("model_type", PStr "NONEXISTENT");
      ("initial_sequence_lengths", PList [PInt 128]);
      ("generation_steps", PList [PInt 32])]))
  ∧ Sample.lookup "NONEXISTENT" = None
  ∧ (∃ e, from_dict (E:=Sample.WorkloadType)
            (PDict Sample.unknown_member_tree) = Raise e)
  ∧ SampleRun.odd_algorithm_tree !! "algorithm"
    = Some (PDict {["learning_rate" := f0_5]})
  ∧ from_dict (E:=Sample.WorkloadType) (PDict SampleRun.odd_algorithm_tree)
    = Raise TypeError
  ∧ from_dict (E:=Sample.WorkloadType) (PDict SampleRun.short_resources_tree)
    = Raise TypeError.
Proof.
  assert (well_structured (E:=Sample.WorkloadType)
            (PDict (to_dict Sample.default_config)))
    as (t0 & [= <-] & Hall & w & name & m & Hw & Hname & Hm)
    by (eapply from_dict_Ok_inv, from_dict_to_dict).
  apply Forall_cons_1 in Hall as [Hnet Hall].
  apply Forall_cons_1 in Hall as [Hres Hall].
  apply Forall_cons_1 in Hall as [Hwork _].
  split_and!; [reflexivity..| |reflexivity| |].
  - eapply (proj1 (proj2
              (from_dict_fails_on_structure_only (E:=Sample.WorkloadType))));
      reflexivity.
  - apply (proj2 (proj2 (proj2 (proj2 (proj2 (proj2 (proj2 (proj2
             (from_dict_fails_on_structure_only
                (E:=Sample.WorkloadType)))))))))
             SampleRun.odd_algorithm_tree {["learning_rate" := f0_5]}
             3%nat "algorithm" _ _ eq_refl).
    + repeat apply Forall_cons_2; [..|apply Forall_nil_2].
      * split; [exact Hnet|discriminate].
      * split; [exact Hres|discriminate].
      * split; [exact Hwork|]. intros _. by exists w, name, m.
    + reflexivity.
    + right. exists "learning_rate". split; [by eexists|].
      intros Hin. apply list_elem_of_In in Hin. simpl in Hin.
      repeat destruct Hin as [Hin|Hin]; discriminate || done.
    + discriminate.
  - apply (proj2 (proj2 (proj2 (proj2 (proj2 (proj2 (proj2 (proj2
             (from_dict_fails_on_structure_only
                (E:=Sample.WorkloadType)))))))))
             SampleRun.short_resources_tree {["memory_mu" := float_of_Z 2]}
             1%nat "resources" _ _ eq_refl).
    + repeat apply Forall_cons_2; [..|apply Forall_nil_2].
      split; [exact Hnet|discriminate].
    + reflexivity.
    + left. exists "memory_min". split; [|reflexivity].
      apply list_elem_of_In. simpl. tauto.
    + discriminate.
Defined.

(** C4 as stated fails on a mistyped field: a tree whose [num_devices] is a
    string decodes; and it fails on the kind of error: a tree with an unknown
    workload model under a network section that lacks a required field
    raises [TypeError], not the [KeyError] of the unknown member. *)
Lemma from_dict_accepts_mistyped_field :
  tree_get (to_dict Sample.mistyped) "network" "num_devices"
  = Some (PStr "eight")
  ∧ from_dict (PDict (to_dict Sample.mistyped)) = Ok Sample.mistyped
  ∧ tree_get Sample.two_defects_tree "workload" "model_type"
    = Some (PStr "NONEXISTENT")
  ∧ from_dict (E:=Sample.WorkloadType) (PDict Sample.two_defects_tree)
    = Raise TypeError.
Proof. split_and!; vm_compute; reflexivity. Qed.

Lemma accepted_suffixes_witness :
  suffix ["config.yml"] = ".yml"
  ∧ Sample.yml_fs.(fs_files) !! ["config.yml"]
    = Some (Some (PDict (to_dict Sample.default_config)))
  ∧ load_config (E:=Sample.WorkloadType) ["config.yml"] Sample.yml_fs
    = (Raise ValueError, Sample.yml_fs).
Proof.
  split_and!; [reflexivity..|].
  eapply (proj2 (proj2 (proj2
            (accepted_suffixes (E:=Sample.WorkloadType)))));
    reflexivity.
Defined.

(** C5 as stated fails on [.yml]: a file of that suffix holding a valid
    configuration is refused by [load_config], and saving to such a path is
    refused as well. *)
Lemma yml_is_refused :
  suffix ["config.yml"] = ".yml"
  ∧ load_config (E:=Sample.WorkloadType) ["config.yml"] Sample.yml_fs
    = (Raise ValueError, Sample.yml_fs)
  ∧ (save_config Sample.default_config ["config.yml"] Sample.empty_fs).1
    = Raise ValueError.
Proof. split_and!; vm_compute; reflexivity. Qed.

Lemma load_txt_unsupported_witness :
  path_name ["notes.txt"] = "notes" +:+ ".txt"
  ∧ Sample.txt_fs.(fs_files) !! ["notes.txt"]
    = Some (Some (PStr "remember the milk"))
  ∧ load_config (E:=Sample.WorkloadType) ["notes.txt"] Sample.txt_fs
    = (Raise ValueError, Sample.txt_fs).
Proof.
  split_and!; [reflexivity..|].
  apply (proj1 (load_txt_unsupported (E:=Sample.WorkloadType))
           ["notes.txt"] Sample.txt_fs "notes"
           (Some (PStr "remember the milk")));
    reflexivity.
Defined.

(** C6 as stated fails where the path does not exist: the existence check
    comes before the suffix is looked at, and the error is
    [FileNotFoundError]. *)
Lemma load_missing_txt_not_found :
  load_config (E:=Sample.WorkloadType) ["notes.txt"] Sample.empty_fs
  = (Raise FileNotFoundError, Sample.empty_fs).
Proof. vm_compute. reflexivity. Qed.



(** * Further properties of the code *)

(** ** Decoding: sections, defaults *)

Section DecodeMore.
Context {E : Type} `{!EnumRegistry E}.
Implicit Types c : SimulationConfig E.

Lemma from_dict_not_dict v : is_dict v = false → from_dict (E:=E) v = Raise TypeError.
Proof. by destruct v. Qed.

Lemma from_dict_agree (t t' : gmap string pyval) :
  (∀ s, s ∈ section_names → t !! s = t' !! s) →
  from_dict (E:=E) (PDict t) = from_dict (PDict t').
Proof.
  intros H. unfold from_dict. simpl.
  by rewrite (H "network"), (H "resources"), (H "workload"), (H "algorithm"),
    (H "experiment")
    by (unfold section_names;
        repeat first [apply list_elem_of_here|apply list_elem_of_further]).
Qed.

(** X1: [from_dict] reads the tree through the five section keys only: two
    mappings that agree on them decode alike, so keys beside the five
    sections are ignored without any error. *)
Theorem from_dict_reads_five_sections (t t' : gmap string pyval) :
  (∀ s, s ∈ section_names → t !! s = t' !! s) →
  from_dict (E:=E) (PDict t) = from_dict (PDict t').
Proof. apply from_dict_agree. Qed.

(** The steps of a decoding that succeeds. *)
Lemma from_dict_Ok_steps (t : gmap string pyval) c :
  from_dict (PDict t) = Ok c ↔
  ∃ vn vr dw vm va ve,
    t !! "network" = Some vn ∧ NetworkConfig_init vn = Ok (network c)
    ∧ t !! "resources" = Some vr ∧ ResourceConfig_init vr = Ok (resources c)
    ∧ t !! "workload" = Some (PDict dw) ∧ dw !! "model_type" = Some vm
    ∧ enum_getitem vm = Ok (WorkloadConfig.model_type (workload c))
    ∧ WorkloadConfig_init (WorkloadConfig.model_type (workload c))
        (PDict (delete "model_type" dw)) = Ok (workload c)
    ∧ t !! "algorithm" = Some va ∧ AlgorithmConfig_init va = Ok (algorithm c)
    ∧ t !! "experiment" = Some ve
    ∧ ExperimentConfig_init ve = Ok (experiment c).
Proof.
  split.
  - unfold from_dict. simpl.
    destruct (t !! "network") as [vn|] eqn:Hn; simpl; [|done].
    destruct (NetworkConfig_init vn) as [n|] eqn:Hn'; simpl; [|done].
    destruct (t !! "resources") as [vr|] eqn:Hr; simpl; [|done].
    destruct (ResourceConfig_init vr) as [r|] eqn:Hr'; simpl; [|done].
    destruct (t !! "workload") as [vw|] eqn:Hw; simpl; [|done].
    destruct (py_getitem vw "model_type") as [vm|] eqn:Hm; simpl; [|done].
    apply py_getitem_Ok in Hm as (dw & -> & Hm).
    destruct (enum_getitem vm) as [m|] eqn:He; simpl; [|done].
    destruct (WorkloadConfig_init m _) as [w|] eqn:Hw'; simpl; [|done].
    destruct (t !! "algorithm") as [va|] eqn:Ha; simpl; [|done].
    destruct (AlgorithmConfig_init va) as [a|] eqn:Ha'; simpl; [|done].
    destruct (t !! "experiment") as [ve|] eqn:Hx; simpl; [|done].
    destruct (ExperimentConfig_init ve) as [e|] eqn:Hx'; simpl; [|done].
    intros [= <-]. simpl.
    assert (WorkloadConfig.model_type w = m) as ->.
    { unfold WorkloadConfig_init in Hw'.
      repeat (apply bind_Ok in Hw' as (? & ? & Hw')). by injection Hw' as <-. }
    exists vn, vr, dw, vm, va, ve. by split_and!.
  - intros (vn & vr & dw & vm & va & ve & Hn & Hn' & Hr & Hr' & Hw & Hm & He
            & Hw' & Ha & Ha' & Hx & Hx').
    unfold from_dict. simpl.
    rewrite Hn. simpl. rewrite Hn'. simpl. rewrite Hr. simpl. rewrite Hr'.
    simpl. rewrite Hw. simpl. rewrite Hm. simpl. rewrite He. simpl.
    rewrite Hw'. simpl. rewrite Ha. simpl. rewrite Ha'. simpl.
    rewrite Hx. simpl. rewrite Hx'. simpl. by destruct c.
Qed.

(** X2: a tree that is no mapping raises [TypeError]; and every one of the
    five sections must be present, also [algorithm], all of whose fields
    have defaults: taking any one section out of a tree that decodes makes
    the decoding raise [KeyError] on the name of that section. *)
Theorem from_dict_needs_every_section :
  (∀ v, is_dict v = false → from_dict (E:=E) v = Raise TypeError)
  ∧ (∀ (t : gmap string pyval) c s,
       from_dict (PDict t) = Ok c → s ∈ section_names →
       from_dict (E:=E) (PDict (delete s t)) = Raise (KeyError (PStr s))).
Proof.
  split; [apply from_dict_not_dict|].
  intros t c s Hc Hs. apply from_dict_Ok_steps in Hc
    as (vn & vr & dw & vm & va & ve & Hn & Hn' & Hr & Hr' & Hw & Hm & He
        & Hw' & Ha & Ha' & Hx & Hx').
  unfold section_names in Hs. unfold from_dict. simpl.
  repeat (apply elem_of_cons in Hs as [->|Hs]);
    [..|by apply elem_of_nil in Hs];
    rewrite ?lookup_delete_eq, ?lookup_delete_ne by done; simpl; try done.
  - rewrite Hn. simpl. by rewrite Hn'.
  - rewrite Hn. simpl. rewrite Hn'. simpl. rewrite Hr. simpl. by rewrite Hr'.
  - rewrite Hn. simpl. rewrite Hn'. simpl. rewrite Hr. simpl. rewrite Hr'.
    simpl. rewrite Hw. simpl. rewrite Hm. simpl. rewrite He. simpl.
    by rewrite Hw'.
  - rewrite Hn. simpl. rewrite Hn'. simpl. rewrite Hr. simpl. rewrite Hr'.
    simpl. rewrite Hw. simpl. rewrite Hm. simpl. rewrite He. simpl.
    rewrite Hw'. simpl. rewrite Ha. simpl. by rewrite Ha'.
Qed.

Local Ltac by_field Hdom :=
  cbn [list_to_map foldr uncurry fst snd];
  repeat (rewrite lookup_insert; case_decide; [simplify_eq/=|]);
  rewrite ?lookup_empty;
  repeat match goal with
  | H : ?d !! ?k = Some _ |- context [?d !! ?k] => rewrite H
  end;
  unfold optional; try done;
  try (by match goal with |- context [?d !! ?k] => destruct (d !! k) end);
  match goal with
  | |- context [?d !! ?f] =>
      destruct (d !! f) eqn:Hf; [|done];
      apply elem_of_dom_2, Hdom, elem_of_list_to_set in Hf;
      repeat (apply elem_of_cons in Hf as [Hf|Hf]; [done|]);
      by apply elem_of_nil in Hf
  end.

Local Ltac open_init H :=
  repeat (apply bind_Ok in H as (? & ? & H));
  repeat match goal with
  | H : kwargs _ _ = Ok _ |- _ => apply kwargs_Ok in H as [[= <-] Hdom]
  | H : required _ _ = Ok _ |- _ => apply required_Ok in H
  end;
  injection H as <-.

Lemma NetworkConfig_init_fields d n f :
  NetworkConfig_init (PDict d) = Ok n →
  (list_to_map [
     ("topology_type", NetworkConfig.topology_type n);
     ("num_devices", NetworkConfig.num_devices n);
     ("min_bandwidth", NetworkConfig.min_bandwidth n);
     ("max_bandwidth", NetworkConfig.max_bandwidth n);
     ("edge_probability", NetworkConfig.edge_probability n);
     ("seed", NetworkConfig.seed n)] : gmap string pyval) !! f
  = match d !! f with
    | Some v => Some v
    | None => tree_get defaults_tree "network" f
    end.
Proof.
  unfold NetworkConfig_init, tree_get. intros H. open_init H.
  replace (defaults_tree !! "network") with (Some (PDict (list_to_map [
       ("edge_probability", f0_3); ("seed", PNone)]))) by reflexivity.
  by_field Hdom.
Qed.

Lemma ResourceConfig_init_fields d r f :
  ResourceConfig_init (PDict d) = Ok r →
  (list_to_map [
     ("memory_mu", ResourceConfig.memory_mu r);
     ("memory_sigma", ResourceConfig.memory_sigma r);
     ("memory_min", ResourceConfig.memory_min r);
     ("memory_max", ResourceConfig.memory_max r);
     ("compute_mu", ResourceConfig.compute_mu r);
     ("compute_sigma", ResourceConfig.compute_sigma r);
     ("compute_min", ResourceConfig.compute_min r);
     ("compute_max", ResourceConfig.compute_max r);
     ("seed", ResourceConfig.seed r)] : gmap string pyval) !! f
  = match d !! f with
    | Some v => Some v
    | None => tree_get defaults_tree "resources" f
    end.
Proof.
  unfold ResourceConfig_init, tree_get. intros H. open_init H.
  replace (defaults_tree !! "resources") with (Some (PDict (list_to_map [
       ("seed", PNone)]))) by reflexivity.
  by_field Hdom.
Qed.

Lemma WorkloadConfig_init_fields (m : E) d w f :
  WorkloadConfig_init m (PDict d) = Ok w →
  (list_to_map [
     ("initial_sequence_lengths", WorkloadConfig.initial_sequence_lengths w);
     ("generation_steps", WorkloadConfig.generation_steps w);
     ("precision_bytes", WorkloadConfig.precision_bytes w);
     ("seed", WorkloadConfig.seed w)] : gmap string pyval) !! f
  = match d !! f with
    | Some v => Some v
    | None => tree_get defaults_tree "workload" f
    end.
Proof.
  unfold WorkloadConfig_init, tree_get. intros H. open_init H.
  replace (defaults_tree !! "workload") with (Some (PDict (list_to_map [
       ("precision_bytes", PInt 4); ("seed", PNone)]))) by reflexivity.
  by_field Hdom.
Qed.

Lemma AlgorithmConfig_init_fields d a f :
  AlgorithmConfig_init (PDict d) = Ok a →
  (list_to_map [
     ("migration_threshold", AlgorithmConfig.migration_threshold a);
     ("backtrack_limit", AlgorithmConfig.backtrack_limit a);
     ("cache_placement_strategy", AlgorithmConfig.cache_placement_strategy a);
     ("enable_dynamic_adjustment",
      AlgorithmConfig.enable_dynamic_adjustment a)] : gmap string pyval) !! f
  = match d !! f with
    | Some v => Some v
    | None => tree_get defaults_tree "algorithm" f
    end.
Proof.
  unfold AlgorithmConfig_init, tree_get. intros H. open_init H.
  replace (defaults_tree !! "algorithm") with (Some (PDict (list_to_map [
       ("migration_threshold", f0_9);
       ("backtrack_limit", PInt 100);
       ("cache_placement_strategy", PStr "colocated");
       ("enable_dynamic_adjustment", PBool true)]))) by reflexivity.
  by_field Hdom.
Qed.

Lemma ExperimentConfig_init_fields d e f :
  ExperimentConfig_init (PDict d) = Ok e →
  (list_to_map [
     ("name", ExperimentConfig.name e);
     ("description", ExperimentConfig.description e);
     ("num_runs", ExperimentConfig.num_runs e);
     ("checkpoint_interval", ExperimentConfig.checkpoint_interval e);
     ("time_limit", ExperimentConfig.time_limit e);
     ("metrics_output_dir", ExperimentConfig.metrics_output_dir e);
     ("save_intermediate", ExperimentConfig.save_intermediate e)]
   : gmap string pyval) !! f
  = match d !! f with
    | Some v => Some v
    | None => tree_get defaults_tree "experiment" f
    end.
Proof.
  unfold ExperimentConfig_init, tree_get. intros H. open_init H.
  replace (defaults_tree !! "experiment") with (Some (PDict (list_to_map [
       ("num_runs", PInt 1);
       ("checkpoint_interval", PInt 10);
       ("time_limit", float_inf);
       ("metrics_output_dir", PStr "results");
       ("save_intermediate", PBool false)]))) by reflexivity.
  by_field Hdom.
Qed.

Lemma init_is_dict_network v n : NetworkConfig_init v = Ok n → ∃ d, v = PDict d.
Proof. intros (d & -> & _)%NetworkConfig_init_Ok. eauto. Qed.
Lemma init_is_dict_resources v r :
  ResourceConfig_init v = Ok r → ∃ d, v = PDict d.
Proof. intros (d & -> & _)%ResourceConfig_init_Ok. eauto. Qed.
Lemma init_is_dict_algorithm v a :
  AlgorithmConfig_init v = Ok a → ∃ d, v = PDict d.
Proof. intros (d & -> & _)%AlgorithmConfig_init_Ok. eauto. Qed.
Lemma init_is_dict_experiment v e :
  ExperimentConfig_init v = Ok e → ∃ d, v = PDict d.
Proof. intros (d & -> & _)%ExperimentConfig_init_Ok. eauto. Qed.

(** X3: a decoding that succeeds keeps every field that the tree supplies
    and gives each field that the tree omits the default of its dataclass,
    so that encoding the result is the tree with the defaults filled in; the
    workload model is the registry member of the name supplied. *)
Theorem from_dict_keeps_fields_and_fills_defaults (t : gmap string pyval) c :
  from_dict (PDict t) = Ok c →
  (∀ s f, s ∈ section_names → f ≠ "model_type" →
     tree_get (to_dict c) s f
     = match tree_get t s f with
       | Some v => Some v
       | None => tree_get defaults_tree s f
       end)
  ∧ ∃ name, tree_get t "workload" "model_type" = Some (PStr name)
      ∧ member_lookup name = Some (WorkloadConfig.model_type (workload c)).
Proof.
  intros (vn & vr & dw & vm & va & ve & Hn & Hn' & Hr & Hr' & Hw & Hm & He
          & Hw' & Ha & Ha' & Hx & Hx')%from_dict_Ok_steps.
  split.
  - intros s f Hs Hf. unfold section_names in Hs.
    repeat (apply elem_of_cons in Hs as [->|Hs]);
      [..|by apply elem_of_nil in Hs]; unfold tree_get at 1 2.
    + destruct (init_is_dict_network _ _ Hn') as [d ->]. rewrite Hn.
      by apply NetworkConfig_init_fields.
    + destruct (init_is_dict_resources _ _ Hr') as [d ->]. rewrite Hr.
      by apply ResourceConfig_init_fields.
    + rewrite Hw.
      replace (to_dict c !! "workload") with (Some (PDict (<["model_type" :=
          PStr (member_name (WorkloadConfig.model_type (workload c)))]>
        (list_to_map [
          ("initial_sequence_lengths",
           WorkloadConfig.initial_sequence_lengths (workload c));
          ("generation_steps", WorkloadConfig.generation_steps (workload c));
          ("precision_bytes", WorkloadConfig.precision_bytes (workload c));
          ("seed", WorkloadConfig.seed (workload c))])))) by reflexivity.
      rewrite lookup_insert_ne by done.
      rewrite (WorkloadConfig_init_fields _ _ _ f Hw').
      by rewrite lookup_delete_ne.
    + destruct (init_is_dict_algorithm _ _ Ha') as [d ->]. rewrite Ha.
      by apply AlgorithmConfig_init_fields.
    + destruct (init_is_dict_experiment _ _ Hx') as [d ->]. rewrite Hx.
      by apply ExperimentConfig_init_fields.
  - apply enum_getitem_Ok in He as (name & -> & Hl).
    exists name. unfold tree_get. by rewrite Hw.
Qed.

End DecodeMore.

(** ** The merge: what the loop keeps and how it composes *)

Lemma dom_update_dict (d1 d2 : gmap string pyval) :
  dom (update_dict d1 d2) = dom d1 ∪ dom d2.
Proof.
  apply set_eq. intros k.
  rewrite elem_of_union, !elem_of_dom, update_dict_lookup.
  destruct (d2 !! k), (d1 !! k); split; try intros [?|?]; eauto;
    by (left + right).
Qed.

(** X4: [update_dict] never removes a key: the keys of the result are those
    of the base together with those of the override, so an override cannot
    delete a field; overriding with [None] stores [None]. *)
Theorem update_dict_keeps_keys (d1 d2 : gmap string pyval) :
  dom (update_dict d1 d2) = dom d1 ∪ dom d2
  ∧ ∀ k, d2 !! k = Some PNone → update_dict d1 d2 !! k = Some PNone.
Proof.
  split; [apply dom_update_dict|].
  intros k Hk. rewrite update_dict_lookup, Hk. by rewrite merge_value_leaf.
Qed.


(** Merging a value into itself changes nothing. *)
Lemma merge_value_self v : merge_value (Some v) v = v.
Proof.
  remember (pyval_size v) as n eqn:Hn. revert v Hn.
  induction n as [n IH] using lt_wf_ind. intros v ->.
  destruct v as [| | | | | |d]; try reflexivity.
  rewrite merge_value_dicts. f_equal. apply map_eq. intros k.
  rewrite update_dict_lookup. destruct (d !! k) as [x|] eqn:Hk; [|done].
  f_equal. eapply IH; [|done]. by eapply pyval_size_lookup.
Qed.

(** Merging the same override a second time changes nothing. *)
Lemma merge_value_again old v :
  merge_value (Some (merge_value old v)) v = merge_value old v.
Proof.
  remember (pyval_size v) as n eqn:Hn. revert old v Hn.
  induction n as [n IH] using lt_wf_ind. intros old v ->.
  destruct (is_dict v) eqn:Hv; [|by rewrite !merge_value_leaf].
  destruct v as [| | | | | |d2]; try done.
  destruct old as [[| | | | | |d1]|];
    try exact (merge_value_self (PDict d2)).
  rewrite !merge_value_dicts. f_equal. apply map_eq. intros k.
  rewrite !update_dict_lookup. destruct (d2 !! k) as [x|] eqn:Hk; [|done].
  f_equal. eapply IH; [|done]. by eapply pyval_size_lookup.
Qed.

(** X5: applying the same override twice is the same as applying it once,
    at every depth of nesting; merging a mapping into itself returns it; and
    merging into the empty mapping returns the override. *)
Theorem update_dict_idempotent (d1 d2 : gmap string pyval) :
  update_dict (update_dict d1 d2) d2 = update_dict d1 d2
  ∧ update_dict d2 d2 = d2
  ∧ update_dict ∅ d2 = d2.
Proof.
  split_and!; apply map_eq; intros k; rewrite !update_dict_lookup.
  - destruct (d2 !! k) as [x|]; [|done]. f_equal. apply merge_value_again.
  - destruct (d2 !! k) as [x|]; [|done]. f_equal. apply merge_value_self.
  - rewrite lookup_empty. destruct (d2 !! k) as [x|]; [|done].
    f_equal. by destruct x.
Qed.

Section MergeMore.
Context {E : Type} `{!EnumRegistry E}.
Implicit Types c base : SimulationConfig E.

Lemma elem_of_section_names s :
  s ∈ section_names ↔ ∃ fields, (s, fields) ∈ schema.
Proof.
  unfold section_names, schema. split.
  - intros Hs. repeat (apply elem_of_cons in Hs as [->|Hs];
      [eexists; repeat first [apply list_elem_of_here
                             |apply list_elem_of_further]|]).
    by apply elem_of_nil in Hs.
  - intros [fields Hs].
    repeat (apply elem_of_cons in Hs as [[= -> _]|Hs];
      [repeat first [apply list_elem_of_here|apply list_elem_of_further]|]).
    by apply elem_of_nil in Hs.
Qed.

(** X6: the merge reads the override through the five section keys only:
    two overrides that agree on them merge alike, and an override none of
    whose keys is a section name, such as a misspelt one, is dropped without
    any error and returns the base configuration. *)
Theorem merge_configs_reads_five_sections base (o o' : gmap string pyval) :
  ((∀ s, s ∈ section_names → o !! s = o' !! s) →
   merge_configs base o = merge_configs base o')
  ∧ ((∀ s, s ∈ section_names → o !! s = None) →
     merge_configs base o = Ok base).
Proof.
  assert (∀ o1 o2 : gmap string pyval,
    (∀ s, s ∈ section_names → o1 !! s = o2 !! s) →
    merge_configs base o1 = merge_configs base o2) as Hagree.
  { intros o1 o2 H. unfold merge_configs.
    apply from_dict_agree. intros s Hs.
    by rewrite !update_dict_lookup, (H s Hs). }
  split; [apply Hagree|].
  intros H. rewrite (Hagree o ∅); [apply merge_configs_empty|].
  intros s Hs. by rewrite H, lookup_empty.
Qed.

(** Every section of an encoded configuration holds exactly the parameters
    of its constructor. *)
Lemma to_dict_schema base :
  Forall (λ '(s, (all, req)),
    ∃ b, to_dict base !! s = Some (PDict b) ∧ dom b = list_to_set all
         ∧ ∀ f, f ∈ req → is_Some (b !! f)) schema.
Proof.
  unfold schema. repeat apply Forall_cons_2; [..|apply Forall_nil_2];
    (eexists; split; [reflexivity|]; split;
     [by rewrite dom_list_to_map_L
     |intros f Hf;
      repeat (apply elem_of_cons in Hf as [->|Hf]; [by eexists|]);
      by apply elem_of_nil in Hf]).
Qed.

Lemma merged_section_shape (d1 o : gmap string pyval) s all req b :
  d1 !! s = Some (PDict b) → dom b = list_to_set all →
  (∀ f, f ∈ req → is_Some (b !! f)) →
  (∃ v, update_dict d1 o !! s = Some v ∧ section_shape all req v)
  ↔ match o !! s with
    | None => True
    | Some (PDict d) => dom d ⊆ list_to_set all
    | Some _ => False
    end.
Proof.
  intros Hb Hdom Hreq. rewrite update_dict_lookup, Hb.
  destruct (o !! s) as [[| | | | | |d]|]; simpl;
    try by (split; [intros (v & [= <-] & (d' & [=] & _))|done]).
  - fold (update_dict b d). split.
    + intros (v & [= <-] & (d' & [= <-] & Hd & _)).
      rewrite dom_update_dict in Hd. intros k Hk.
      apply Hd. by apply elem_of_union_r.
    + intros Hd. eexists. split; [done|]. eexists. split; [done|]. split.
      * rewrite dom_update_dict, Hdom. intros k [Hk|Hk]%elem_of_union;
          [done|by apply Hd].
      * intros f [x Hx]%Hreq. apply elem_of_dom.
        rewrite dom_update_dict. apply elem_of_union_l, elem_of_dom. eauto.
  - split; [done|]. intros _. eexists. split; [done|]. eexists.
    split; [done|]. split; [by rewrite Hdom|done].
Qed.

(** X7: the merge succeeds on exactly the overrides that hold, under each
    section name, nothing or a mapping whose keys are parameters of that
    section, with a member name wherever the workload model is supplied.
    An override cannot make a required field go missing; a section replaced
    by something that is no mapping, or a key that is no parameter, makes
    the merge raise. *)
Theorem merge_configs_succeeds_iff base (o : gmap string pyval) :
  (∃ r, merge_configs base o = Ok r) ↔ override_accepted (E:=E) o.
Proof.
  unfold merge_configs. etrans.
  { split; [intros [r Hr]; by eapply from_dict_Ok_inv
           |apply from_dict_Ok_intro]. }
  unfold well_structured, override_accepted.
  pose proof (to_dict_schema base) as Hbase.
  rewrite Forall_forall in Hbase.
  assert (Forall (λ '(s, (all, req)),
      ∃ v, update_dict (to_dict base) o !! s = Some v
           ∧ section_shape all req v) schema
    ↔ Forall (λ '(s, (all, _)),
        match o !! s with
        | None => True
        | Some (PDict d) => dom d ⊆ list_to_set all
        | Some _ => False
        end) schema) as Hshape.
  { rewrite !Forall_forall.
    split; intros H [s [all req]] Hs; specialize (H _ Hs);
      destruct (Hbase _ Hs) as (b & Hb & Hdom & Hreq); simpl in *;
      by eapply merged_section_shape. }
  assert (∃ bw : gmap string pyval,
    to_dict base !! "workload" = Some (PDict bw)
    ∧ bw !! "model_type"
      = Some (PStr (member_name (WorkloadConfig.model_type (workload base)))))
    as (bw & Hbw & Hmt) by (by eexists).
  split.
  - intros (d & [= <-] & Hall & w & name & m & Hw & Hname & Hm).
    split; [by apply Hshape|].
    unfold tree_get. revert Hw. rewrite update_dict_lookup, Hbw.
    destruct (o !! "workload") as [[| | | | | |dw]|]; try done.
    rewrite merge_value_dicts. intros [= <-]. revert Hname.
    rewrite update_dict_lookup, Hmt.
    destruct (dw !! "model_type") as [v|]; [|done].
    rewrite merge_value_not_dict by done. intros [= ->]. eauto.
  - intros [Hall Hname]. eexists. split; [done|].
    split; [by apply Hshape|].
    rewrite Forall_forall in Hall.
    assert (("workload",
             (["model_type"; "initial_sequence_lengths"; "generation_steps";
               "precision_bytes"; "seed"],
              ["model_type"; "initial_sequence_lengths"; "generation_steps"]))
            ∈ schema) as Hw
      by (unfold schema;
          repeat first [apply list_elem_of_here|apply list_elem_of_further]).
    specialize (Hall _ Hw). simpl in Hall.
    unfold tree_get in Hname. rewrite update_dict_lookup, Hbw.
    destruct (o !! "workload") as [[| | | | | |dw]|]; try done.
    + rewrite merge_value_dicts.
      destruct (dw !! "model_type") as [v|] eqn:Hv.
      * destruct Hname as (name & m & -> & Hm).
        eexists _, name, m. split; [done|]. split; [|done].
        by rewrite update_dict_lookup, Hv, Hmt.
      * eexists _, _, _. split; [done|]. split.
        -- by rewrite update_dict_lookup, Hv.
        -- apply lookup_member_name.
    + eexists _, _, _. split; [done|]. split; [done|].
      apply lookup_member_name.
Qed.

(** X8: an override that supplies only the workload model changes the
    model to the registry member of that name and nothing else, and raises
    [KeyError] on the name when the registry has no such member. *)
Theorem merge_configs_model_type base (name : string) :
  merge_configs base {["workload" := PDict {["model_type" := PStr name]}]}
  = match member_lookup name with
    | Some m => Ok (set_model_type m base)
    | None => Raise (KeyError (PStr name))
    end.
Proof.
  unfold merge_configs, update_dict. rewrite map_fold_singleton.
  replace (to_dict base !! "workload") with (Some (PDict (list_to_map [
       ("model_type",
        PStr (member_name (WorkloadConfig.model_type (workload base))));
       ("initial_sequence_lengths",
        WorkloadConfig.initial_sequence_lengths (workload base));
       ("generation_steps", WorkloadConfig.generation_steps (workload base));
       ("precision_bytes", WorkloadConfig.precision_bytes (workload base));
       ("seed", WorkloadConfig.seed (workload base))])))
    by reflexivity.
  rewrite merge_value_dicts. unfold update_dict.
  rewrite map_fold_singleton, (merge_value_leaf _ (PStr name)) by done.
  destruct base as [[] [] [] [] []]. unfold set_model_type. simpl.
  unfold from_dict, to_dict, enum_getitem.
  generalize (@member_lookup E _). generalize (@member_name E _).
  intros nm lk. vm_compute. destruct (lk name); reflexivity.
Qed.

End MergeMore.

(** ** The validator as the only check of types *)

Lemma passes_pos_is_number v : passes_pos v = true → is_number v = true.
Proof. unfold passes_pos, is_number. by destruct (as_number v). Qed.

Lemma unit_interval_is_number v :
  spec_unit_interval v = true → is_number v = true.
Proof. unfold spec_unit_interval, is_number. by destruct (as_number v). Qed.

Lemma passes_sequence_list v :
  py_truthy v = true → passes_each v = true →
  ∃ l, v = PList l ∧ l ≠ [] ∧ Forall (λ x, is_number x = true) l.
Proof.
  destruct v as [| | | |s|l|d]; try done; simpl; unfold passes_each; simpl.
  - intros Hs%negb_true_iff%Nat.eqb_neq.
    by destruct (chars_nonempty s Hs) as (a & r & ->).
  - intros Hl%negb_true_iff%Nat.eqb_neq Hp. exists l. split; [done|].
    split; [by destruct l|].
    apply Forall_forall. intros x Hx%list_elem_of_In.
    apply passes_pos_is_number. by eapply forallb_forall in Hp.
  - intros Hd%negb_true_iff%Nat.eqb_neq.
    rewrite <-length_map_to_list in Hd.
    by destruct (map_to_list d) as [|[k x] r].
Qed.


(** ** Saving and loading: what else they do and leave alone *)

Section FileMore.
Context {text : Type} `{!Serializers text} {E : Type} `{!EnumRegistry E}.
Implicit Types (fs : FS text) (p q : Path) (c : SimulationConfig E).

(** X10: whatever its outcome, [save_config] touches no file other than the
    one at its path, removes no directory, and creates no directory other
    than the prefixes of the parent of its path. *)
Theorem save_config_frame c p fs :
  (∀ q, q ≠ p →
     fs_files (save_config c p fs).2 !! q = fs_files fs !! q)
  ∧ fs_dirs fs ⊆ fs_dirs (save_config c p fs).2
  ∧ (∀ q, q ∈ fs_dirs (save_config c p fs).2 →
       q ∈ fs_dirs fs ∨ q ∈ prefixes (parent p)).
Proof.
  unfold save_config, mbind, io_bind, mkdir_parents.
  destruct (find (is_file fs) (prefixes (parent p))) as [q0|].
  { simpl. split_and!; [done..|]. intros q Hq. by left. }
  unfold open_write, write, raise.
  repeat (case_match; simpl in *; simplify_eq/=);
    (split_and!;
     [intros q Hq; by rewrite ?lookup_insert_ne by done
     |apply union_subseteq_l
     |intros q [?|?%elem_of_list_to_set]%elem_of_union; by (left + right)]).
Qed.

Lemma writable_written fs p t : writable fs p → writable (written fs p t) p.
Proof.
  intros [Hfind [Hnil Hdir]%is_dir_false]. split.
  - destruct (find (is_file (written fs p t)) _) as [q|] eqn:Hq; [|done].
    apply find_some in Hq as [Hin Hfile]. exfalso.
    apply list_elem_of_In in Hin.
    unfold is_file in Hfile. apply bool_decide_eq_true in Hfile. simpl in Hfile.
    rewrite lookup_insert_ne in Hfile
      by (intros <-; by apply (not_in_prefixes_parent p)).
    eapply find_none in Hfind; [|by apply list_elem_of_In].
    unfold is_file in Hfind. by apply bool_decide_eq_false in Hfind.
  - apply is_dir_false. split; [done|]. simpl.
    rewrite elem_of_union, elem_of_list_to_set.
    intros [?|?]; [done|]. by apply (not_in_prefixes_parent p).
Qed.

Lemma written_written fs p t1 t2 :
  written (written fs p t1) p t2 = written fs p t2.
Proof.
  unfold written. simpl. f_equal; [apply insert_insert_eq|].
  by rewrite <-(assoc_L (∪)), (idemp_L (∪)).
Qed.

(** X11: saving again to the same path overwrites: after one configuration
    and then another are saved to a writable [.yaml] or [.json] path, the
    filesystem is the one that saving the second alone leaves, and, where
    the library reads back the tree it wrote, loading returns the second. *)
Theorem save_config_last_writer_wins c1 c2 p fs :
  writable fs p →
  (suffix p = ".yaml"
   ∧ yaml_safe_load (yaml_safe_dump (PDict (to_dict c2)))
     = Ok (PDict (to_dict c2)))
  ∨ (suffix p = ".json"
     ∧ json_load (json_dump (PDict (to_dict c2))) = Ok (PDict (to_dict c2))) →
  ∃ fs1 fs2,
    save_config c1 p fs = (Ok (), fs1)
    ∧ save_config c2 p fs1 = (Ok (), fs2)
    ∧ save_config c2 p fs = (Ok (), fs2)
    ∧ load_config p fs2 = (Ok c2, fs2).
Proof.
  intros Hw Hfmt.
  pose proof (writable_written fs p) as Hw'.
  destruct Hfmt as [[Hs Hrt]|[Hs Hrt]].
  - exists (written fs p (yaml_safe_dump (PDict (to_dict c1)))),
      (written fs p (yaml_safe_dump (PDict (to_dict c2)))).
    rewrite !save_config_run by auto. rewrite Hs. simpl.
    rewrite written_written. split_and!; try done.
    erewrite load_config_file by (simpl; apply lookup_insert_eq).
    rewrite Hs. simpl. rewrite Hrt. simpl. by rewrite from_dict_to_dict.
  - exists (written fs p (json_dump (PDict (to_dict c1)))),
      (written fs p (json_dump (PDict (to_dict c2)))).
    rewrite !save_config_run by auto. rewrite Hs. simpl.
    rewrite written_written. split_and!; try done.
    erewrite load_config_file by (simpl; apply lookup_insert_eq).
    rewrite Hs. simpl. rewrite Hrt. simpl. by rewrite from_dict_to_dict.
Qed.

(** X12: a file that parses to something other than a mapping, such as an
    empty YAML file, which loads as [None], makes [load_config] raise
    [TypeError]; and a path that is a directory passes the existence test
    and makes it raise [IsADirectoryError], whatever its suffix.  The
    filesystem is left as it was. *)
Theorem load_config_not_a_configuration :
  (∀ p fs t v,
     fs_files fs !! p = Some t →
     (suffix p = ".yaml" ∧ yaml_safe_load t = Ok v)
     ∨ (suffix p = ".json" ∧ json_load t = Ok v) →
     is_dict v = false →
     load_config (E:=E) p fs = (Raise TypeError, fs))
  ∧ (∀ p fs,
       fs_files fs !! p = None → is_dir fs p = true →
       load_config (E:=E) p fs = (Raise IsADirectoryError, fs)).
Proof.
  split.
  - intros p fs t v Ht Hfmt Hv. rewrite (load_config_file p fs t Ht).
    destruct Hfmt as [[-> ->]|[-> ->]]; simpl;
      by rewrite from_dict_not_dict.
  - intros p fs Ht Hd.
    unfold load_config, mbind at 1, io_bind, path_exists.
    rewrite Hd, orb_true_r. simpl.
    unfold mbind at 1, io_bind, open_read. by rewrite Ht, Hd.
Qed.

End FileMore.

(** ** The performance report *)

Section ReportFacts.
Context `{!Statistics}.

Lemma has_column_None df col :
  df_columns df !! col = None → has_column df col = false.
Proof.
  intros Hc. unfold has_column. rewrite Hc.
  apply bool_decide_eq_false. by intros [? ?].
Qed.

Lemma has_column_Some df col column :
  df_columns df !! col = Some column → has_column df col = true.
Proof.
  intros Hc. unfold has_column. rewrite Hc.
  apply bool_decide_eq_true. eauto.
Qed.

Lemma safe_stat_default stat df col :
  df_empty df = true ∨ df_columns df !! col = None →
  safe_stat stat df col = Ok float_zero.
Proof.
  unfold safe_stat. intros [He|Hc].
  - by rewrite He, andb_false_r.
  - by rewrite (has_column_None _ _ Hc).
Qed.

Lemma safe_filter_empty df mask :
  df_empty df = true → safe_filter df mask = df_new.
Proof. unfold safe_filter. by intros ->. Qed.

Lemma safe_filter_nonempty df mask column :
  df_empty df = false → df_columns df !! "event_type" = Some column →
  safe_filter df mask = df_mask df mask.
Proof.
  unfold safe_filter. intros -> Hc. by rewrite (has_column_Some _ _ _ Hc).
Qed.

Lemma safe_filter_columns df mask col :
  df_columns df !! col = None →
  df_columns (safe_filter df mask) !! col = None.
Proof.
  unfold safe_filter. intros Hc. case_match; [|done].
  simpl. by rewrite lookup_fmap, Hc.
Qed.

(** A frame that has a column and no row. *)
Lemma df_empty_rows df col column :
  df_columns df !! col = Some column →
  df_empty df = bool_decide (df_len df = 0%nat).
Proof.
  intros Hc. unfold df_empty.
  replace (size (df_columns df) =? 0)%nat with false.
  - rewrite orb_false_r. apply eq_true_iff_eq.
    by rewrite Nat.eqb_eq, bool_decide_eq_true.
  - symmetry. apply Nat.eqb_neq. intros Hs%map_size_empty_iff.
    by rewrite Hs in Hc.
Qed.

Lemma count_true_fmap {A} (f : A → bool) (l : list A) :
  length (filter (λ b, b = true) (f <$> l)) = length (List.filter f l).
Proof.
  induction l as [|x l IH]; [done|]. cbn [fmap list_fmap List.filter].
  rewrite filter_cons. destruct (f x); case_decide; try done.
  simpl. by f_equal.
Qed.

(** The steps of a report that was built. *)
Lemma performance_report_Ok md r :
  performance_report md = Ok r →
  ∃ a1 a2 a3 a4 a5 a6 a7 col a8 g1 g2,
    safe_max md "step" = Ok a1
    ∧ safe_mean md "latency" = Ok a2
    ∧ (if has_column md "latency" && negb (df_empty md)
       then PFloat <$> (df_getitem md "latency" ≫= series_std)
       else Ok float_zero) = Ok a3
    ∧ safe_max md "memory_utilization" = Ok a4
    ∧ safe_max md "compute_utilization" = Ok a5
    ∧ safe_sum md "data_transferred" = Ok a6
    ∧ safe_mean md "transfer_time" = Ok a7
    ∧ df_columns md !! "event_type" = Some col
    ∧ safe_mean (safe_filter md (series_eq col "migration"))
        "migration_cost" = Ok a8
    ∧ (if has_column md "device_id"
       then device_means md "memory_utilization" = Ok g1
            ∧ device_means md "compute_utilization" = Ok g2
       else g1 = PDict ∅ ∧ g2 = PDict ∅)
    ∧ r = report_dict a1 a2 a3 a4 a5 a6 a7
            (df_len (safe_filter md (series_eq col "migration"))) a8 g1 g2.
Proof.
  unfold performance_report. intros H0.
  apply bind_Ok in H0 as (a1 & H1 & H0).
  apply bind_Ok in H0 as (a2 & H2 & H0).
  apply bind_Ok in H0 as (a3 & H3 & H0).
  apply bind_Ok in H0 as (a4 & H4 & H0).
  apply bind_Ok in H0 as (a5 & H5 & H0).
  apply bind_Ok in H0 as (a6 & H6 & H0).
  apply bind_Ok in H0 as (a7 & H7 & H0).
  apply bind_Ok in H0 as (col & Hcol & H0).
  apply bind_Ok in H0 as (a8 & H8 & H0).
  assert (df_columns md !! "event_type" = Some col) as Hc.
  { unfold df_getitem in Hcol. destruct (df_columns md !! "event_type");
      by simplify_eq. }
  destruct (has_column md "device_id") eqn:Hdev.
  - apply bind_Ok in H0 as (g1 & Hg1 & H0).
    apply bind_Ok in H0 as (g2 & Hg2 & H0).
    exists a1, a2, a3, a4, a5, a6, a7, col, a8, g1, g2.
    by simplify_eq.
  - exists a1, a2, a3, a4, a5, a6, a7, col, a8, (PDict ∅), (PDict ∅).
    by simplify_eq.
Qed.

End ReportFacts.

Section ReportClaims.
Context `{!Statistics} {text : Type} `{!Serializers text}.

(** X13.  [create_performance_report] subscripts the frame with
    ["event_type"] whether or not the column is there: on a frame without
    that column it raises, whatever else the frame holds, and leaves the
    filesystem as it was; on an empty frame, such as [pd.DataFrame()], the
    exception is the [KeyError] on ["event_type"]. *)
Theorem report_needs_event_type md (p : Path) (fs : FS text) :
  df_columns md !! "event_type" = None →
  ∃ e, create_performance_report md p fs = (Raise e, fs)
       ∧ (df_empty md = true → e = KeyError (PStr "event_type")).
Proof.
  intros Hc.
  assert (∃ e, performance_report md = Raise e
               ∧ (df_empty md = true → e = KeyError (PStr "event_type")))
    as (e & He & Hk).
  { destruct (performance_report md) as [r|e] eqn:Hr.
    - apply performance_report_Ok in Hr
        as (? & ? & ? & ? & ? & ? & ? & col & ? & ? & ? & Hr).
      destruct Hr as (_ & _ & _ & _ & _ & _ & _ & Hcol & _). congruence.
    - exists e. split; [done|]. intros Hem.
      unfold performance_report, safe_max, safe_mean, safe_sum in Hr.
      rewrite !safe_stat_default in Hr by by left.
      rewrite Hem, andb_false_r in Hr.
      unfold df_getitem in Hr. rewrite Hc in Hr. simpl in Hr. congruence. }
  exists e. split; [|done].
  unfold create_performance_report, mbind, io_bind, lift. by rewrite He.
Qed.

(** The values of a report, read off [report_dict]. *)
Lemma report_dict_get a1 a2 a3 a4 a5 a6 a7 n a8 g1 g2 :
  let r := report_dict a1 a2 a3 a4 a5 a6 a7 n a8 g1 g2 in
  tree_get r "summary_statistics" "total_runtime" = Some a1
  ∧ tree_get r "summary_statistics" "average_latency" = Some a2
  ∧ tree_get r "summary_statistics" "latency_std" = Some a3
  ∧ tree_get r "summary_statistics" "peak_memory_utilization" = Some a4
  ∧ tree_get r "summary_statistics" "peak_compute_utilization" = Some a5
  ∧ tree_get r "communication_statistics" "total_data_transferred" = Some a6
  ∧ tree_get r "communication_statistics" "average_transfer_time" = Some a7
  ∧ tree_get r "migration_statistics" "total_migrations"
    = Some (PInt (Z.of_nat n))
  ∧ tree_get r "migration_statistics" "average_migration_cost" = Some a8
  ∧ tree_get r "resource_utilization" "average_memory_utilization" = Some g1
  ∧ tree_get r "resource_utilization" "average_compute_utilization"
    = Some g2.
Proof. by repeat split. Qed.

(** X14.  The safe defaults of the report.  On an empty frame that has the
    ["event_type"] column and no ["device_id"] column the report is built
    without any statistic being computed.  In every report that is built, an
    entry whose column is missing, or any entry when the frame is empty, is
    [0.0]; the number of migrations of an empty frame is [0]; and the two
    per-device entries are empty dictionaries when there is no ["device_id"]
    column. *)
Theorem report_safe_defaults md :
  (df_empty md = true → is_Some (df_columns md !! "event_type") →
   df_columns md !! "device_id" = None →
   performance_report md
   = Ok (report_dict float_zero float_zero float_zero float_zero float_zero
           float_zero float_zero 0 float_zero (PDict ∅) (PDict ∅)))
  ∧ ∀ r, performance_report md = Ok r →
      Forall (λ '(col, (s, k)),
        df_empty md = true ∨ df_columns md !! col = None →
        tree_get r s k = Some float_zero) report_entries
      ∧ (df_empty md = true →
         tree_get r "migration_statistics" "total_migrations"
         = Some (PInt 0))
      ∧ (df_columns md !! "device_id" = None →
         tree_get r "resource_utilization" "average_memory_utilization"
         = Some (PDict ∅)
         ∧ tree_get r "resource_utilization" "average_compute_utilization"
           = Some (PDict ∅)).
Proof.
  split.
  - intros Hem [col Hcol] Hdev.
    unfold performance_report, safe_max, safe_mean, safe_sum.
    rewrite !safe_stat_default by by left.
    rewrite Hem, andb_false_r. unfold df_getitem at 1. rewrite Hcol.
    cbn [mbind result_bind].
    rewrite safe_filter_empty by done.
    rewrite safe_stat_default by (by left).
    by rewrite (has_column_None _ _ Hdev).
  - intros r Hr.
    apply performance_report_Ok in Hr
      as (a1 & a2 & a3 & a4 & a5 & a6 & a7 & col & a8 & g1 & g2 & Hr).
    destruct Hr as (H1 & H2 & H3 & H4 & H5 & H6 & H7 & Hcol & H8 & Hg & ->).
    pose proof (report_dict_get a1 a2 a3 a4 a5 a6 a7
      (df_len (safe_filter md (series_eq col "migration"))) a8 g1 g2)
      as (G1 & G2 & G3 & G4 & G5 & G6 & G7 & Gn & G8 & Gg1 & Gg2).
    split; [|split].
    + unfold safe_max, safe_mean, safe_sum in *.
      repeat apply Forall_cons_2; try apply Forall_nil_2; intros Hd.
      * rewrite G1. rewrite safe_stat_default in H1 by done. congruence.
      * rewrite G2. rewrite safe_stat_default in H2 by done. congruence.
      * rewrite G3.
        replace (has_column md "latency" && negb (df_empty md))
          with false in H3; [congruence|].
        destruct Hd as [->|Hd]; [by rewrite andb_false_r|].
        by rewrite (has_column_None _ _ Hd).
      * rewrite G4. rewrite safe_stat_default in H4 by done. congruence.
      * rewrite G5. rewrite safe_stat_default in H5 by done. congruence.
      * rewrite G6. rewrite safe_stat_default in H6 by done. congruence.
      * rewrite G7. rewrite safe_stat_default in H7 by done. congruence.
      * rewrite G8. rewrite safe_stat_default in H8; [congruence|].
        destruct Hd as [Hd|Hd].
        -- left. by rewrite safe_filter_empty.
        -- right. by apply safe_filter_columns.
    + intros Hem. rewrite Gn. by rewrite safe_filter_empty.
    + intros Hdev. rewrite (has_column_None _ _ Hdev) in Hg.
      destruct Hg as [-> ->]. by rewrite Gg1, Gg2.
Qed.

(** X15.  In a report built from a well-formed frame, the number of
    migrations is the number of rows whose event type is the string
    ["migration"], and, when there is such a row and a ["migration_cost"]
    column, the average migration cost is the mean of that column over
    these rows only. *)
Theorem report_counts_migrations md r :
  df_wf md → performance_report md = Ok r →
  ∃ col,
    df_columns md !! "event_type" = Some col
    ∧ tree_get r "migration_statistics" "total_migrations"
      = Some (PInt (Z.of_nat (length (List.filter (is_str "migration") col))))
    ∧ ∀ cost,
        df_columns md !! "migration_cost" = Some cost →
        List.filter (is_str "migration") col ≠ [] →
        ∃ m, series_mean (keep (series_eq col "migration") cost) = Ok m
             ∧ tree_get r "migration_statistics" "average_migration_cost"
               = Some (PFloat m).
Proof.
  intros Hwf Hr.
  apply performance_report_Ok in Hr
    as (a1 & a2 & a3 & a4 & a5 & a6 & a7 & col & a8 & g1 & g2 & Hr).
  destruct Hr as (_ & _ & _ & _ & _ & _ & _ & Hcol & H8 & _ & ->).
  pose proof (report_dict_get a1 a2 a3 a4 a5 a6 a7
    (df_len (safe_filter md (series_eq col "migration"))) a8 g1 g2)
    as (_ & _ & _ & _ & _ & _ & _ & Gn & G8 & _).
  exists col. split; [done|].
  pose proof (Hwf _ _ Hcol) as Hlen. simpl in Hlen.
  pose proof (df_empty_rows _ _ _ Hcol) as Hem.
  destruct (decide (df_len md = 0%nat)) as [Hz|Hnz].
  - rewrite bool_decide_eq_true_2 in Hem by done.
    rewrite Hz in Hlen. apply nil_length_inv in Hlen as ->.
    split; [|done].
    rewrite Gn. by rewrite safe_filter_empty.
  - rewrite bool_decide_eq_false_2 in Hem by done.
    rewrite (safe_filter_nonempty _ _ _ Hem Hcol) in *.
    split.
    + rewrite Gn. unfold df_mask, series_eq. simpl.
      by rewrite count_true_fmap.
    + intros cost Hcost Hsome. rewrite G8.
      unfold safe_mean, safe_stat in H8.
      assert (df_columns (df_mask md (series_eq col "migration"))
                !! "migration_cost"
              = Some (keep (series_eq col "migration") cost)) as Hk.
      { unfold df_mask. simpl. by rewrite lookup_fmap, Hcost. }
      rewrite (has_column_Some _ _ _ Hk) in H8.
      rewrite (df_empty_rows _ _ _ Hk) in H8.
      rewrite bool_decide_eq_false_2 in H8; last first.
      { unfold df_mask, series_eq. simpl. rewrite count_true_fmap.
        by destruct (List.filter _ col). }
      unfold df_getitem in H8. rewrite Hk in H8. simpl in H8.
      destruct (series_mean _) as [m|]; [|done].
      exists m. split; [done|]. simpl in H8. congruence.
Qed.

(** X16.  [create_performance_report] touches the filesystem last and
    creates no directory.  Every failure, of a statistic or of opening the
    file, leaves the filesystem as it was; a report that is built is written
    where the parent of the path is a directory and the path itself is not,
    and only the file at the path changes; and where the parent of the path
    is not a directory the call raises, whatever the frame. *)
Theorem create_performance_report_writes_last md (p : Path) (fs : FS text) :
  (∀ e fs', create_performance_report md p fs = (Raise e, fs') → fs' = fs)
  ∧ (∀ r, performance_report md = Ok r →
       is_dir fs (parent p) = true → is_dir fs p = false →
       create_performance_report md p fs
       = (Ok (), mkFS (<[p := json_dump (PDict r)]> (fs_files fs))
                      (fs_dirs fs)))
  ∧ (is_dir fs (parent p) = false →
     ∃ e, create_performance_report md p fs = (Raise e, fs)).
Proof.
  unfold create_performance_report, mbind, io_bind, lift, open_write, write.
  split; [|split].
  - intros e fs'. destruct (performance_report md); [|congruence].
    destruct (is_dir fs p); [congruence|].
    destruct (is_dir fs (parent p)); simpl; congruence.
  - intros r -> -> ->. simpl. by rewrite insert_insert_eq.
  - intros ->. destruct (performance_report md); [|by eexists].
    destruct (is_dir fs p); by eexists.
Qed.

End ReportClaims.

(** ** Plotting a whole run *)

Section PlotClaims.
Context {text fig : Type}.
Context `{!Serializers text} `{!Statistics} `{!Plotting text fig}.

Lemma io_bind_Ok {A B} (m : io text A) (f : A → io text B) fs b fs' :
  (m ≫= f) fs = (Ok b, fs') →
  ∃ a fs1, m fs = (Ok a, fs1) ∧ f a fs1 = (Ok b, fs').
Proof.
  unfold mbind, io_bind. destruct (m fs) as [[a|e] fs1]; [eauto|done].
Qed.

Lemma lift_Ok {A} (r : result A) (fs : FS text) a fs' :
  lift r fs = (Ok a, fs') → r = Ok a ∧ fs' = fs.
Proof. unfold lift. by intros [= -> ->]. Qed.

Lemma create_performance_report_Ok md (p : Path) (fs fs' : FS text) :
  create_performance_report md p fs = (Ok (), fs') →
  ∃ r, performance_report md = Ok r
       ∧ fs' = mkFS (<[p := json_dump (PDict r)]> (fs_files fs)) (fs_dirs fs).
Proof.
  unfold create_performance_report. intros Hrun.
  apply io_bind_Ok in Hrun as (r & fs1 & [Hr ->]%lift_Ok & Hrun).
  exists r. split; [done|].
  apply io_bind_Ok in Hrun as ([] & fs2 & Hopen & Hwrite).
  unfold open_write in Hopen. unfold write in Hwrite.
  destruct (is_dir fs p); [done|].
  destruct (negb (is_dir fs (parent p))); [done|].
  simplify_eq. simpl. by rewrite insert_insert_eq.
Qed.

(** What a run of the three plots went through. *)
Lemma plot_all_Ok metrics_dir dir (fs : FS text) md fs1 :
  plot_all metrics_dir dir fs = (Ok md, fs1) →
  find (is_file fs) (prefixes (to_path dir)) = None
  ∧ read_json_lines (to_path metrics_dir ++ ["metrics.jsonl"])
      (mkFS (fs_files fs)
            (fs_dirs fs ∪ list_to_set (prefixes (to_path dir)))) = Ok md
  ∧ is_Some (df_columns md !! "device_id")
  ∧ is_Some (df_columns md !! "event_type").
Proof.
  unfold plot_all. intros Hrun.
  apply io_bind_Ok in Hrun as (viz & fs2 & Hinit & Hrun).
  apply io_bind_Ok in Hrun as (md' & fs3 & Hread & Hrun).
  apply io_bind_Ok in Hrun as (ids & fs4 & [Hids ->]%lift_Ok & Hrun).
  apply io_bind_Ok in Hrun as (f1 & fs5 & _ & Hrun).
  apply io_bind_Ok in Hrun as ([] & fs6 & _ & Hrun).
  apply io_bind_Ok in Hrun as (ev & fs7 & [Hev ->]%lift_Ok & Hrun).
  apply io_bind_Ok in Hrun as (f2 & fs8 & _ & Hrun).
  apply io_bind_Ok in Hrun as ([] & fs9 & _ & Hrun).
  apply io_bind_Ok in Hrun as (ev' & fs10 & _ & Hrun).
  apply io_bind_Ok in Hrun as (f3 & fs11 & _ & Hrun).
  apply io_bind_Ok in Hrun as ([] & fs12 & _ & Hrun).
  injection Hrun as -> ->.
  unfold VisualizationManager_init in Hinit.
  apply io_bind_Ok in Hinit as ([] & fs13 & Hmk & Hinit).
  apply io_bind_Ok in Hinit as ([] & fs14 & [_ ->]%lift_Ok & Hinit).
  injection Hinit as _ <-.
  unfold mkdir_parents in Hmk. cbn [output_dir] in Hmk.
  destruct (find _ _) eqn:Hfind; [done|]. injection Hmk as <-.
  unfold pd_read_json in Hread. injection Hread as Hread <-.
  split_and!; [done|done| |].
  - unfold df_getitem in Hids.
    destruct (df_columns md !! "device_id"); [by eexists|done].
  - unfold df_getitem in Hev.
    destruct (df_columns md !! "event_type"); [by eexists|done].
Qed.

(** X17.  [plot_all_metrics] can return only if its output directory was
    passed as a [Path] object, no regular file stands where that directory
    or one of its ancestors is to be, and the frame read from
    [metrics.jsonl] has the columns ["device_id"] and ["event_type"]; the
    report is then in [performance_report.json] of the output directory. *)
Theorem plot_all_metrics_returns_only_if metrics_dir dir (fs fs' : FS text) :
  plot_all_metrics metrics_dir dir fs = (Ok (), fs') →
  ∃ p md r,
    dir = AsPath p
    ∧ find (is_file fs) (prefixes p) = None
    ∧ read_json_lines (to_path metrics_dir ++ ["metrics.jsonl"])
        (mkFS (fs_files fs) (fs_dirs fs ∪ list_to_set (prefixes p))) = Ok md
    ∧ is_Some (df_columns md !! "device_id")
    ∧ is_Some (df_columns md !! "event_type")
    ∧ performance_report md = Ok r
    ∧ fs_files fs' !! (p ++ ["performance_report.json"])
      = Some (json_dump (PDict r)).
Proof.
  unfold plot_all_metrics. intros Hrun.
  apply io_bind_Ok in Hrun as (md & fs1 & Hplots & Hrun).
  apply io_bind_Ok in Hrun as (out & fs2 & [Hdiv ->]%lift_Ok & Hrun).
  destruct dir as [p|p]; [done|]. injection Hdiv as <-.
  apply create_performance_report_Ok in Hrun as (r & Hr & ->).
  apply plot_all_Ok in Hplots as (Hfind & Hread & Hdev & Hev).
  exists p, md, r. split_and!; try done.
  simpl. by rewrite lookup_insert_eq.
Qed.

(** X18.  With the output directory passed as a string, which the signature
    allows, [plot_all_metrics] never returns: it raises whatever the
    metrics hold, and when the three plots were drawn and saved it raises
    [TypeError] on the path of the report, with the filesystem as the plots
    left it, before the report is built. *)
Theorem plot_all_metrics_str_output_dir metrics_dir (p : Path)
  (fs : FS text) :
  (∃ e fs', plot_all_metrics metrics_dir (AsStr p) fs = (Raise e, fs'))
  ∧ ∀ md fs1,
      plot_all metrics_dir (AsStr p) fs = (Ok md, fs1) →
      plot_all_metrics metrics_dir (AsStr p) fs = (Raise TypeError, fs1).
Proof.
  unfold plot_all_metrics, mbind at 1 3, io_bind at 1 3.
  split.
  - destruct (plot_all metrics_dir (AsStr p) fs) as [[md|e] fs1];
      by eexists _, _.
  - by intros md fs1 ->.
Qed.

End PlotClaims.

(** ** The bars, the colours and the widths *)

Lemma bar_heights_seq latencies algo i n :
  bar_heights latencies algo (seq i n)
  = match n, latencies !! algo with
    | O, _ => inr []
    | S _, None => inl (Exn (KeyError (PStr algo)))
    | S _, Some l =>
        if decide (i + n ≤ length l)%nat then inr (take n (drop i l))
        else inl IndexError
    end.
Proof.
  revert i. induction n as [|n IH]; intros i; [done|].
  cbn [seq bar_heights]. destruct (latencies !! algo) as [l|] eqn:Hl; [|done].
  destruct (l !! i) as [v|] eqn:Hv.
  - apply lookup_lt_Some in Hv as Hlt. rewrite IH.
    rewrite (drop_S _ _ _ Hv). cbn [take].
    destruct n as [|n].
    + rewrite decide_True by lia. by rewrite take_0.
    + destruct (decide (S i + S n ≤ length l)%nat).
      * by rewrite decide_True by lia.
      * by rewrite decide_False by lia.
  - apply lookup_ge_None in Hv. by rewrite decide_False by lia.
Qed.

(** The heights of one algorithm, over all the workload types. *)
Lemma bar_heights_all latencies algo n :
  bar_heights latencies algo (seq 0 n)
  = match n, latencies !! algo with
    | O, _ => inr []
    | S _, None => inl (Exn (KeyError (PStr algo)))
    | S _, Some l =>
        if decide (n ≤ length l)%nat then inr (take n l) else inl IndexError
    end.
Proof. by rewrite bar_heights_seq. Qed.

Lemma bar_heights_fits latencies algo n :
  (n = 0%nat ∨ ∃ l, latencies !! algo = Some l ∧ (n ≤ length l)%nat) →
  bar_heights latencies algo (seq 0 n)
  = inr (take n (default [] (latencies !! algo))).
Proof.
  rewrite bar_heights_all. intros [->|(l & Hl & Hn)]; [done|].
  rewrite Hl. simpl. destruct n; [done|]. by rewrite decide_True.
Qed.

Lemma bars_fit latencies n algorithms :
  (n = 0%nat
   ∨ Forall (λ algo, ∃ l, latencies !! algo = Some l ∧ (n ≤ length l)%nat)
       algorithms) →
  bars latencies n algorithms
  = inr ((λ algo, (algo, take n (default [] (latencies !! algo))))
           <$> algorithms).
Proof.
  intros Hfit. induction algorithms as [|algo rest IH]; [done|].
  cbn [bars]. rewrite bar_heights_fits, IH; [done| |].
  - destruct Hfit as [?|Hfit]; [by left|right]. by inversion Hfit.
  - destruct Hfit as [?|Hfit]; [by left|right]. by inversion Hfit.
Qed.

Lemma bars_inr latencies n algorithms drawn :
  bars latencies n algorithms = inr drawn →
  n = 0%nat
  ∨ Forall (λ algo, ∃ l, latencies !! algo = Some l ∧ (n ≤ length l)%nat)
      algorithms.
Proof.
  destruct n as [|n]; [by left|]. intros Hb. right.
  revert drawn Hb. induction algorithms as [|algo rest IH]; intros drawn Hb;
    [done|].
  cbn [bars] in Hb. rewrite bar_heights_all in Hb.
  destruct (latencies !! algo) as [l|] eqn:Hl; [|done].
  destruct (decide (S n ≤ length l)%nat); [|done].
  destruct (bars latencies (S n) rest) as [|drawn'] eqn:Hrest; [done|].
  constructor; [by exists l|]. by apply (IH drawn').
Qed.

Lemma bars_first_failure latencies n pre algo post e :
  Forall (λ algo, ∃ l, latencies !! algo = Some l ∧ (n ≤ length l)%nat) pre →
  bar_heights latencies algo (seq 0 n) = inl e →
  bars latencies n (pre ++ algo :: post) = inl e.
Proof.
  intros Hpre Hfail. induction Hpre as [|a pre Ha Hpre IH].
  - cbn [app bars]. by rewrite Hfail.
  - cbn [app bars]. rewrite bar_heights_fits by by right. by rewrite IH.
Qed.

(** X19.  The bars of [plot_latency_comparison].  With no algorithm the
    call raises [ZeroDivisionError].  It draws exactly when there is an
    algorithm and either there is no workload type, in which case
    [latencies] is not looked at, or every algorithm has at least as many
    latencies as there are workload types; each algorithm then gets the
    first latencies of its list, one for each workload type, and what the
    list holds beyond them is dropped.  Otherwise the first algorithm in
    order that does not fit decides: [KeyError] when it has no entry,
    [IndexError] when its list is too short. *)
Theorem plot_latency_comparison_bars (algorithms : list string)
  (latencies : gmap string (list pyval)) (workload_types : list string) :
  (algorithms = [] →
   plot_latency_comparison algorithms latencies workload_types
   = inl ZeroDivisionError)
  ∧ (∀ drawn,
       plot_latency_comparison algorithms latencies workload_types
       = inr drawn
       ↔ algorithms ≠ []
         ∧ (workload_types = []
            ∨ Forall (λ algo, ∃ l, latencies !! algo = Some l
                        ∧ (length workload_types ≤ length l)%nat)
                algorithms)
         ∧ drawn
           = (λ algo, (algo, take (length workload_types)
                               (default [] (latencies !! algo))))
               <$> algorithms)
  ∧ (∀ pre algo post,
       algorithms = pre ++ algo :: post → workload_types ≠ [] →
       Forall (λ algo, ∃ l, latencies !! algo = Some l
                 ∧ (length workload_types ≤ length l)%nat) pre →
       (latencies !! algo = None →
        plot_latency_comparison algorithms latencies workload_types
        = inl (Exn (KeyError (PStr algo))))
       ∧ (∀ l, latencies !! algo = Some l →
            (length l < length workload_types)%nat →
            plot_latency_comparison algorithms latencies workload_types
            = inl IndexError)).
Proof.
  unfold plot_latency_comparison. split_and!.
  - by intros ->.
  - intros drawn. destruct algorithms as [|a rest]; [by split; [|intros []]|].
    rewrite decide_False by done.
    assert (workload_types = [] ↔ length workload_types = 0%nat) as Hnil
      by (by destruct workload_types).
    split.
    + intros Hb. split; [done|].
      pose proof (bars_inr _ _ _ _ Hb) as Hfit.
      rewrite bars_fit in Hb by done.
      split; [|congruence]. destruct Hfit as [?|?]; [left|right]; tauto.
    + intros (_ & Hfit & ->). apply bars_fit.
      destruct Hfit as [?|?]; [left|right]; tauto.
  - intros pre algo post -> Hne Hpre.
    rewrite decide_False by (rewrite length_app; simpl; lia).
    destruct workload_types as [|w ws]; [done|]. split.
    + intros Hnone. apply bars_first_failure; [done|].
      rewrite bar_heights_all. simpl. by rewrite Hnone.
    + intros l Hl Hshort. apply bars_first_failure; [done|].
      rewrite bar_heights_all. cbn [length]. rewrite Hl.
      by rewrite decide_False by (simpl in Hshort; lia).
Qed.

Lemma node_color_all node_colors ns :
  Forall (λ x, is_Some (node_colors !! x)) ns →
  ∃ colours, node_color node_colors ns = Ok colours
    ∧ Forall2 (λ x c, node_colors !! x = Some c) ns colours.
Proof.
  induction 1 as [|x ns [c Hc] _ (colours & IH & Hall)].
  - by exists [].
  - exists (c :: colours). cbn [node_color]. rewrite Hc, IH.
    split; [done|]. by constructor.
Qed.

Lemma node_color_first_missing node_colors pre node post :
  Forall (λ x, is_Some (node_colors !! x)) pre →
  node_colors !! node = None →
  node_color node_colors (pre ++ node :: post) = Raise (KeyError (PStr node)).
Proof.
  intros Hpre Hnone. induction Hpre as [|x pre [c Hc] _ IH].
  - cbn [app node_color]. by rewrite Hnone.
  - cbn [app node_color]. by rewrite Hc, IH.
Qed.

(** X20.  The colours and widths of [plot_network_topology].  Every node of
    the graph needs a colour: the first node in order that has none raises
    [KeyError] on that node, before anything is drawn.  When every node has
    one, the colours are those of the nodes in order, and there is one width
    for each edge in order: the weight stored under the pair as the graph
    gives it, and [1.0] when there is none, also when a weight is stored
    under the reversed pair.  Colours and weights of nodes and edges that
    the graph does not have are ignored. *)
Theorem plot_network_topology_colours_and_widths (graph : Graph)
  (node_colors : gmap string string)
  (edge_weights : gmap (string * string) pyval) :
  (∀ pre node post,
     nodes graph = pre ++ node :: post →
     Forall (λ x, is_Some (node_colors !! x)) pre →
     node_colors !! node = None →
     plot_network_topology graph node_colors edge_weights
     = Raise (KeyError (PStr node)))
  ∧ (Forall (λ x, is_Some (node_colors !! x)) (nodes graph) →
     ∃ colours widths,
       plot_network_topology graph node_colors edge_weights
       = Ok (colours, widths)
       ∧ Forall2 (λ x c, node_colors !! x = Some c) (nodes graph) colours
       ∧ length widths = length (edges graph)
       ∧ ∀ i u v,
           edges graph !! i = Some (u, v) →
           widths !! i
           = Some (match edge_weights !! (u, v) with
                   | Some w => w
                   | None => float_of_Z 1
                   end)).
Proof.
  unfold plot_network_topology. split.
  - intros pre node post -> Hpre Hnone.
    by rewrite (node_color_first_missing _ _ _ _ Hpre Hnone).
  - intros Hall. destruct (node_color_all _ _ Hall) as (colours & -> & Hc).
    exists colours, (edge_widths edge_weights (edges graph)).
    split_and!; [done|done| |].
    + unfold edge_widths. by rewrite length_fmap.
    + intros i u v Hi. unfold edge_widths.
      rewrite list_lookup_fmap, Hi. simpl.
      by destruct (edge_weights !! (u, v)).
Qed.

(** ** The further properties on concrete inputs *)

Lemma from_dict_reads_five_sections_witness :
  (∀ s, s ∈ section_names →
     to_dict Sample.default_config !! s = SampleRun.commented_tree !! s)
  ∧ from_dict (E:=Sample.WorkloadType) (PDict (to_dict Sample.default_config))
    = from_dict (PDict SampleRun.commented_tree).
Proof.
  assert (∀ s, s ∈ section_names →
            to_dict Sample.default_config !! s
            = SampleRun.commented_tree !! s) as Hagree.
  { intros s Hs. apply list_elem_of_In in Hs. simpl in Hs.
    destruct Hs as [<-|[<-|[<-|[<-|[<-|[]]]]]]; reflexivity. }
  split; [exact Hagree|].
  exact (from_dict_reads_five_sections _ _ Hagree).
Defined.

Lemma from_dict_needs_every_section_witness :
  from_dict (E:=Sample.WorkloadType)
    (PDict (delete "algorithm" (to_dict Sample.default_config)))
  = Raise (KeyError (PStr "algorithm"))
  ∧ from_dict (E:=Sample.WorkloadType) (PList []) = Raise TypeError.
Proof.
  split.
  - apply (proj2 (from_dict_needs_every_section (E:=Sample.WorkloadType))
             (to_dict Sample.default_config) Sample.default_config).
    + apply from_dict_to_dict.
    + apply list_elem_of_In. simpl. tauto.
  - apply (proj1 (from_dict_needs_every_section (E:=Sample.WorkloadType))).
    reflexivity.
Defined.

Lemma from_dict_keeps_fields_and_fills_defaults_witness :
  ∃ c, from_dict (E:=Sample.WorkloadType) (PDict SampleRun.minimal_tree)
       = Ok c
    ∧ tree_get (to_dict c) "network" "num_devices" = Some (PInt 8)
    ∧ tree_get (to_dict c) "algorithm" "backtrack_limit" = Some (PInt 100)
    ∧ WorkloadConfig.model_type (workload c) = Sample.Medium.
Proof.
  assert (∃ c, from_dict (E:=Sample.WorkloadType)
                 (PDict SampleRun.minimal_tree) = Ok c) as [c Hc]
    by (eexists; reflexivity).
  exists c. split; [exact Hc|].
  destruct (from_dict_keeps_fields_and_fills_defaults _ _ Hc)
    as [Hfields (name & Hname & Hmember)].
  split_and!.
  - rewrite (Hfields "network" "num_devices"); [reflexivity| |done].
    apply list_elem_of_In. simpl. tauto.
  - rewrite (Hfields "algorithm" "backtrack_limit"); [reflexivity| |done].
    apply list_elem_of_In. simpl. tauto.
  - change (Some (PStr "MEDIUM") = Some (PStr name)) in Hname.
    injection Hname as <-.
    change (Some Sample.Medium
            = Some (WorkloadConfig.model_type (workload c))) in Hmember.
    by injection Hmember as <-.
Defined.

Lemma update_dict_keeps_keys_witness :
  update_dict {["seed" := PInt 7; "name" := PStr "run"]} {["seed" := PNone]}
    !! "seed" = Some PNone
  ∧ dom (update_dict {["seed" := PInt 7; "name" := PStr "run"]}
           {["seed" := PNone]})
    = dom ({["seed" := PInt 7; "name" := PStr "run"]} : gmap string pyval)
      ∪ dom ({["seed" := PNone]} : gmap string pyval).
Proof.
  split.
  - apply (proj2 (update_dict_keeps_keys _ _)). reflexivity.
  - apply (proj1 (update_dict_keeps_keys _ _)).
Defined.

Lemma merge_configs_reads_five_sections_witness :
  (∀ s, s ∈ section_names → SampleRun.misspelt_override !! s = None)
  ∧ merge_configs Sample.default_config SampleRun.misspelt_override
    = Ok Sample.default_config.
Proof.
  assert (∀ s, s ∈ section_names → SampleRun.misspelt_override !! s = None)
    as Hnone.
  { intros s Hs. apply list_elem_of_In in Hs. simpl in Hs.
    destruct Hs as [<-|[<-|[<-|[<-|[<-|[]]]]]]; reflexivity. }
  split; [exact Hnone|].
  exact (proj2 (merge_configs_reads_five_sections Sample.default_config
                  SampleRun.misspelt_override SampleRun.misspelt_override)
           Hnone).
Defined.

Lemma merge_configs_succeeds_iff_witness :
  (∃ r, merge_configs Sample.default_config SampleRun.devices_override
        = Ok r)
  ∧ override_accepted (E:=Sample.WorkloadType) SampleRun.devices_override.
Proof.
  assert (∃ r, merge_configs Sample.default_config
                 SampleRun.devices_override = Ok r) as Hr.
  { exists (set_num_devices (PInt 4) Sample.default_config).
    by apply (merge_configs_network_field Sample.default_config (PInt 4)). }
  split; [exact Hr|].
  exact (proj1 (merge_configs_succeeds_iff Sample.default_config
                  SampleRun.devices_override) Hr).
Defined.


Lemma save_config_frame_witness :
  fs_files
    (save_config Sample.default_config ["out"; "config.json"]
       Sample.txt_fs).2 !! ["notes.txt"]
  = Some (Some (PStr "remember the milk")).
Proof.
  rewrite (proj1 (save_config_frame Sample.default_config
                    ["out"; "config.json"] Sample.txt_fs) ["notes.txt"]);
    [reflexivity|discriminate].
Defined.

Lemma save_config_last_writer_wins_witness :
  writable Sample.empty_fs ["out"; "config.json"]
  ∧ ∃ fs1 fs2,
      save_config Sample.default_config ["out"; "config.json"]
        Sample.empty_fs = (Ok (), fs1)
      ∧ save_config Sample.mistyped ["out"; "config.json"] fs1 = (Ok (), fs2)
      ∧ save_config Sample.mistyped ["out"; "config.json"] Sample.empty_fs
        = (Ok (), fs2)
      ∧ load_config ["out"; "config.json"] fs2 = (Ok Sample.mistyped, fs2).
Proof.
  assert (writable Sample.empty_fs ["out"; "config.json"]) as Hw
    by (split; reflexivity).
  split; [exact Hw|].
  apply (save_config_last_writer_wins Sample.default_config Sample.mistyped
           ["out"; "config.json"] Sample.empty_fs Hw).
  right. split; reflexivity.
Defined.

Lemma load_config_not_a_configuration_witness :
  load_config (E:=Sample.WorkloadType) ["empty.yaml"] SampleRun.empty_yaml_fs
  = (Raise TypeError, SampleRun.empty_yaml_fs)
  ∧ load_config (E:=Sample.WorkloadType) ["results"] Sample.results_fs
    = (Raise IsADirectoryError, Sample.results_fs).
Proof.
  split.
  - apply (proj1 (load_config_not_a_configuration (E:=Sample.WorkloadType))
             ["empty.yaml"] SampleRun.empty_yaml_fs None PNone).
    + reflexivity.
    + left. split; reflexivity.
    + reflexivity.
  - apply (proj2 (load_config_not_a_configuration (E:=Sample.WorkloadType))
             ["results"] Sample.results_fs); reflexivity.
Defined.

Section OnTheSampleRun.
#[local] Existing Instance SampleRun.statistics.
#[local] Existing Instance SampleRun.plotting.

Lemma report_needs_event_type_witness :
  df_columns df_new !! "event_type" = None
  ∧ create_performance_report df_new ["report.json"] Sample.empty_fs
    = (Raise (KeyError (PStr "event_type")), Sample.empty_fs).
Proof.
  split; [reflexivity|].
  destruct (report_needs_event_type df_new ["report.json"] Sample.empty_fs
              eq_refl) as (e & Hrun & Hkey).
  rewrite Hrun. by rewrite (Hkey eq_refl).
Defined.

Lemma report_safe_defaults_witness :
  performance_report SampleRun.idle_frame
  = Ok (report_dict float_zero float_zero float_zero float_zero float_zero
          float_zero float_zero 0 float_zero (PDict ∅) (PDict ∅))
  ∧ performance_report SampleRun.run_frame = Ok SampleRun.run_report
  ∧ tree_get SampleRun.run_report "summary_statistics" "average_latency"
    = Some float_zero.
Proof.
  split; [|split].
  - apply (proj1 (report_safe_defaults SampleRun.idle_frame)).
    + reflexivity.
    + by eexists.
    + reflexivity.
  - reflexivity.
  - assert (performance_report SampleRun.run_frame = Ok SampleRun.run_report)
      as Hr by reflexivity.
    pose proof (proj1 (proj2 (report_safe_defaults SampleRun.run_frame)
                         SampleRun.run_report Hr)) as Hall.
    apply Forall_inv_tail, Forall_inv in Hall. apply Hall.
    right. reflexivity.
Defined.

Lemma report_counts_migrations_witness :
  df_wf SampleRun.run_frame
  ∧ performance_report SampleRun.run_frame = Ok SampleRun.run_report
  ∧ tree_get SampleRun.run_report "migration_statistics" "total_migrations"
    = Some (PInt 2)
  ∧ tree_get SampleRun.run_report "migration_statistics"
      "average_migration_cost"
    = Some (PFloat (SampleRun.whole 5)).
Proof.
  assert (df_wf SampleRun.run_frame) as Hwf.
  { unfold df_wf, SampleRun.run_frame. cbn [df_columns df_len].
    repeat (apply map_Forall_insert_2; [reflexivity|]).
    apply map_Forall_empty. }
  assert (performance_report SampleRun.run_frame = Ok SampleRun.run_report)
    as Hr by reflexivity.
  split_and!; [exact Hwf|exact Hr|..].
  - destruct (report_counts_migrations _ _ Hwf Hr) as (col & Hcol & Hn & _).
    change (Some [PStr "migration"; PStr "communication"; PStr "migration"]
            = Some col) in Hcol.
    injection Hcol as <-. exact Hn.
  - destruct (report_counts_migrations _ _ Hwf Hr) as (col & Hcol & _ & Hm).
    change (Some [PStr "migration"; PStr "communication"; PStr "migration"]
            = Some col) in Hcol.
    injection Hcol as <-.
    destruct (Hm [PInt 4; PInt 7; PInt 6] eq_refl) as (m & Hmean & Hget);
      [discriminate|].
    change (Ok (SampleRun.whole 5) = Ok m) in Hmean.
    injection Hmean as <-. exact Hget.
Defined.

Lemma create_performance_report_writes_last_witness :
  create_performance_report SampleRun.run_frame ["report.json"]
    Sample.empty_fs
  = (Ok (),
     mkFS (<[ ["report.json"] := Some (PDict SampleRun.run_report) ]> ∅) ∅)
  ∧ ∃ e, create_performance_report SampleRun.run_frame
           ["out"; "report.json"] Sample.empty_fs
         = (Raise e, Sample.empty_fs).
Proof.
  split.
  - etrans.
    { apply (proj1 (proj2 (create_performance_report_writes_last
               SampleRun.run_frame ["report.json"] Sample.empty_fs))
               SampleRun.run_report).
      - reflexivity.
      - reflexivity.
      - reflexivity. }
    reflexivity.
  - apply (proj2 (proj2 (create_performance_report_writes_last
             SampleRun.run_frame ["out"; "report.json"] Sample.empty_fs))).
    reflexivity.
Defined.

Lemma plot_all_metrics_returns_only_if_witness :
  ∃ fs',
    plot_all_metrics (AsStr ["metrics"]) (AsPath ["out"]) SampleRun.metrics_fs
    = (Ok (), fs')
    ∧ fs_files fs' !! ["out"; "performance_report.json"]
      = Some (Some (PDict SampleRun.run_report)).
Proof.
  pose (plot_all_metrics (AsStr ["metrics"]) (AsPath ["out"])
          SampleRun.metrics_fs).2 as fs'.
  assert (plot_all_metrics (AsStr ["metrics"]) (AsPath ["out"])
            SampleRun.metrics_fs = (Ok (), fs')) as Hrun
    by (vm_cast_no_check (eq_refl (Ok (), fs'))).
  exists fs'. split; [exact Hrun|].
  destruct (plot_all_metrics_returns_only_if _ _ _ _ Hrun)
    as (p & md & r & Hp & _ & Hread & _ & _ & Hr & Hfile).
  injection Hp as <-.
  change (Ok SampleRun.run_frame = Ok md) in Hread. injection Hread as <-.
  change (Ok SampleRun.run_report = Ok r) in Hr. injection Hr as <-.
  exact Hfile.
Defined.

Lemma plot_all_metrics_str_output_dir_witness :
  ∃ fs1,
    plot_all_metrics (AsStr ["metrics"]) (AsStr ["out"]) SampleRun.metrics_fs
    = (Raise TypeError, fs1)
    ∧ fs_files fs1 !! ["out"; "migration_analysis.pdf"]
      = Some (Some (PStr "migration_analysis"))
    ∧ fs_files fs1 !! ["out"; "performance_report.json"] = None.
Proof.
  pose (plot_all (AsStr ["metrics"]) (AsStr ["out"])
          SampleRun.metrics_fs).2 as fs1.
  assert (plot_all (AsStr ["metrics"]) (AsStr ["out"]) SampleRun.metrics_fs
          = (Ok SampleRun.run_frame, fs1)) as Hplots
    by (vm_cast_no_check (eq_refl (Ok SampleRun.run_frame, fs1))).
  exists fs1. split_and!.
  - exact (proj2 (plot_all_metrics_str_output_dir (AsStr ["metrics"]) ["out"]
                    SampleRun.metrics_fs) _ _ Hplots).
  - vm_cast_no_check (eq_refl (Some (Some (PStr "migration_analysis")))).
  - vm_cast_no_check (eq_refl (@None (option pyval))).
Defined.

End OnTheSampleRun.

Lemma plot_latency_comparison_bars_witness :
  plot_latency_comparison [] {["greedy" := [PInt 3]]} ["small"]
  = inl ZeroDivisionError
  ∧ plot_latency_comparison ["greedy"; "exact"]
      {["greedy" := [PInt 3; PInt 5]; "exact" := [PInt 4]]}
      ["small"; "large"]
    = inl IndexError
  ∧ plot_latency_comparison ["greedy"; "random"]
      {["greedy" := [PInt 3; PInt 5]]} ["small"; "large"]
    = inl (Exn (KeyError (PStr "random"))).
Proof.
  split_and!.
  - apply (proj1 (plot_latency_comparison_bars [] _ ["small"])).
    reflexivity.
  - apply (proj2 (proj2 (proj2 (plot_latency_comparison_bars
             ["greedy"; "exact"]
             {["greedy" := [PInt 3; PInt 5]; "exact" := [PInt 4]]}
             ["small"; "large"])) ["greedy"] "exact" [] eq_refl
             ltac:(discriminate)
             ltac:(repeat constructor; exists [PInt 3; PInt 5];
                   split; [reflexivity|simpl; lia]))
           [PInt 4]).
    + reflexivity.
    + simpl. lia.
  - apply (proj1 (proj2 (proj2 (plot_latency_comparison_bars
             ["greedy"; "random"] {["greedy" := [PInt 3; PInt 5]]}
             ["small"; "large"])) ["greedy"] "random" [] eq_refl
             ltac:(discriminate)
             ltac:(repeat constructor; exists [PInt 3; PInt 5];
                   split; [reflexivity|simpl; lia]))).
    reflexivity.
Defined.

Lemma plot_network_topology_colours_and_widths_witness :
  (∃ colours widths,
     plot_network_topology SampleRun.triangle SampleRun.triangle_colors
       SampleRun.triangle_weights = Ok (colours, widths)
     ∧ widths !! 1%nat = Some (float_of_Z 1))
  ∧ plot_network_topology SampleRun.triangle {["a" := "red"]}
      SampleRun.triangle_weights
    = Raise (KeyError (PStr "b")).
Proof.
  split.
  - destruct (proj2 (plot_network_topology_colours_and_widths
                SampleRun.triangle SampleRun.triangle_colors
                SampleRun.triangle_weights))
      as (colours & widths & Hrun & _ & _ & Hw).
    + repeat constructor; by eexists.
    + exists colours, widths. split; [exact Hrun|].
      exact (Hw 1%nat "b" "c" eq_refl).
  - apply (proj1 (plot_network_topology_colours_and_widths
             SampleRun.triangle {["a" := "red"]} SampleRun.triangle_weights)
             ["a"] "b" ["c"]).
    + reflexivity.
    + repeat constructor. by eexists.
    + reflexivity.
Defined.
